(** * Vehicle monitor with HCNG safety subsystem: a shallow embedding of main.py

    The development follows the classes of [main.py]: [GasSensor] (moving
    average and time-confirmed thresholds), [ValveController] (the fuel valve
    and its GPIO line), [AIInferenceEngine] (normalisation and the simulated
    anomaly score) and [VehicleMonitorSystem] (the priority loop and the
    shutdown sequence).

    Numbers.  Python floats are modelled by exact rationals [Q]; raw ADC
    counts are integers [Z]; the readings of [time.time()] are rationals that
    the environment supplies with each step.  Strings used as status values
    are inductive types, one constructor per literal of the source.

    Threads.  The gas thread, the OBD thread and the main loop are
    interleaved as a schedule of steps: one pass of a producer thread, one
    turn of the main loop, or the shutdown.  Each producer publishes under
    its lock, so a pass is one step; a turn of the main loop is taken as one
    step too.

    RPi.GPIO.  The library is outside [main.py]; it is modelled by what the
    program depends on: the setup calls of the constructor return or raise
    as the machine decides, [GPIO.output] raises for a pin that is not set
    up as an output and drives it otherwise, [GPIO.cleanup] releases the
    pin.  An exception is followed to the handler that catches it. *)

From Stdlib Require Import ZArith QArith Qabs Lqa Lia List String.
From stdpp Require Import gmap strings.
Import ListNotations.

Open Scope Q_scope.

(** ** Python helpers *)

(** [a < b] on floats, as a boolean. *)
Definition Qlt_bool (a b : Q) : bool := negb (Qle_bool b a).

(** Python's [min(a, b)]: the first argument unless the second is smaller. *)
Definition py_min (a b : Q) : Q := if Qlt_bool b a then b else a.

(** Python's [max(a, b)]: the first argument unless the second is larger. *)
Definition py_max (a b : Q) : Q := if Qlt_bool a b then b else a.

(** Python's [int(x)] on a float: truncation towards zero. *)
Definition py_int (x : Q) : Z := Z.quot (Qnum x) (Zpos (Qden x)).

(** Python's [sum] on a sequence of integers. *)
Definition py_sum (l : list Z) : Z := fold_right Z.add 0%Z l.

(** ** Logger *)

Module Logger.

Inductive Level := INFO | WARNING | ERROR | CRITICAL | DEBUG.

(** One call of [Logger.log]: the level, the fixed text of the message and
    the number formatted into it, when there is one. *)
Record Entry := { level : Level; message : string; value : option Q }.

Definition warning (msg : string) (v : option Q) : Entry :=
  {| level := WARNING; message := msg; value := v |}.
Definition critical (msg : string) (v : option Q) : Entry :=
  {| level := CRITICAL; message := msg; value := v |}.
Definition info (msg : string) : Entry :=
  {| level := INFO; message := msg; value := None |}.
Definition error (msg : string) : Entry :=
  {| level := ERROR; message := msg; value := None |}.

End Logger.

(** ** GasSensor *)

Module GasSensor.

Inductive Status := SAFE | WARNING | CRITICAL.

Definition Status_eqb (a b : Status) : bool :=
  match a, b with
  | SAFE, SAFE | WARNING, WARNING | CRITICAL, CRITICAL => true
  | _, _ => false
  end.

(** [CONFIG['gas_sensor']], the entries the sensor logic reads. *)
Record Config := {
  channel : Z;
  sample_rate : Q;
  warning_min : Q;
  critical_min : Q;
  confirmation_time : Q
}.

(** The object's fields.  [readings] is the [deque] and [readings_maxlen]
    its [maxlen]; [log] collects the Logger calls, oldest first. *)
Record State := {
  current_value : Z;
  filtered_value : Q;
  status : Status;
  critical_start_time : option Q;
  readings : list Z;
  readings_maxlen : nat;
  log : list Logger.Entry
}.

(** [window_size = int(config['sample_rate'] * 1.0)] *)
Definition window_size (config : Config) : Z :=
  py_int (sample_rate config * 1).

(** [GasSensor.__init__].  [deque(maxlen=n)] raises [ValueError] for a
    negative [n]; that is the [None] here. *)
Definition __init__ (config : Config) : option State :=
  if (window_size config <? 0)%Z then None
  else Some {| current_value := 0;
               filtered_value := 0;
               status := SAFE;
               critical_start_time := None;
               readings := [];
               readings_maxlen := Z.to_nat (window_size config);
               log := [] |}.

(** [_read_adc], given the three bytes the SPI transfer answered. *)
Definition _read_adc (config : Config) (response : Z * Z * Z) : Z :=
  let '(_, r1, r2) := response in
  if ((channel config <? 0) || (7 <? channel config))%Z then 0%Z
  else (Z.shiftl (Z.land r1 3) 8 + r2)%Z.

(** [deque.append] on a bounded deque: nothing is stored when [maxlen] is
    zero, and the oldest item leaves when the deque is full. *)
Definition deque_append (maxlen : nat) (d : list Z) (x : Z) : list Z :=
  match maxlen with
  | O => d
  | S _ => if (length d <? maxlen)%nat then d ++ [x] else tl d ++ [x]
  end.

(** [sum(self.readings) / len(self.readings) if self.readings else raw_value] *)
Definition moving_average (d : list Z) (raw_value : Z) : Q :=
  match d with
  | [] => inject_Z raw_value
  | _ :: _ => inject_Z (py_sum d) / inject_Z (Z.of_nat (length d))
  end.

Definition set_start (s : State) (t : option Q) : State :=
  {| current_value := current_value s;
     filtered_value := filtered_value s;
     status := status s;
     critical_start_time := t;
     readings := readings s;
     readings_maxlen := readings_maxlen s;
     log := log s |}.

Definition add_log (s : State) (e : Logger.Entry) : State :=
  {| current_value := current_value s;
     filtered_value := filtered_value s;
     status := status s;
     critical_start_time := critical_start_time s;
     readings := readings s;
     readings_maxlen := readings_maxlen s;
     log := log s ++ [e] |}.

Definition set_readings (s : State) (d : list Z) : State :=
  {| current_value := current_value s;
     filtered_value := filtered_value s;
     status := status s;
     critical_start_time := critical_start_time s;
     readings := d;
     readings_maxlen := readings_maxlen s;
     log := log s |}.

(** The block under [with self.data_lock] of [_read_loop]. *)
Definition publish (s : State) (raw : Z) (filtered : Q) (st : Status) : State :=
  {| current_value := raw;
     filtered_value := filtered;
     status := st;
     critical_start_time := critical_start_time s;
     readings := readings s;
     readings_maxlen := readings_maxlen s;
     log := log s |}.

(** [_determine_status(value)]; [current_time] is what [time.time()]
    answers inside the call.  It returns the new object state and the
    status. *)
Definition _determine_status (config : Config) (s : State)
    (current_time value : Q) : State * Status :=
  if Qle_bool (critical_min config) value then
    let s1 :=
      match critical_start_time s with
      | None =>
          add_log (set_start s (Some current_time))
                  (Logger.warning "Critical gas level detected" (Some value))
      | Some _ => s
      end in
    let start :=
      match critical_start_time s1 with
      | Some t0 => t0
      | None => current_time
      end in
    if Qle_bool (confirmation_time config) (current_time - start) then
      let s2 :=
        if Status_eqb (status s1) CRITICAL then s1
        else add_log s1 (Logger.critical "CRITICAL GAS LEAK CONFIRMED" (Some value)) in
      (s2, CRITICAL)
    else (s1, WARNING)
  else if Qle_bool (warning_min config) value then
    let s1 := set_start s None in
    let s2 :=
      if Status_eqb (status s1) WARNING then s1
      else add_log s1 (Logger.warning "Gas warning level" (Some value)) in
    (s2, WARNING)
  else (set_start s None, SAFE).

(** One successful pass through the body of [_read_loop]: [raw_value] is
    what [_read_adc] returned and [current_time] the clock.  A pass whose
    ADC read raises changes nothing in the object and is not part of a
    run. *)
Definition read_iteration (config : Config) (s : State)
    (current_time : Q) (raw_value : Z) : State :=
  let d := deque_append (readings_maxlen s) (readings s) raw_value in
  let filtered := moving_average d raw_value in
  let '(s1, st) := _determine_status config (set_readings s d) current_time filtered in
  publish s1 raw_value filtered st.

(** [_read_loop] over the samples [(time, raw value)] the thread sees, in
    order; the result lists the object state after each pass. *)
Fixpoint _read_loop (config : Config) (s : State) (samples : list (Q * Z))
    : list State :=
  match samples with
  | [] => []
  | (t, raw) :: rest =>
      let s' := read_iteration config s t raw in
      s' :: _read_loop config s' rest
  end.

(** The object state once all the samples are processed. *)
Definition after (config : Config) (s : State) (samples : list (Q * Z)) : State :=
  fold_left (fun acc x => read_iteration config acc (fst x) (snd x)) samples s.




(** [get_reading] *)
Definition get_reading (s : State) : Z * Q * Status :=
  (current_value s, filtered_value s, status s).

(** [get_voltage] *)
Definition get_voltage (s : State) : Q :=
  (filtered_value s / 1024) * (33 # 10).

End GasSensor.

(** [CONFIG['gas_sensor']] of the source. *)
Definition CONFIG_gas_sensor : GasSensor.Config :=
  {| GasSensor.channel := 0;
     GasSensor.sample_rate := 10;
     GasSensor.warning_min := 200;
     GasSensor.critical_min := 400;
     GasSensor.confirmation_time := 2 |}.


(** The sensor object [GasSensor(CONFIG['gas_sensor'])] builds. *)
Definition gas_sensor_fresh : GasSensor.State :=
  {| GasSensor.current_value := 0;
     GasSensor.filtered_value := 0;
     GasSensor.status := GasSensor.SAFE;
     GasSensor.critical_start_time := None;
     GasSensor.readings := [];
     GasSensor.readings_maxlen := 10;
     GasSensor.log := [] |}.

(** ** ValveController *)

Module ValveController.

(** [CONFIG['valve']] *)
Record Config := {
  gpio_pin : Z;
  active_high : bool;
  auto_shutoff : bool
}.

(** What the controller asks of the [RPi.GPIO] module about its pin, in
    program order.  [Output pin true] drives the pin HIGH,
    [Output pin false] LOW.  Only the calls that returned are recorded. *)
Inductive GpioOp :=
| Setup (pin : Z)
| Output (pin : Z) (high : bool)
| Cleanup (pin : Z).

(** The object's fields and the state of the library.  [GPIO] tells
    whether the module could be imported ([self.GPIO is not None]);
    [pin_ready] is the library's own record of the pin being set up as an
    output; [pin_ops] is the history of the calls that returned and [log]
    the Logger calls, oldest first. *)
Record State := {
  valve_open : bool;
  GPIO : bool;
  pin_ready : bool;
  pin_ops : list GpioOp;
  log : list Logger.Entry
}.

(** How a call ends: it returns, or it raises an exception; either way
    the object is as the call left it. *)
Inductive Outcome :=
| Returned (s : State)
| Raised (s : State).

Definition state_of (o : Outcome) : State :=
  match o with Returned s | Raised s => s end.

Definition is_returned (o : Outcome) : bool :=
  match o with Returned _ => true | Raised _ => false end.

(** Statements in sequence: the rest runs only when the first part
    returned. *)
Definition and_then (o : Outcome) (k : State -> Outcome) : Outcome :=
  match o with
  | Returned s => k s
  | Raised s => Raised s
  end.

Definition add_op (s : State) (op : GpioOp) : State :=
  {| valve_open := valve_open s; GPIO := GPIO s; pin_ready := pin_ready s;
     pin_ops := pin_ops s ++ [op]; log := log s |}.

Definition add_log (s : State) (e : Logger.Entry) : State :=
  {| valve_open := valve_open s; GPIO := GPIO s; pin_ready := pin_ready s;
     pin_ops := pin_ops s; log := log s ++ [e] |}.

Definition set_valve_open (s : State) (b : bool) : State :=
  {| valve_open := b; GPIO := GPIO s; pin_ready := pin_ready s;
     pin_ops := pin_ops s; log := log s |}.

Definition set_pin_ready (s : State) (b : bool) : State :=
  {| valve_open := valve_open s; GPIO := GPIO s; pin_ready := b;
     pin_ops := pin_ops s; log := log s |}.

(** [GPIO.setmode(GPIO.BCM)], [GPIO.setwarnings(False)] and
    [GPIO.setup(pin, GPIO.OUT)]: [ok] tells whether the three calls
    return on this machine.  When one of them raises, the pin is not set
    up. *)
Definition gpio_setup (s : State) (pin : Z) (ok : bool) : Outcome :=
  if ok then Returned (add_op (set_pin_ready s true) (Setup pin))
  else Raised s.

(** [GPIO.output(pin, level)]: the library raises [RuntimeError] for a pin
    that is not set up as an output, and drives the pin otherwise. *)
Definition gpio_output (s : State) (pin : Z) (high : bool) : Outcome :=
  if pin_ready s then Returned (add_op s (Output pin high))
  else Raised s.

(** [GPIO.cleanup(pin)]: the pin is released and is no longer set up. *)
Definition gpio_cleanup (s : State) (pin : Z) : State :=
  add_op (set_pin_ready s false) (Cleanup pin).

(** [_set_gpio_state(valve_open)] *)
Definition _set_gpio_state (config : Config) (s : State) (open : bool) : Outcome :=
  if negb (GPIO s) then Returned s
  else
    let state :=
      if active_high config then (if open then true else false)
      else (if open then false else true) in
    gpio_output s (gpio_pin config) state.

(** [ValveController.__init__]; [gpio] tells whether [RPi.GPIO] was
    imported and [setup_ok] whether its setup calls return.  An exception
    inside the [try] is logged and the constructor returns all the same:
    the object keeps the module, the valve recorded open and a pin that
    was never driven. *)
Definition __init__ (config : Config) (gpio setup_ok : bool) : State :=
  let s := {| valve_open := true; GPIO := gpio; pin_ready := false;
              pin_ops := []; log := [] |} in
  if negb gpio then add_log s (Logger.error "RPi.GPIO library not installed")
  else
    match
      and_then (gpio_setup s (gpio_pin config) setup_ok) (fun s =>
      and_then (_set_gpio_state config s true) (fun s =>
      Returned (add_log s (Logger.info "Valve controller on GPIO"))))
    with
    | Returned s => s
    | Raised s => add_log s (Logger.error "GPIO setup failed")
    end.

(** [open_valve]: the state is recorded and logged after the pin was
    driven. *)
Definition open_valve (config : Config) (s : State) : Outcome :=
  if negb (valve_open s) then
    and_then (_set_gpio_state config s true) (fun s =>
    let s := set_valve_open s true in
    Returned (add_log s (Logger.info "Fuel valve OPENED")))
  else Returned s.

(** [close_valve(reason)] *)
Definition close_valve (config : Config) (s : State) (reason : string) : Outcome :=
  if valve_open s then
    and_then (_set_gpio_state config s false) (fun s =>
    let s := set_valve_open s false in
    Returned
      (add_log s (Logger.critical ("FUEL VALVE CLOSED - Reason: " ++ reason) None)))
  else Returned s.

(** [emergency_shutoff]: close, then assert the closed level once more. *)
Definition emergency_shutoff (config : Config) (s : State) : Outcome :=
  let s := add_log s (Logger.critical "EMERGENCY FUEL SHUTOFF ACTIVATED" None) in
  and_then (close_valve config s "EMERGENCY - Gas Leak Detected") (fun s =>
  _set_gpio_state config s false).

(** [is_open] *)
Definition is_open (s : State) : bool := valve_open s.

(** [cleanup]: with the GPIO module present the valve is opened and the
    pin released, and whatever these calls raise is swallowed
    ([except: pass]); without the module nothing happens. *)
Definition cleanup (config : Config) (s : State) : State :=
  if GPIO s then
    match
      and_then (open_valve config s) (fun s =>
      let s := gpio_cleanup s (gpio_pin config) in
      Returned (add_log s (Logger.info "Valve GPIO cleanup completed")))
    with
    | Returned s => s
    | Raised s => s
    end
  else s.

(** Whether the calls into the library return for this object: the
    module is absent, or the pin is set up. *)
Definition usable (s : State) : bool := negb (GPIO s) || pin_ready s.

(** The valve position a pin level stands for. *)
Definition level_means_open (config : Config) (high : bool) : bool :=
  if active_high config then high else negb high.

(** The position the line was last driven to: [Some true] for open,
    [Some false] for closed, [None] when the pin was never driven. *)
Fixpoint last_driven (config : Config) (ops : list GpioOp) : option bool :=
  match ops with
  | [] => None
  | op :: rest =>
      match last_driven config rest with
      | Some b => Some b
      | None =>
          match op with
          | Output _ high => Some (level_means_open config high)
          | _ => None
          end
      end
  end.

End ValveController.

(** [CONFIG['valve']] of the source. *)
Definition CONFIG_valve : ValveController.Config :=
  {| ValveController.gpio_pin := 17;
     ValveController.active_high := true;
     ValveController.auto_shutoff := true |}.

(** ** Python values and the random module *)

(** A value found in the OBD dictionary: a number, [None], or any object
    on which [float()] raises. *)
Inductive PyVal := PyFloat (q : Q) | PyNone | PyOther.

(** [float(v)]; [None] stands for the exception. *)
Definition py_float (v : PyVal) : option Q :=
  match v with
  | PyFloat q => Some q
  | PyNone | PyOther => None
  end.

Module random.

(** The generator behind the [random] module.  A seed fixes the sequence
    of values [random.random()] yields; the state is that sequence and
    the number of values already drawn. *)
Record State := { draws : nat -> Q; position : nat }.

Definition seed (f : nat -> Q) : State := {| draws := f; position := O |}.

Definition random (g : State) : Q * State :=
  (draws g (position g), {| draws := draws g; position := S (position g) |}).

(** [random.uniform(a, b)] is [a + (b - a) * random()]. *)
Definition uniform (a b : Q) (g : State) : Q * State :=
  let '(u, g') := random g in (a + (b - a) * u, g').

End random.

(** ** AIInferenceEngine *)

Module AIInferenceEngine.

(** The status strings the engine stores or returns. *)
Inductive Status := NORMAL | WARNING | CRITICAL | UNKNOWN | ERROR.

Definition Status_eqb (a b : Status) : bool :=
  match a, b with
  | NORMAL, NORMAL | WARNING, WARNING | CRITICAL, CRITICAL
  | UNKNOWN, UNKNOWN | ERROR, ERROR => true
  | _, _ => false
  end.

(** [CONFIG['ai']]; a range of [norm_ranges] is the list written in the
    dictionary. *)
Record Config := {
  inference_interval : Q;
  normal_max : Q;
  warning_min : Q;
  critical_min : Q;
  norm_ranges : gmap string (list Q)
}.

Record State := {
  latest_score : Q;
  latest_status : Status;
  inference_count : nat;
  log : list Logger.Entry
}.

Definition add_log (s : State) (e : Logger.Entry) : State :=
  {| latest_score := latest_score s; latest_status := latest_status s;
     inference_count := inference_count s; log := log s ++ [e] |}.

(** [AIInferenceEngine.__init__] *)
Definition __init__ : State :=
  {| latest_score := 0;
     latest_status := UNKNOWN;
     inference_count := O;
     log := [Logger.info "AI Inference Engine initialized (simulation mode)"] |}.

(** [normalize_value(value, param_name)].  The unpacking
    [min_val, max_val = norm_range] raises unless the range has two
    items; that is the [None]. *)
Definition normalize_value (config : Config) (value : Q) (param_name : string)
    : option Q :=
  let norm_range := default [0; 100] (norm_ranges config !! param_name) in
  match norm_range with
  | [min_val; max_val] =>
      let value := py_max min_val (py_min max_val value) in
      if Qlt_bool min_val max_val then
        Some ((value - min_val) / (max_val - min_val))
      else Some 0
  | _ => None
  end.

Definition feature_order : list string :=
  ["rpm"; "speed"; "coolant_temp"; "throttle_pos"; "intake_pressure"; "engine_load"]%string.

(** The body of the loop of [preprocess] for one parameter. *)
Definition preprocess_param (config : Config) (obd_data : gmap string PyVal)
    (param : string) : option Q :=
  let raw_value := default (PyFloat 0) (obd_data !! param) in
  let raw_value := match raw_value with PyNone => PyFloat 0 | v => v end in
  match py_float raw_value with
  | Some v => normalize_value config v param
  | None => None
  end.

(** [preprocess(obd_data)]; [None] when a conversion or a normalisation
    raises. *)
Fixpoint preprocess_list (config : Config) (obd_data : gmap string PyVal)
    (params : list string) : option (list Q) :=
  match params with
  | [] => Some []
  | param :: rest =>
      match preprocess_param config obd_data param with
      | None => None
      | Some normalized =>
          match preprocess_list config obd_data rest with
          | None => None
          | Some features => Some (normalized :: features)
          end
      end
  end.

Definition preprocess (config : Config) (obd_data : gmap string PyVal)
    : option (list Q) :=
  preprocess_list config obd_data feature_order.

Definition Qsum (l : list Q) : Q := fold_right Qplus 0 l.

(** [np.mean(deviations) if len(deviations) > 0 else 0] *)
Definition mean (l : list Q) : Q :=
  match l with
  | [] => 0
  | _ :: _ => Qsum l / inject_Z (Z.of_nat (length l))
  end.

(** The score before the status is chosen: deviation from the midpoint,
    doubled and clamped, then the noise added and clamped again. *)
Definition noisy_score (features : list Q) (noise : Q) : Q :=
  let deviations := map (fun f => Qabs (f - (1 # 2))) features in
  let avg_deviation := mean deviations in
  let score := py_min (avg_deviation * 2) 1 in
  py_max 0 (py_min 1 (score + noise)).

(** [run_inference(obd_data)] with the generator state threaded through.
    The [except] branch logs and answers [(0.0, 'ERROR')]. *)
Definition run_inference (config : Config) (s : State) (g : random.State)
    (obd_data : gmap string PyVal) : State * random.State * (Q * Status) :=
  match preprocess config obd_data with
  | None => (add_log s (Logger.error "Inference error"), g, (0, ERROR))
  | Some features =>
      let '(noise, g') := random.uniform (- (5 # 100)) (5 # 100) g in
      let score := noisy_score features noise in
      let '(st, entries) :=
        if Qle_bool (critical_min config) score then
          (CRITICAL,
           if Status_eqb (latest_status s) CRITICAL then []
           else [Logger.critical "CRITICAL ANOMALY: Score" (Some score)])
        else if Qle_bool (warning_min config) score then
          (WARNING,
           if Status_eqb (latest_status s) WARNING then []
           else [Logger.warning "Anomaly warning: Score" (Some score)])
        else (NORMAL, []) in
      ({| latest_score := score;
          latest_status := st;
          inference_count := S (inference_count s);
          log := log s ++ entries |},
       g', (score, st))
  end.

(** [get_latest_result] *)
Definition get_latest_result (s : State) : Q * Status :=
  (latest_score s, latest_status s).

End AIInferenceEngine.

(** [CONFIG['ai']] of the source. *)
Definition CONFIG_ai : AIInferenceEngine.Config :=
  {| AIInferenceEngine.inference_interval := 1 # 2;
     AIInferenceEngine.normal_max := 3 # 10;
     AIInferenceEngine.warning_min := 3 # 10;
     AIInferenceEngine.critical_min := 7 # 10;
     AIInferenceEngine.norm_ranges :=
       <["rpm"%string := [0; 6000]]>
       (<["speed"%string := [0; 200]]>
       (<["coolant_temp"%string := [0; 120]]>
       (<["throttle_pos"%string := [0; 100]]>
       (<["intake_pressure"%string := [0; 255]]>
       (<["engine_load"%string := [0; 100]]> ∅))))) |}.

(** The snapshot of the specification's scenario, every channel at the
    middle of its range. *)
Definition midrange_snapshot : gmap string PyVal :=
  <["rpm"%string := PyFloat 3000]>
  (<["speed"%string := PyFloat 100]>
  (<["coolant_temp"%string := PyFloat 60]>
  (<["throttle_pos"%string := PyFloat 50]>
  (<["intake_pressure"%string := PyFloat 127]>
  (<["engine_load"%string := PyFloat 50]>
  (<["timestamp"%string := PyFloat 1000]> ∅)))))).

(** A snapshot whose [rpm] entry is not a number. *)
Definition broken_snapshot : gmap string PyVal :=
  <["rpm"%string := PyOther]> midrange_snapshot.

(** A generator whose [random()] always answers one half. *)
Definition constant_generator : random.State := random.seed (fun _ => 1 # 2).

(** ** OBDInterface *)

Module OBDInterface.

(** The fields the control loop reads. *)
Record State := {
  connected : bool;
  latest_data : gmap string PyVal
}.

Definition __init__ : State := {| connected := false; latest_data := ∅ |}.

(** The end of one pass of [_read_loop]: a non-empty [data] replaces
    [latest_data] and receives the time stamp. *)
Definition publish (s : State) (current_time : Q) (data : gmap string PyVal) : State :=
  if decide (data = ∅) then s
  else {| connected := connected s;
          latest_data := <["timestamp"%string := PyFloat current_time]> data |}.

(** [get_latest_data] *)
Definition get_latest_data (s : State) : gmap string PyVal := latest_data s.

End OBDInterface.

(** ** VehicleMonitorSystem *)

Module VehicleMonitorSystem.

(** The sections of [CONFIG] the components receive. *)
Record Config := {
  gas_sensor_config : GasSensor.Config;
  valve_config : ValveController.Config;
  ai_config : AIInferenceEngine.Config
}.

(** What is installed on the machine, whether the setup of the valve's
    pin succeeds and whether the adapter answers. *)
Record Platform := {
  has_GPIO : bool;
  gpio_setup_ok : bool;
  has_spidev : bool;
  obd_connects : bool
}.

(** What [_display_status] prints of the components. *)
Record Snapshot := {
  shown_gas : option (Z * Q * GasSensor.Status);
  shown_ai : option (Q * AIInferenceEngine.Status);
  shown_valve_open : option bool;
  shown_emergency : bool
}.

(** What the system does, in program order: the gas checks with the status
    they read, the calls of [emergency_shutoff] (whether they return or
    raise), the setting of the flag,
    the inferences, the status reports and the end of the loop.  The
    Logger calls of the system object are not recorded. *)
Inductive Event :=
| GasCheck (st : GasSensor.Status)
| EmergencyShutoff
| EmergencySet
| Inference (result : Q * AIInferenceEngine.Status)
| StatusReport (shown : Snapshot)
| LoopEnded.

(** The system object, the state of the [random] module, the locals of
    [_main_loop] and the two producer threads.  [loop_alive] holds while
    the main thread is inside the [while] of [_main_loop]. *)
Record State := {
  running : bool;
  emergency_shutdown : bool;
  obd : option OBDInterface.State;
  gas_sensor : option GasSensor.State;
  valve : option ValveController.State;
  ai_engine : option AIInferenceEngine.State;
  rng : random.State;
  gas_thread : bool;
  obd_thread : bool;
  loop_alive : bool;
  last_gas_check : Q;
  last_ai_check : Q;
  last_display : Q;
  trace : list Event
}.

Definition add_event (s : State) (e : Event) : State :=
  {| running := running s; emergency_shutdown := emergency_shutdown s;
     obd := obd s; gas_sensor := gas_sensor s; valve := valve s;
     ai_engine := ai_engine s; rng := rng s;
     gas_thread := gas_thread s; obd_thread := obd_thread s;
     loop_alive := loop_alive s;
     last_gas_check := last_gas_check s; last_ai_check := last_ai_check s;
     last_display := last_display s; trace := trace s ++ [e] |}.

Definition set_flags (s : State) (run emergency alive : bool) : State :=
  {| running := run; emergency_shutdown := emergency;
     obd := obd s; gas_sensor := gas_sensor s; valve := valve s;
     ai_engine := ai_engine s; rng := rng s;
     gas_thread := gas_thread s; obd_thread := obd_thread s;
     loop_alive := alive;
     last_gas_check := last_gas_check s; last_ai_check := last_ai_check s;
     last_display := last_display s; trace := trace s |}.

Definition set_threads (s : State) (gas_t obd_t : bool) : State :=
  {| running := running s; emergency_shutdown := emergency_shutdown s;
     obd := obd s; gas_sensor := gas_sensor s; valve := valve s;
     ai_engine := ai_engine s; rng := rng s;
     gas_thread := gas_t; obd_thread := obd_t;
     loop_alive := loop_alive s;
     last_gas_check := last_gas_check s; last_ai_check := last_ai_check s;
     last_display := last_display s; trace := trace s |}.

Definition set_obd (s : State) (o : option OBDInterface.State) : State :=
  {| running := running s; emergency_shutdown := emergency_shutdown s;
     obd := o; gas_sensor := gas_sensor s; valve := valve s;
     ai_engine := ai_engine s; rng := rng s;
     gas_thread := gas_thread s; obd_thread := obd_thread s;
     loop_alive := loop_alive s;
     last_gas_check := last_gas_check s; last_ai_check := last_ai_check s;
     last_display := last_display s; trace := trace s |}.

Definition set_gas_sensor (s : State) (g : option GasSensor.State) : State :=
  {| running := running s; emergency_shutdown := emergency_shutdown s;
     obd := obd s; gas_sensor := g; valve := valve s;
     ai_engine := ai_engine s; rng := rng s;
     gas_thread := gas_thread s; obd_thread := obd_thread s;
     loop_alive := loop_alive s;
     last_gas_check := last_gas_check s; last_ai_check := last_ai_check s;
     last_display := last_display s; trace := trace s |}.

Definition set_valve (s : State) (v : option ValveController.State) : State :=
  {| running := running s; emergency_shutdown := emergency_shutdown s;
     obd := obd s; gas_sensor := gas_sensor s; valve := v;
     ai_engine := ai_engine s; rng := rng s;
     gas_thread := gas_thread s; obd_thread := obd_thread s;
     loop_alive := loop_alive s;
     last_gas_check := last_gas_check s; last_ai_check := last_ai_check s;
     last_display := last_display s; trace := trace s |}.

Definition set_ai (s : State) (a : option AIInferenceEngine.State)
    (g : random.State) : State :=
  {| running := running s; emergency_shutdown := emergency_shutdown s;
     obd := obd s; gas_sensor := gas_sensor s; valve := valve s;
     ai_engine := a; rng := g;
     gas_thread := gas_thread s; obd_thread := obd_thread s;
     loop_alive := loop_alive s;
     last_gas_check := last_gas_check s; last_ai_check := last_ai_check s;
     last_display := last_display s; trace := trace s |}.

Definition set_last (s : State) (g a d : Q) : State :=
  {| running := running s; emergency_shutdown := emergency_shutdown s;
     obd := obd s; gas_sensor := gas_sensor s; valve := valve s;
     ai_engine := ai_engine s; rng := rng s;
     gas_thread := gas_thread s; obd_thread := obd_thread s;
     loop_alive := loop_alive s;
     last_gas_check := g; last_ai_check := a;
     last_display := d; trace := trace s |}.

(** [VehicleMonitorSystem.__init__], with the state of the [random]
    module at that moment. *)
Definition __init__ (g : random.State) : State :=
  {| running := false; emergency_shutdown := false;
     obd := None; gas_sensor := None; valve := None; ai_engine := None;
     rng := g;
     gas_thread := false; obd_thread := false; loop_alive := false;
     last_gas_check := 0; last_ai_check := 0; last_display := 0;
     trace := [] |}.

(** [initialize]: valve, gas sensor, OBD interface, AI engine.  A gas
    configuration the sensor's constructor rejects makes it fail
    ([None]); the valve object exists by then. *)
Definition initialize (config : Config) (p : Platform) (s : State)
    : State * bool :=
  let s :=
    set_valve s
      (Some (ValveController.__init__ (valve_config config)
               (has_GPIO p) (gpio_setup_ok p))) in
  match GasSensor.__init__ (gas_sensor_config config) with
  | None => (s, false)
  | Some g =>
      let s := set_gas_sensor s (Some g) in
      let s := set_threads s (has_spidev p) (obd_thread s) in
      let o := OBDInterface.__init__ in
      let s :=
        if obd_connects p then
          set_threads
            (set_obd s (Some {| OBDInterface.connected := true;
                                OBDInterface.latest_data := OBDInterface.latest_data o |}))
            (gas_thread s) true
        else set_obd s (Some o) in
      let s := set_ai s (Some AIInferenceEngine.__init__) (rng s) in
      (s, true)
  end.

(** [start]: the main thread enters [_main_loop], whose locals start at
    zero. *)
Definition start (config : Config) (p : Platform) (s : State) : State * bool :=
  let '(s, ok) := initialize config p s in
  if negb ok then (s, false)
  else
    let s := set_flags s true (emergency_shutdown s) true in
    (set_last s 0 0 0, true).

(** [_check_gas_safety].  The flag is set after the call
    [self.valve.emergency_shutoff()] has returned.  When the call raises
    (no valve object, or a pin that cannot be driven) the handler only
    logs: the flag is not set, and the valve object stays as the call
    left it. *)
Definition _check_gas_safety (config : Config) (s : State) : State :=
  match gas_sensor s with
  | None => s
  | Some g =>
      let '(_, _, status) := GasSensor.get_reading g in
      let s := add_event s (GasCheck status) in
      if GasSensor.Status_eqb status GasSensor.CRITICAL
         && ValveController.auto_shutoff (valve_config config) then
        if negb (emergency_shutdown s) then
          match valve s with
          | None => s
          | Some v =>
              let s := add_event s EmergencyShutoff in
              match ValveController.emergency_shutoff (valve_config config) v with
              | ValveController.Returned v' =>
                  let s := set_valve s (Some v') in
                  let s := set_flags s (running s) true (loop_alive s) in
                  add_event s EmergencySet
              | ValveController.Raised v' => set_valve s (Some v')
              end
          end
        else s
      else s
  end.

(** [_run_ai_inference]: only a dictionary that is not empty and carries
    a time stamp is scored. *)
Definition _run_ai_inference (config : Config) (s : State) : State :=
  match obd s, ai_engine s with
  | Some o, Some a =>
      let obd_data := OBDInterface.get_latest_data o in
      if negb (bool_decide (obd_data = ∅))
         && bool_decide (is_Some (obd_data !! "timestamp"%string)) then
        let '(a', g', result) :=
          AIInferenceEngine.run_inference (ai_config config) a (rng s) obd_data in
        add_event (set_ai s (Some a') g') (Inference result)
      else s
  | _, _ => s
  end.

(** [_display_status] *)
Definition _display_status (s : State) : State :=
  add_event s
    (StatusReport
       {| shown_gas := option_map GasSensor.get_reading (gas_sensor s);
          shown_ai := option_map AIInferenceEngine.get_latest_result (ai_engine s);
          shown_valve_open := option_map ValveController.is_open (valve s);
          shown_emergency := emergency_shutdown s |}).

Definition gas_check_interval : Q := 1 # 10.
Definition ai_check_interval : Q := 1 # 2.
Definition display_interval : Q := 2.

(** The body of the [while] of [_main_loop], for one value of
    [time.time()]. *)
Definition loop_body (config : Config) (s : State) (current_time : Q) : State :=
  let s :=
    if Qle_bool gas_check_interval (current_time - last_gas_check s) then
      let s := _check_gas_safety config s in
      set_last s current_time (last_ai_check s) (last_display s)
    else s in
  let s :=
    if Qle_bool ai_check_interval (current_time - last_ai_check s) then
      let s := _run_ai_inference config s in
      set_last s (last_gas_check s) current_time (last_display s)
    else s in
  if Qle_bool display_interval (current_time - last_display s) then
    let s := _display_status s in
    set_last s (last_gas_check s) (last_ai_check s) current_time
  else s.

(** One turn of [_main_loop]: the test of the [while], then the body or
    the exit. *)
Definition main_loop_turn (config : Config) (s : State) (current_time : Q) : State :=
  if negb (loop_alive s) then s
  else if running s && negb (emergency_shutdown s) then
    loop_body config s current_time
  else
    add_event (set_flags s (running s) (emergency_shutdown s) false) LoopEnded.

(** [stop]: the flag, the join of the main thread, the two producers,
    then the valve's [cleanup]. *)
Definition stop (config : Config) (s : State) : State :=
  let s := set_flags s false (emergency_shutdown s) (loop_alive s) in
  let s :=
    if loop_alive s then
      add_event (set_flags s (running s) (emergency_shutdown s) false) LoopEnded
    else s in
  let s := set_threads s false false in
  match valve s with
  | None => s
  | Some v => set_valve s (Some (ValveController.cleanup (valve_config config) v))
  end.

(** What can happen next in the process: a pass of the gas thread, a
    pass of the OBD thread, a turn of the main loop, or the shutdown. *)
Inductive Step :=
| GasSample (current_time : Q) (raw : Z)
| ObdUpdate (current_time : Q) (data : gmap string PyVal)
| Tick (current_time : Q)
| Stop.

Definition step (config : Config) (s : State) (x : Step) : State :=
  match x with
  | GasSample t raw =>
      match gas_sensor s with
      | Some g =>
          if gas_thread s then
            set_gas_sensor s
              (Some (GasSensor.read_iteration (gas_sensor_config config) g t raw))
          else s
      | None => s
      end
  | ObdUpdate t data =>
      match obd s with
      | Some o =>
          if obd_thread s then set_obd s (Some (OBDInterface.publish o t data))
          else s
      | None => s
      end
  | Tick t => main_loop_turn config s t
  | Stop => stop config s
  end.

(** The process after a schedule of steps. *)
Definition run (config : Config) (s : State) (steps : list Step) : State :=
  fold_left (step config) steps s.

Definition is_Stop (x : Step) : bool :=
  match x with Stop => true | _ => false end.

Definition is_GasSample (x : Step) : bool :=
  match x with GasSample _ _ => true | _ => false end.

Definition is_EmergencyShutoff (e : Event) : bool :=
  match e with EmergencyShutoff => true | _ => false end.

Definition is_Inference (e : Event) : bool :=
  match e with Inference _ => true | _ => false end.

Definition is_StatusReport (e : Event) : bool :=
  match e with StatusReport _ => true | _ => false end.

Definition is_GasCheck (e : Event) : bool :=
  match e with GasCheck _ => true | _ => false end.

(** The number of calls of [emergency_shutoff] so far. *)
Definition shutoff_calls (s : State) : nat :=
  length (List.filter is_EmergencyShutoff (trace s)).

(** The part of the state the safety argument looks at: the flag, the
    valve object and the number of shutoff calls. *)
Definition safety_view (s : State)
    : bool * option ValveController.State * nat :=
  (emergency_shutdown s, valve s, shutoff_calls s).

Definition no_Stop (steps : list Step) : Prop :=
  Forall (fun x => is_Stop x = false) steps.

(** In program order, no gas check and no inference follows the setting
    of the flag. *)
Definition quiet_after_emergency (tr : list Event) : Prop :=
  forall pre post : list Event,
    tr = pre ++ EmergencySet :: post ->
    forallb (fun e => negb (is_GasCheck e || is_Inference e)) post = true.

(** The events a turn of the main loop at time [t] adds to the trace. *)
Definition turn_events (config : Config) (s : State) (t : Q) : list Event :=
  skipn (length (trace s)) (trace (main_loop_turn config s t)).



(** The events of the gas checks that read CRITICAL. *)
Definition is_critical_check (e : Event) : bool :=
  match e with
  | GasCheck GasSensor.CRITICAL => true
  | _ => false
  end.

(** The number of gas checks so far that read CRITICAL. *)
Definition critical_checks (s : State) : nat :=
  length (List.filter is_critical_check (trace s)).

(** The fourth claim in the specification's words, for the process
    started as [s0]: [emergency_shutoff] is called at most once in a run,
    and once the flag is set no later step calls it again and the valve
    stays closed. *)
Definition shutoff_once_and_closed (config : Config) (s0 : State) : Prop :=
  forall steps1 steps2 : list Step,
    let s1 := run config s0 steps1 in
    let s2 := run config s1 steps2 in
    (shutoff_calls s2 <= 1)%nat /\
    (emergency_shutdown s1 = true ->
     shutoff_calls s2 = shutoff_calls s1 /\
     exists v, valve s2 = Some v /\ ValveController.is_open v = false).

End VehicleMonitorSystem.

(** [CONFIG] of the source. *)
Definition CONFIG : VehicleMonitorSystem.Config :=
  {| VehicleMonitorSystem.gas_sensor_config := CONFIG_gas_sensor;
     VehicleMonitorSystem.valve_config := CONFIG_valve;
     VehicleMonitorSystem.ai_config := CONFIG_ai |}.

(** A machine with every library installed, a pin that can be set up and
    an adapter that answers. *)
Definition full_platform : VehicleMonitorSystem.Platform :=
  {| VehicleMonitorSystem.has_GPIO := true;
     VehicleMonitorSystem.gpio_setup_ok := true;
     VehicleMonitorSystem.has_spidev := true;
     VehicleMonitorSystem.obd_connects := true |}.

(** The process right after [system.start()] on that machine. *)
Definition started_system : VehicleMonitorSystem.State :=
  fst (VehicleMonitorSystem.start CONFIG full_platform
         (VehicleMonitorSystem.__init__ constant_generator)).

(** A leak: three gas samples of 450 one second apart, a telemetry
    snapshot, then a turn of the main loop. *)
Definition leak_schedule : list VehicleMonitorSystem.Step :=
  [VehicleMonitorSystem.GasSample 1000 450;
   VehicleMonitorSystem.GasSample 1001 450;
   VehicleMonitorSystem.GasSample 1002 450;
   VehicleMonitorSystem.ObdUpdate 1002 midrange_snapshot;
   VehicleMonitorSystem.Tick 1003].

(** A machine on which [RPi.GPIO] is installed but the setup of the pin
    raises (no access to the GPIO memory, say). *)
Definition platform_with_failed_gpio_setup : VehicleMonitorSystem.Platform :=
  {| VehicleMonitorSystem.has_GPIO := true;
     VehicleMonitorSystem.gpio_setup_ok := false;
     VehicleMonitorSystem.has_spidev := true;
     VehicleMonitorSystem.obd_connects := true |}.

(** The process right after [system.start()] on that machine. *)
Definition started_with_failed_gpio_setup : VehicleMonitorSystem.State :=
  fst (VehicleMonitorSystem.start CONFIG platform_with_failed_gpio_setup
         (VehicleMonitorSystem.__init__ constant_generator)).

(** ** Drivers and measures for the further properties *)

(** A raw value the ten-bit converter can answer. *)
Definition adc_value (raw : Z) : Prop := (0 <= raw <= 1023)%Z.

(** The Logger entries of the sensor that confirm a leak. *)
Definition is_confirmation (e : Logger.Entry) : bool :=
  String.eqb (Logger.message e) "CRITICAL GAS LEAK CONFIRMED".

(** The calls a user of the valve controller can make before [cleanup].
    The user catches what a call raises and goes on with the next one. *)
Inductive ValveCommand :=
| CmdOpen
| CmdClose (reason : string)
| CmdEmergency.

Definition valve_apply (config : ValveController.Config)
    (s : ValveController.State) (c : ValveCommand) : ValveController.Outcome :=
  match c with
  | CmdOpen => ValveController.open_valve config s
  | CmdClose reason => ValveController.close_valve config s reason
  | CmdEmergency => ValveController.emergency_shutoff config s
  end.

Definition valve_run (config : ValveController.Config)
    (s : ValveController.State) (cs : list ValveCommand) : ValveController.State :=
  fold_left (fun s c => ValveController.state_of (valve_apply config s c)) cs s.

(** The score of [run_inference] before the noise is added:
    [min(avg_deviation * 2.0, 1.0)]. *)
Definition raw_score (features : list Q) : Q :=
  py_min (AIInferenceEngine.mean (map (fun f => Qabs (f - (1 # 2))) features) * 2) 1.

(** The status [run_inference] chooses for a score. *)
Definition classify (config : AIInferenceEngine.Config) (score : Q)
    : AIInferenceEngine.Status :=
  if Qle_bool (AIInferenceEngine.critical_min config) score
  then AIInferenceEngine.CRITICAL
  else if Qle_bool (AIInferenceEngine.warning_min config) score
  then AIInferenceEngine.WARNING
  else AIInferenceEngine.NORMAL.

(** What one query of [OBDInterface._read_loop] gives: a null response, an
    exception (swallowed by the inner handler), or a value. *)
Inductive QueryResult :=
| QueryNull
| QueryRaises
| QueryValue (v : PyVal).

(** The keys of the [pids] dictionary, in its order. *)
Definition pids : list string :=
  ["rpm"; "speed"; "coolant_temp"; "throttle_pos"; "intake_pressure"; "engine_load"]%string.

(** The [for name, cmd in pids.items()] loop: a value is stored under its
    name, a null response or an exception stores nothing. *)
Definition collect (responses : string -> QueryResult) (names : list string)
    (data : gmap string PyVal) : gmap string PyVal :=
  fold_left
    (fun d name =>
       match responses name with
       | QueryValue v => <[name := v]> d
       | QueryNull | QueryRaises => d
       end)
    names data.

(** One pass of [OBDInterface._read_loop]: nothing while not connected,
    else the queries and the publication of a non-empty result. *)
Definition obd_read_pass (s : OBDInterface.State) (current_time : Q)
    (responses : string -> QueryResult) : OBDInterface.State :=
  if negb (OBDInterface.connected s) then s
  else OBDInterface.publish s current_time (collect responses pids ∅).

(** A machine without [spidev]: the gas thread never starts. *)
Definition platform_without_spidev : VehicleMonitorSystem.Platform :=
  {| VehicleMonitorSystem.has_GPIO := true;
     VehicleMonitorSystem.gpio_setup_ok := true;
     VehicleMonitorSystem.has_spidev := false;
     VehicleMonitorSystem.obd_connects := true |}.

(** A machine whose OBD adapter does not answer. *)
Definition platform_without_obd : VehicleMonitorSystem.Platform :=
  {| VehicleMonitorSystem.has_GPIO := true;
     VehicleMonitorSystem.gpio_setup_ok := true;
     VehicleMonitorSystem.has_spidev := true;
     VehicleMonitorSystem.obd_connects := false |}.

(** [CONFIG] with [auto_shutoff] switched off. *)
Definition CONFIG_no_auto_shutoff : VehicleMonitorSystem.Config :=
  {| VehicleMonitorSystem.gas_sensor_config := CONFIG_gas_sensor;
     VehicleMonitorSystem.valve_config :=
       {| ValveController.gpio_pin := 17;
          ValveController.active_high := true;
          ValveController.auto_shutoff := false |};
     VehicleMonitorSystem.ai_config := CONFIG_ai |}.

(** An event the gas check of a turn can add. *)
Definition is_gas_event (e : VehicleMonitorSystem.Event) : bool :=
  match e with
  | VehicleMonitorSystem.GasCheck _
  | VehicleMonitorSystem.EmergencyShutoff
  | VehicleMonitorSystem.EmergencySet => true
  | _ => false
  end.

(** The number of times a sequence of statuses enters CRITICAL, [prev]
    being the status before the first of them. *)
Fixpoint critical_entries (prev : GasSensor.Status) (l : list GasSensor.Status)
    : nat :=
  match l with
  | [] => O
  | st :: rest =>
      ((if GasSensor.Status_eqb st GasSensor.CRITICAL
           && negb (GasSensor.Status_eqb prev GasSensor.CRITICAL)
        then 1 else 0) + critical_entries st rest)%nat
  end.

(** The number of leak confirmations in a log. *)
Definition confirmations (l : list Logger.Entry) : nat :=
  length (List.filter is_confirmation l).

(** Whether the system holds a sensor object ([if not self.gas_sensor]). *)
Definition has_sensor (s : VehicleMonitorSystem.State) : bool :=
  match VehicleMonitorSystem.gas_sensor s with
  | Some _ => true
  | None => false
  end.

(** * Properties *)

(** ** Comparisons and clamping *)

Lemma Qlt_bool_iff (a b : Q) : Qlt_bool a b = true <-> a < b.
Proof.
  unfold Qlt_bool. rewrite negb_true_iff.
  destruct (Qle_bool b a) eqn:E.
  - apply Qle_bool_iff in E. split; [discriminate | intros H; lra].
  - split; [intros _ | reflexivity].
    destruct (Qlt_le_dec a b) as [H | H]; [exact H |].
    apply Qle_bool_iff in H. congruence.
Qed.

Lemma Qlt_bool_false (a b : Q) : Qlt_bool a b = false <-> b <= a.
Proof.
  unfold Qlt_bool. rewrite negb_false_iff. apply Qle_bool_iff.
Qed.

(** ** The gas sensor *)

Section GasSensorFacts.

Import GasSensor.

Variable config : Config.

(** What [_determine_status] answers and leaves in the object. *)
Lemma determine_status_spec (s : State) (t v : Q) :
  let start := match critical_start_time s with Some t0 => t0 | None => t end in
  let r := _determine_status config s t v in
  readings (fst r) = readings s /\
  readings_maxlen (fst r) = readings_maxlen s /\
  (if Qle_bool (critical_min config) v then
     critical_start_time (fst r) = Some start /\
     snd r =
       (if Qle_bool (confirmation_time config) (t - start) then CRITICAL else WARNING)
   else critical_start_time (fst r) = None /\ snd r <> CRITICAL).
Proof.
  intros start r. subst start r. unfold _determine_status.
  destruct (Qle_bool (critical_min config) v).
  - destruct (critical_start_time s) as [t0 |] eqn:Hs.
    + rewrite Hs.
      destruct (Qle_bool (confirmation_time config) (t - t0)).
      * destruct (Status_eqb (status s) CRITICAL); simpl; auto.
      * simpl; auto.
    + cbn [critical_start_time add_log set_start].
      destruct (Qle_bool (confirmation_time config) (t - t)).
      * destruct (Status_eqb _ CRITICAL); simpl; auto.
      * simpl; auto.
  - destruct (Qle_bool (warning_min config) v).
    + destruct (Status_eqb _ WARNING); simpl;
        repeat split; auto; discriminate.
    + simpl. repeat split; auto; discriminate.
Qed.

(** What one pass of the read loop leaves in the object. *)
Lemma read_iteration_spec (s : State) (t : Q) (raw : Z) :
  let d := deque_append (readings_maxlen s) (readings s) raw in
  let f := moving_average d raw in
  let s' := read_iteration config s t raw in
  filtered_value s' = f /\ readings s' = d /\ current_value s' = raw /\
  readings_maxlen s' = readings_maxlen s /\
  (if Qle_bool (critical_min config) f then
     let start := match critical_start_time s with Some t0 => t0 | None => t end in
     critical_start_time s' = Some start /\
     status s' =
       (if Qle_bool (confirmation_time config) (t - start) then CRITICAL else WARNING)
   else critical_start_time s' = None /\ status s' <> CRITICAL).
Proof.
  intros d f s'. subst s'. unfold read_iteration. fold d. fold f.
  pose proof (determine_status_spec (set_readings s d) t f) as H.
  cbv zeta in H.
  destruct (_determine_status config (set_readings s d) t f) as [s1 st].
  cbn [fst snd set_readings readings readings_maxlen critical_start_time] in H.
  destruct H as (Hr & Hm & Hcase).
  cbn [publish filtered_value readings current_value readings_maxlen
       critical_start_time status].
  repeat split; auto.
Qed.

Lemma after_snoc (s : State) (l : list (Q * Z)) (t : Q) (raw : Z) :
  after config s (l ++ [(t, raw)]) = read_iteration config (after config s l) t raw.
Proof. unfold after. rewrite fold_left_app. reflexivity. Qed.

Lemma after_cons (s : State) (l : list (Q * Z)) (t : Q) (raw : Z) :
  after config s ((t, raw) :: l) = after config (read_iteration config s t raw) l.
Proof. reflexivity. Qed.

(** The state listed at position [i] is the state after the first
    [i + 1] samples. *)
Lemma read_loop_lookup (samples : list (Q * Z)) :
  forall (s : State) (i : nat) (si : State),
    _read_loop config s samples !! i = Some si ->
    si = after config s (take (S i) samples) /\ (i < length samples)%nat.
Proof.
  induction samples as [| [t raw] rest IH]; intros s i si H; simpl in H.
  - discriminate.
  - destruct i as [| i]; simpl in H.
    + injection H as <-. split; [reflexivity | simpl; lia].
    + apply IH in H as [-> Hlt]. split; [reflexivity | simpl; lia].
Qed.

Lemma take_S_lookup (samples : list (Q * Z)) (n : nat) (x : Q * Z) :
  samples !! n = Some x -> take (S n) samples = take n samples ++ [x].
Proof. intros H. now apply take_S_r. Qed.

(** While an episode is tracked, its start is the time of an earlier
    sample, and every filtered value from that sample on reached
    [critical_min]. *)
Lemma tracked_episode (s0 : State) (samples : list (Q * Z)) :
  critical_start_time s0 = None ->
  forall (n : nat) (t0 : Q),
    (n <= length samples)%nat ->
    critical_start_time (after config s0 (take n samples)) = Some t0 ->
    exists (j : nat) (raw : Z),
      (j < n)%nat /\ samples !! j = Some (t0, raw) /\
      forall k : nat, (j <= k < n)%nat ->
        critical_min config <=
          filtered_value (after config s0 (take (S k) samples)).
Proof.
  intros H0 n. induction n as [| n IH]; intros t0 Hn Hstart.
  - simpl in Hstart. unfold after in Hstart. simpl in Hstart. congruence.
  - destruct (lookup_lt_is_Some_2 samples n ltac:(lia)) as [[t raw] Hx].
    rewrite (take_S_lookup _ _ _ Hx), after_snoc in Hstart.
    pose proof (read_iteration_spec (after config s0 (take n samples)) t raw)
      as (Hf & _ & _ & _ & Hcase).
    cbv zeta in Hcase, Hf.
    destruct (Qle_bool (critical_min config) _) eqn:Hc in Hcase.
    + destruct Hcase as [Hst _]. rewrite Hst in Hstart.
      apply Qle_bool_iff in Hc.
      assert (Hlast : critical_min config <=
                filtered_value (after config s0 (take (S n) samples))).
      { rewrite (take_S_lookup _ _ _ Hx), after_snoc, Hf. exact Hc. }
      destruct (critical_start_time (after config s0 (take n samples)))
        as [t1 |] eqn:Hprev.
      * injection Hstart as <-.
        destruct (IH t1 ltac:(lia) eq_refl) as (j & rj & Hj & Hlk & Hrun).
        exists j, rj. split; [lia |]. split; [exact Hlk |].
        intros k Hk. destruct (Nat.eq_dec k n) as [-> | Hne].
        -- exact Hlast.
        -- apply Hrun. lia.
      * injection Hstart as <-.
        exists n, raw. split; [lia |]. split; [exact Hx |].
        intros k Hk. replace k with n by lia. exact Hlast.
    + destruct Hcase as [Hst _]. congruence.
Qed.

(** A CRITICAL status closes a run of filtered values at or above
    [critical_min] that began at least [confirmation_time] earlier. *)
Lemma critical_needs_run (s0 : State) (samples : list (Q * Z))
    (i : nat) (si : State) :
  critical_start_time s0 = None ->
  _read_loop config s0 samples !! i = Some si ->
  status si = CRITICAL ->
  exists (j : nat) (tj ti : Q) (rj ri : Z),
    (j <= i)%nat /\
    samples !! j = Some (tj, rj) /\ samples !! i = Some (ti, ri) /\
    confirmation_time config <= ti - tj /\
    forall (k : nat) (sk : State),
      (j <= k <= i)%nat ->
      _read_loop config s0 samples !! k = Some sk ->
      critical_min config <= filtered_value sk.
Proof.
  intros H0 Hi Hcrit.
  apply read_loop_lookup in Hi as [-> Hlt].
  destruct (lookup_lt_is_Some_2 samples i Hlt) as [[ti ri] Hx].
  pose proof (tracked_episode s0 samples H0 (S i)) as Hep.
  rewrite (take_S_lookup _ _ _ Hx), after_snoc in Hcrit, Hep.
  pose proof (read_iteration_spec (after config s0 (take i samples)) ti ri)
    as (_ & _ & _ & _ & Hcase).
  cbv zeta in Hcase.
  destruct (Qle_bool (critical_min config) _) eqn:Hc in Hcase.
  - destruct Hcase as [Hst Hstatus].
    destruct (Hep _ ltac:(lia) Hst) as (j & rj & Hj & Hlk & Hrun).
    rewrite Hcrit in Hstatus.
    destruct (Qle_bool (confirmation_time config) _) eqn:Hconf in Hstatus;
      [| discriminate].
    apply Qle_bool_iff in Hconf.
    eexists j, _, ti, rj, ri.
    split; [lia |]. split; [exact Hlk |]. split; [exact Hx |].
    split; [exact Hconf |].
    intros k sk Hk Hsk. apply read_loop_lookup in Hsk as [-> _].
    apply Hrun. lia.
  - destruct Hcase as [_ Hne]. contradiction.
Qed.

End GasSensorFacts.

(** ** A spike in the moving average *)

Section SpikeFacts.

Import GasSensor.

Variable config : Config.
Hypothesis thresholds_ordered : warning_min config <= critical_min config.








Hypothesis confirmation_positive : 0 < confirmation_time config.







End SpikeFacts.

(** ** The fresh sensor *)

Lemma gas_init_fresh (config : GasSensor.Config) (s0 : GasSensor.State) :
  GasSensor.__init__ config = Some s0 ->
  GasSensor.critical_start_time s0 = None /\
  GasSensor.readings s0 = [] /\
  GasSensor.readings_maxlen s0 = Z.to_nat (GasSensor.window_size config) /\
  GasSensor.get_reading s0 = (0%Z, 0, GasSensor.SAFE).
Proof.
  unfold GasSensor.__init__.
  destruct (GasSensor.window_size config <? 0)%Z; [discriminate |].
  intros H. injection H as <-. repeat split.
Qed.

Example gas_init_CONFIG : GasSensor.__init__ CONFIG_gas_sensor = Some gas_sensor_fresh.
Proof. reflexivity. Qed.

(** The ADC answers ten bits: the bytes 3 and 255 read as 1023. *)
Example read_adc_full_scale :
  GasSensor._read_adc CONFIG_gas_sensor (0, 3, 255)%Z = 1023%Z.
Proof. reflexivity. Qed.

(** The scenario of the specification with the window of the source (ten
    samples): five samples of 50, then 450 at 10 Hz.  The filtered value
    first reaches 400 at the fourteenth sample (1.3 s); the status is
    WARNING until 2 s later and CRITICAL from the sample at 3.3 s on. *)
Example gas_scenario :
  let quiet := map (fun n => (inject_Z (Z.of_nat n) / 10, 50%Z)) (seq 0 5) in
  let leak := map (fun n => (inject_Z (Z.of_nat n) / 10, 450%Z)) (seq 5 30) in
  map GasSensor.status
      (GasSensor._read_loop CONFIG_gas_sensor gas_sensor_fresh (quiet ++ leak))
  = repeat GasSensor.SAFE 7 ++ repeat GasSensor.WARNING 26
      ++ repeat GasSensor.CRITICAL 2.
Proof. vm_compute. reflexivity. Qed.

(** The same spike in the configuration of the source, when the pass after
    the spike comes two seconds late (two failed ADC reads, each followed
    by the one-second pause of the handler, are enough). *)
Example late_sample_confirms_spike :
  map GasSensor.status
      (GasSensor._read_loop CONFIG_gas_sensor gas_sensor_fresh
         [(0, 1023%Z); (2, 0%Z); (21 # 10, 0%Z)])
  = [GasSensor.WARNING; GasSensor.CRITICAL; GasSensor.WARNING].
Proof. vm_compute. reflexivity. Qed.

(** ** Normalisation and scoring *)

Section ClampFacts.

Lemma py_min_cases (a b : Q) :
  (b < a /\ py_min a b = b) \/ (a <= b /\ py_min a b = a).
Proof.
  unfold py_min. destruct (Qlt_bool b a) eqn:E.
  - left. split; [now apply Qlt_bool_iff | reflexivity].
  - right. split; [now apply Qlt_bool_false | reflexivity].
Qed.

Lemma py_max_cases (a b : Q) :
  (a < b /\ py_max a b = b) \/ (b <= a /\ py_max a b = a).
Proof.
  unfold py_max. destruct (Qlt_bool a b) eqn:E.
  - left. split; [now apply Qlt_bool_iff | reflexivity].
  - right. split; [now apply Qlt_bool_false | reflexivity].
Qed.

(** [max(lo, min(hi, v))] is the clamp of [v] into [[lo, hi]]. *)
Lemma clamp_spec (lo hi v : Q) :
  lo <= hi ->
  let c := py_max lo (py_min hi v) in
  lo <= c /\ c <= hi /\
  (lo <= v /\ v <= hi -> c == v) /\
  (v <= lo -> c == lo) /\
  (hi <= v -> c == hi).
Proof.
  intros Hle c. subst c.
  destruct (py_min_cases hi v) as [[H1 ->] | [H1 ->]];
    [destruct (py_max_cases lo v) as [[H2 ->] | [H2 ->]]
    | destruct (py_max_cases lo hi) as [[H2 ->] | [H2 ->]]];
    repeat split; intros; lra.
Qed.

Lemma clamp_unit (x : Q) :
  0 <= py_max 0 (py_min 1 x) /\ py_max 0 (py_min 1 x) <= 1.
Proof.
  destruct (clamp_spec 0 1 x) as (H1 & H2 & _); [lra |]. split; assumption.
Qed.

End ClampFacts.

Section NormalizeFacts.

Import AIInferenceEngine.

Variable config : Config.

(** The value [normalize_value] computes for a range of two items. *)
Lemma normalize_value_range (value : Q) (param_name : string) (lo hi : Q) :
  default [0; 100] (norm_ranges config !! param_name) = [lo; hi] ->
  normalize_value config value param_name =
    if Qlt_bool lo hi
    then Some ((py_max lo (py_min hi value) - lo) / (hi - lo))
    else Some 0.
Proof. intros H. unfold normalize_value. now rewrite H. Qed.

(** On a proper range the result is the clamped value mapped linearly
    onto [[0, 1]]. *)
Lemma normalize_proper (value : Q) (param_name : string) (lo hi : Q) :
  default [0; 100] (norm_ranges config !! param_name) = [lo; hi] ->
  lo < hi ->
  exists (c r : Q),
    normalize_value config value param_name = Some r /\
    r == (c - lo) / (hi - lo) /\
    lo <= c /\ c <= hi /\
    (lo <= value /\ value <= hi -> c == value) /\
    (value <= lo -> c == lo /\ r == 0) /\
    (hi <= value -> c == hi /\ r == 1) /\
    0 <= r /\ r <= 1.
Proof.
  intros Hrange Hlt.
  rewrite (normalize_value_range _ _ _ _ Hrange).
  apply Qlt_bool_iff in Hlt as Hb. rewrite Hb. apply Qlt_bool_iff in Hb.
  destruct (clamp_spec lo hi value) as (H1 & H2 & H3 & H4 & H5); [lra |].
  set (c := py_max lo (py_min hi value)) in *.
  exists c, ((c - lo) / (hi - lo)).
  split; [reflexivity |]. split; [reflexivity |].
  split; [exact H1 |]. split; [exact H2 |]. split; [exact H3 |].
  assert (Hd : 0 < hi - lo) by lra.
  assert (Hnz : ~ hi - lo == 0) by lra.
  split; [| split; [| split]].
  - intros Hv. split; [now apply H4 |].
    rewrite (H4 Hv). field. exact Hnz.
  - intros Hv. split; [now apply H5 |].
    rewrite (H5 Hv). field. exact Hnz.
  - apply Qle_shift_div_l; [exact Hd | lra].
  - apply Qle_shift_div_r; [exact Hd | lra].
Qed.

(** On a range that is not proper the result is zero. *)
Lemma normalize_degenerate (value : Q) (param_name : string) (lo hi : Q) :
  default [0; 100] (norm_ranges config !! param_name) = [lo; hi] ->
  hi <= lo ->
  normalize_value config value param_name = Some 0.
Proof.
  intros Hrange Hle.
  rewrite (normalize_value_range _ _ _ _ Hrange).
  apply Qlt_bool_false in Hle. now rewrite Hle.
Qed.

(** The score lies in [[0, 1]] whatever the features and the noise. *)
Lemma noisy_score_unit (features : list Q) (noise : Q) :
  0 <= noisy_score features noise /\ noisy_score features noise <= 1.
Proof. unfold noisy_score. apply clamp_unit. Qed.

(** The pair [run_inference] returns is a function of the configuration,
    the generator state and the dictionary; the engine's fields do not
    enter it. *)
Lemma run_inference_result (s : State) (g : random.State)
    (obd_data : gmap string PyVal) :
  snd (run_inference config s g obd_data) =
    match preprocess config obd_data with
    | None => (0, ERROR)
    | Some features =>
        let score :=
          noisy_score features (fst (random.uniform (- (5 # 100)) (5 # 100) g)) in
        (score,
         if Qle_bool (critical_min config) score then CRITICAL
         else if Qle_bool (warning_min config) score then WARNING
         else NORMAL)
    end.
Proof.
  unfold run_inference. destruct (preprocess config obd_data) as [features |];
    [| reflexivity].
  destruct (random.uniform _ _ g) as [noise g']. cbn [fst].
  destruct (Qle_bool (critical_min config) _); [reflexivity |].
  destruct (Qle_bool (warning_min config) _); reflexivity.
Qed.

(** When the preprocessing raises, the stored result is left alone. *)
Lemma run_inference_error (s : State) (g : random.State)
    (obd_data : gmap string PyVal) :
  preprocess config obd_data = None ->
  run_inference config s g obd_data =
    (add_log s (Logger.error "Inference error"), g, (0, ERROR)).
Proof. intros H. unfold run_inference. now rewrite H. Qed.

End NormalizeFacts.

(** ** The valve *)

Section ValveFacts.

Import ValveController.

Variable config : Config.

Lemma last_driven_output (ops : list GpioOp) (pin : Z) (high : bool) :
  last_driven config (ops ++ [Output pin high])
    = Some (level_means_open config high).
Proof.
  induction ops as [| op ops IH]; simpl; [reflexivity |]. now rewrite IH.
Qed.

Lemma last_driven_cleanup (ops : list GpioOp) (pin : Z) :
  last_driven config (ops ++ [Cleanup pin]) = last_driven config ops.
Proof.
  induction ops as [| op ops IH]; simpl; [reflexivity |]. now rewrite IH.
Qed.

(** [_set_gpio_state] returns exactly for a usable object, having driven
    the pin when the module is present; when it raises nothing has
    changed. *)
Lemma set_gpio_state_cases (s : State) (b : bool) :
  match _set_gpio_state config s b with
  | Returned s' =>
      usable s = true /\
      valve_open s' = valve_open s /\ GPIO s' = GPIO s /\
      pin_ready s' = pin_ready s /\ log s' = log s /\
      (GPIO s = true -> last_driven config (pin_ops s') = Some b) /\
      (GPIO s = false -> s' = s)
  | Raised s' => usable s = false /\ s' = s
  end.
Proof.
  unfold _set_gpio_state, gpio_output, usable.
  destruct (GPIO s) eqn:Hg; cbn [negb orb]; [| repeat split; auto; discriminate].
  destruct (pin_ready s) eqn:Hr; [| split; reflexivity].
  cbn [add_op valve_open GPIO pin_ready log pin_ops].
  repeat split; try assumption; try discriminate. intros _.
  rewrite last_driven_output. unfold level_means_open.
  destruct (active_high config), b; reflexivity.
Qed.

(** [emergency_shutoff] returns exactly for a usable object and then
    leaves the valve recorded closed, with the line (module present) last
    driven to closed.  When it raises, the recorded position, the pin and
    its history are as before. *)
Lemma emergency_shutoff_cases (s : State) :
  match emergency_shutoff config s with
  | Returned s' =>
      usable s = true /\ valve_open s' = false /\ GPIO s' = GPIO s /\
      pin_ready s' = pin_ready s /\
      (GPIO s = true -> last_driven config (pin_ops s') = Some false)
  | Raised s' =>
      usable s = false /\ valve_open s' = valve_open s /\ GPIO s' = GPIO s /\
      pin_ready s' = pin_ready s /\ pin_ops s' = pin_ops s
  end.
Proof.
  unfold emergency_shutoff, close_valve, _set_gpio_state, gpio_output, usable.
  destruct s as [vo gp rd ops lg].
  destruct vo, gp, rd;
    cbn [add_log add_op set_valve_open valve_open GPIO pin_ready pin_ops log
         negb orb and_then];
    repeat split; try reflexivity; try discriminate; intros _;
    rewrite last_driven_output; unfold level_means_open;
    destruct (active_high config); reflexivity.
Qed.

Lemma emergency_shutoff_usable (s : State) :
  usable s = true ->
  exists s',
    emergency_shutoff config s = Returned s' /\ valve_open s' = false /\
    usable s' = true /\ GPIO s' = GPIO s /\
    (GPIO s = true -> last_driven config (pin_ops s') = Some false).
Proof.
  intros Hu. pose proof (emergency_shutoff_cases s) as H.
  destruct (emergency_shutoff config s) as [s' | s'].
  - destruct H as (_ & Hc & Hg & Hr & Hl). exists s'.
    repeat split; try assumption. unfold usable in Hu |- *. now rewrite Hg, Hr.
  - destruct H as (Hu' & _). congruence.
Qed.

Lemma emergency_shutoff_unusable (s : State) :
  usable s = false ->
  exists s',
    emergency_shutoff config s = Raised s' /\ valve_open s' = valve_open s /\
    usable s' = false /\ GPIO s' = GPIO s /\ pin_ops s' = pin_ops s.
Proof.
  intros Hu. pose proof (emergency_shutoff_cases s) as H.
  destruct (emergency_shutoff config s) as [s' | s'].
  - destruct H as (Hu' & _). congruence.
  - destruct H as (_ & Ho & Hg & Hr & Hp). exists s'.
    repeat split; try assumption. unfold usable in Hu |- *. now rewrite Hg, Hr.
Qed.

(** [cleanup] on an open valve whose pin is not set up: the valve stays
    recorded open, the object unusable and the line as it was. *)
Lemma cleanup_unusable (s : State) :
  usable s = false -> valve_open s = true ->
  usable (cleanup config s) = false /\ valve_open (cleanup config s) = true /\
  last_driven config (pin_ops (cleanup config s)) = last_driven config (pin_ops s).
Proof.
  unfold usable, cleanup, open_valve, gpio_cleanup.
  destruct s as [vo gp rd ops lg]. cbn [valve_open GPIO pin_ready].
  destruct gp, rd; cbn [negb orb]; try discriminate. intros _ ->.
  cbn [negb and_then add_log add_op set_pin_ready valve_open GPIO pin_ready
       pin_ops orb].
  repeat split. apply last_driven_cleanup.
Qed.

(** [open_valve] and [close_valve], by cases: the call raises exactly
    when it has to drive a pin that is not set up, and then changes
    nothing; when it returns the recorded position is the one asked for,
    the line (module present) was last driven there unless the position
    was already recorded, and nothing else of the object has changed. *)
Lemma open_valve_cases (s : State) :
  match open_valve config s with
  | Returned s' =>
      (valve_open s = true \/ usable s = true) /\
      valve_open s' = true /\ GPIO s' = GPIO s /\ pin_ready s' = pin_ready s /\
      (valve_open s = true -> s' = s) /\
      (valve_open s = false -> GPIO s = true ->
       last_driven config (pin_ops s') = Some true)
  | Raised s' => valve_open s = false /\ usable s = false /\ s' = s
  end.
Proof.
  unfold open_valve.
  destruct (valve_open s) eqn:Ho; cbn [negb];
    [repeat split; auto; discriminate |].
  pose proof (set_gpio_state_cases s true) as H.
  destruct (_set_gpio_state config s true) as [s1 | s1]; cbn [and_then].
  - destruct H as (Hu & _ & Hg & Hr & _ & Hd & _).
    cbn [add_log set_valve_open valve_open GPIO pin_ready pin_ops].
    repeat split; auto. discriminate.
  - destruct H as (Hu & ->). auto.
Qed.

Lemma close_valve_cases (s : State) (reason : string) :
  match close_valve config s reason with
  | Returned s' =>
      (valve_open s = false \/ usable s = true) /\
      valve_open s' = false /\ GPIO s' = GPIO s /\ pin_ready s' = pin_ready s /\
      (valve_open s = false -> s' = s) /\
      (valve_open s = true -> GPIO s = true ->
       last_driven config (pin_ops s') = Some false)
  | Raised s' => valve_open s = true /\ usable s = false /\ s' = s
  end.
Proof.
  unfold close_valve.
  destruct (valve_open s) eqn:Ho;
    [| repeat split; auto; discriminate].
  pose proof (set_gpio_state_cases s false) as H.
  destruct (_set_gpio_state config s false) as [s1 | s1]; cbn [and_then].
  - destruct H as (Hu & _ & Hg & Hr & _ & Hd & _).
    cbn [add_log set_valve_open valve_open GPIO pin_ready pin_ops].
    repeat split; auto. discriminate.
  - destruct H as (Hu & ->). auto.
Qed.

(** [cleanup] on a closed valve: with the GPIO module present and the pin
    set up it drives the line to open, records the valve open and
    releases the pin; without the module it changes nothing. *)
Lemma cleanup_reopens (s : State) :
  valve_open s = false ->
  (GPIO s = true -> pin_ready s = true ->
   valve_open (cleanup config s) = true /\
   last_driven config (pin_ops (cleanup config s)) = Some true /\
   exists ops,
     pin_ops (cleanup config s)
       = pin_ops s ++ ops ++ [Cleanup (gpio_pin config)] /\
     ops = [Output (gpio_pin config) (active_high config)]) /\
  (GPIO s = false -> cleanup config s = s).
Proof.
  intros Hclosed.
  unfold cleanup, open_valve, _set_gpio_state, gpio_output, gpio_cleanup.
  destruct s as [vo gp rd ops lg]. simpl in Hclosed. subst vo.
  cbn [valve_open GPIO pin_ready negb]. split.
  - intros -> ->.
    cbn [negb and_then add_log add_op set_valve_open set_pin_ready
         valve_open GPIO pin_ready pin_ops].
    split; [reflexivity |]. split.
    + rewrite last_driven_cleanup, last_driven_output.
      unfold level_means_open. destruct (active_high config); reflexivity.
    + eexists. split; [| reflexivity].
      rewrite <- app_assoc. destruct (active_high config); reflexivity.
  - intros ->. reflexivity.
Qed.


(** The controller the constructor hands over: the valve recorded open;
    the pin set up exactly when the module is present and its setup
    returned, and then driven to open; never driven otherwise. *)
Lemma valve_init_state (gpio setup_ok : bool) :
  GPIO (__init__ config gpio setup_ok) = gpio /\
  valve_open (__init__ config gpio setup_ok) = true /\
  pin_ready (__init__ config gpio setup_ok) = gpio && setup_ok /\
  last_driven config (pin_ops (__init__ config gpio setup_ok))
    = (if gpio && setup_ok then Some true else None).
Proof.
  unfold __init__, gpio_setup, _set_gpio_state, gpio_output.
  destruct gpio, setup_ok; cbn; repeat split; try reflexivity;
    unfold level_means_open; destruct (active_high config); reflexivity.
Qed.

End ValveFacts.

(** ** The control loop *)

Section SystemFacts.

Import VehicleMonitorSystem.

Variable config : Config.

Lemma shutoff_calls_add_event (s : State) (e : Event) :
  shutoff_calls (add_event s e)
    = (shutoff_calls s + (if is_EmergencyShutoff e then 1 else 0))%nat.
Proof.
  unfold shutoff_calls. cbn [add_event trace].
  rewrite List.filter_app, length_app. simpl.
  destruct (is_EmergencyShutoff e); reflexivity.
Qed.

Lemma display_status_view (s : State) :
  safety_view (_display_status s) = safety_view s /\
  running (_display_status s) = running s /\
  loop_alive (_display_status s) = loop_alive s.
Proof.
  unfold _display_status, safety_view.
  rewrite shutoff_calls_add_event. cbn. rewrite Nat.add_0_r. auto.
Qed.

Lemma run_ai_inference_view (s : State) :
  safety_view (_run_ai_inference config s) = safety_view s /\
  running (_run_ai_inference config s) = running s /\
  loop_alive (_run_ai_inference config s) = loop_alive s.
Proof.
  unfold _run_ai_inference, safety_view.
  destruct (obd s) as [o |]; [| auto].
  destruct (ai_engine s) as [a |]; [| auto].
  destruct (_ && _); [| auto].
  destruct (AIInferenceEngine.run_inference _ _ _ _) as [[a' g'] result].
  rewrite shutoff_calls_add_event. cbn. rewrite Nat.add_0_r. auto.
Qed.

(** A gas check either leaves the flag, the valve and the number of
    shutoff calls alone, or (flag clear, valve present) calls
    [emergency_shutoff] once: the flag is set when the call returns and
    stays clear when it raises, and the valve object is as the call left
    it. *)
Lemma check_gas_safety_view (s : State) :
  running (_check_gas_safety config s) = running s /\
  loop_alive (_check_gas_safety config s) = loop_alive s /\
  (safety_view (_check_gas_safety config s) = safety_view s \/
   (emergency_shutdown s = false /\
    exists v,
      valve s = Some v /\
      safety_view (_check_gas_safety config s)
        = (ValveController.is_returned
             (ValveController.emergency_shutoff (valve_config config) v),
           Some (ValveController.state_of
                   (ValveController.emergency_shutoff (valve_config config) v)),
           S (shutoff_calls s)))).
Proof.
  unfold _check_gas_safety, safety_view.
  destruct (gas_sensor s) as [g |]; [| auto].
  destruct (GasSensor.get_reading g) as [[raw filtered] st].
  destruct (_ && _).
  - cbn [add_event emergency_shutdown valve negb].
    destruct (emergency_shutdown s) eqn:He; cbn [negb].
    + rewrite shutoff_calls_add_event. cbn. rewrite Nat.add_0_r, He. auto.
    + destruct (valve s) as [v |] eqn:Hv.
      * destruct (ValveController.emergency_shutoff (valve_config config) v)
          as [v' | v'] eqn:Hes;
          (split; [reflexivity |]); (split; [reflexivity |]); right;
          (split; [reflexivity |]); exists v; (split; [reflexivity |]);
          rewrite Hes; unfold shutoff_calls;
          cbn [add_event set_flags set_valve trace emergency_shutdown valve
               ValveController.is_returned ValveController.state_of];
          rewrite ?He, !List.filter_app, !length_app; simpl; f_equal; lia.
      * rewrite shutoff_calls_add_event. cbn. rewrite Nat.add_0_r, He, Hv. auto.
  - rewrite shutoff_calls_add_event. cbn. rewrite Nat.add_0_r. auto.
Qed.

(** A gas check made with the flag set calls nothing and leaves the
    valve alone. *)
Lemma check_gas_safety_guarded (s : State) :
  emergency_shutdown s = true ->
  safety_view (_check_gas_safety config s) = safety_view s.
Proof.
  intros He. destruct (check_gas_safety_view s) as (_ & _ & [H | (Hf & _)]);
    [exact H | congruence].
Qed.

(** The body of the loop, seen through [safety_view]. *)
Lemma loop_body_view (s : State) (t : Q) :
  running (loop_body config s t) = running s /\
  loop_alive (loop_body config s t) = loop_alive s /\
  (safety_view (loop_body config s t) = safety_view s \/
   (emergency_shutdown s = false /\
    exists v,
      valve s = Some v /\
      safety_view (loop_body config s t)
        = (ValveController.is_returned
             (ValveController.emergency_shutoff (valve_config config) v),
           Some (ValveController.state_of
                   (ValveController.emergency_shutoff (valve_config config) v)),
           S (shutoff_calls s)))).
Proof.
  unfold loop_body.
  set (s1 := if Qle_bool gas_check_interval (t - last_gas_check s)
             then set_last (_check_gas_safety config s) t
                    (last_ai_check (_check_gas_safety config s))
                    (last_display (_check_gas_safety config s))
             else s).
  set (s2 := if Qle_bool ai_check_interval (t - last_ai_check s1)
             then set_last (_run_ai_inference config s1)
                    (last_gas_check (_run_ai_inference config s1)) t
                    (last_display (_run_ai_inference config s1))
             else s1).
  assert (H1 : running s1 = running s /\ loop_alive s1 = loop_alive s /\
               (safety_view s1 = safety_view s \/
                (emergency_shutdown s = false /\
                 exists v,
                   valve s = Some v /\
                   safety_view s1
                     = (ValveController.is_returned
                          (ValveController.emergency_shutoff (valve_config config) v),
                        Some (ValveController.state_of
                                (ValveController.emergency_shutoff (valve_config config) v)),
                        S (shutoff_calls s))))).
  { subst s1. destruct (Qle_bool gas_check_interval _); [| auto].
    destruct (check_gas_safety_view s) as (Hr & Ha & Hv). auto. }
  assert (H2 : safety_view s2 = safety_view s1 /\ running s2 = running s1 /\
               loop_alive s2 = loop_alive s1).
  { subst s2. destruct (Qle_bool ai_check_interval _); [| auto].
    destruct (run_ai_inference_view s1) as (Hv & Hr & Ha). auto. }
  assert (H3 : safety_view (if Qle_bool display_interval (t - last_display s2)
                            then set_last (_display_status s2)
                                   (last_gas_check (_display_status s2))
                                   (last_ai_check (_display_status s2)) t
                            else s2) = safety_view s2 /\
               running (if Qle_bool display_interval (t - last_display s2)
                        then set_last (_display_status s2)
                               (last_gas_check (_display_status s2))
                               (last_ai_check (_display_status s2)) t
                        else s2) = running s2 /\
               loop_alive (if Qle_bool display_interval (t - last_display s2)
                           then set_last (_display_status s2)
                                  (last_gas_check (_display_status s2))
                                  (last_ai_check (_display_status s2)) t
                           else s2) = loop_alive s2).
  { destruct (Qle_bool display_interval _); [| auto].
    destruct (display_status_view s2) as (Hv & Hr & Ha). auto. }
  destruct H1 as (Hr1 & Ha1 & Hv1), H2 as (Hv2 & Hr2 & Ha2),
           H3 as (Hv3 & Hr3 & Ha3).
  split; [congruence |]. split; [congruence |].
  rewrite Hv3, Hv2. exact Hv1.
Qed.


(** Every step but [Stop], seen through [safety_view]. *)
Lemma step_view (s : State) (x : Step) :
  is_Stop x = false ->
  safety_view (step config s x) = safety_view s \/
  (emergency_shutdown s = false /\
   exists v,
     valve s = Some v /\
     safety_view (step config s x)
       = (ValveController.is_returned
            (ValveController.emergency_shutoff (valve_config config) v),
          Some (ValveController.state_of
                  (ValveController.emergency_shutoff (valve_config config) v)),
          S (shutoff_calls s))).
Proof.
  intros Hx. destruct x as [t raw | t data | t |]; [| | | discriminate];
    cbn [step].
  - destruct (gas_sensor s); [| auto]. destruct (gas_thread s); auto.
  - destruct (obd s); [| auto]. destruct (obd_thread s); auto.
  - unfold main_loop_turn. destruct (loop_alive s); cbn [negb]; [| auto].
    destruct (_ && _).
    + destruct (loop_body_view s t) as (_ & _ & H). exact H.
    + left. unfold safety_view. rewrite shutoff_calls_add_event. cbn.
      now rewrite Nat.add_0_r.
Qed.

(** [stop], seen through [safety_view]: only the valve changes, by its
    [cleanup]. *)
Lemma stop_view (s : State) :
  safety_view (stop config s)
    = (emergency_shutdown s,
       option_map (ValveController.cleanup (valve_config config)) (valve s),
       shutoff_calls s).
Proof.
  unfold stop, safety_view.
  cbn [set_flags loop_alive].
  destruct (loop_alive s); cbn [set_threads add_event set_flags valve];
    destruct (valve s) as [v |] eqn:Hv; cbn; unfold shutoff_calls; cbn;
    rewrite ?List.filter_app, ?length_app; simpl; rewrite ?Nat.add_0_r, ?Hv;
    reflexivity.
Qed.

Lemma run_cons (s : State) (x : Step) (l : list Step) :
  run config s (x :: l) = run config (step config s x) l.
Proof. reflexivity. Qed.

Lemma run_app (s : State) (l1 l2 : list Step) :
  run config s (l1 ++ l2) = run config (run config s l1) l2.
Proof. unfold run. apply fold_left_app. Qed.

Lemma stop_flags (s : State) :
  loop_alive (stop config s) = false /\ gas_thread (stop config s) = false /\
  obd_thread (stop config s) = false /\ running (stop config s) = false.
Proof.
  unfold stop. cbn [set_flags loop_alive].
  destruct (loop_alive s); cbn [set_threads add_event set_flags valve];
    destruct (valve s); cbn; auto.
Qed.

(** The loop does not start again: a step that leaves it alive found it
    alive and was not the shutdown. *)
Lemma step_loop_alive (s : State) (x : Step) :
  loop_alive (step config s x) = true ->
  loop_alive s = true /\ is_Stop x = false.
Proof.
  destruct x as [t raw | t data | t |]; cbn [step is_Stop].
  - destruct (gas_sensor s); [| auto]. destruct (gas_thread s); auto.
  - destruct (obd s); [| auto]. destruct (obd_thread s); auto.
  - unfold main_loop_turn.
    destruct (loop_alive s) eqn:Ha; cbn [negb]; [auto | congruence].
  - destruct (stop_flags s) as (Ha & _). rewrite Ha. discriminate.
Qed.

(** With the loop ended, the steps other than [Stop] leave the flag, the
    valve and the count alone. *)
Lemma step_view_loop_ended (s : State) (x : Step) :
  is_Stop x = false -> loop_alive s = false ->
  safety_view (step config s x) = safety_view s.
Proof.
  intros Hx Ha. destruct x as [t raw | t data | t |]; [| | | discriminate];
    cbn [step].
  - destruct (gas_sensor s); [| reflexivity]. destruct (gas_thread s); reflexivity.
  - destruct (obd s); [| reflexivity]. destruct (obd_thread s); reflexivity.
  - unfold main_loop_turn. now rewrite Ha.
Qed.

(** Where the calls into the library return (the valve object is usable
    as long as the loop is alive), the flag and the number of shutoff
    calls go together: none while the flag is clear, one once it is
    set. *)
Lemma flag_counts_step (s : State) (x : Step) :
  (loop_alive s = true ->
   exists v, valve s = Some v /\ ValveController.usable v = true) ->
  (emergency_shutdown s = false /\ shutoff_calls s = 0%nat) \/
  (emergency_shutdown s = true /\ shutoff_calls s = 1%nat) ->
  (loop_alive (step config s x) = true ->
   exists v,
     valve (step config s x) = Some v /\ ValveController.usable v = true) /\
  ((emergency_shutdown (step config s x) = false /\
    shutoff_calls (step config s x) = 0%nat) \/
   (emergency_shutdown (step config s x) = true /\
    shutoff_calls (step config s x) = 1%nat)).
Proof.
  intros Hu H. split.
  - intros Ha'. destruct (step_loop_alive s x Ha') as [Ha Hx].
    destruct (Hu Ha) as (v & Hv & Huse).
    destruct (step_view s x Hx) as [Hview | (He & v0 & Hv0 & Hview)];
      unfold safety_view in Hview; injection Hview as _ Hvalve _.
    + exists v. split; [congruence | exact Huse].
    + rewrite Hv in Hv0. injection Hv0 as <-.
      destruct (emergency_shutoff_usable (valve_config config) v Huse)
        as (v' & Hes & _ & Hu' & _).
      rewrite Hes in Hvalve. exists v'. split; [exact Hvalve | exact Hu'].
  - destruct (is_Stop x) eqn:Hx.
    + destruct x; try discriminate. cbn [step].
      pose proof (stop_view s) as Hv. unfold safety_view in Hv.
      injection Hv as He _ Hc. rewrite He, Hc. exact H.
    + destruct (loop_alive s) eqn:Ha.
      * destruct (Hu eq_refl) as (v & Hv & Huse).
        destruct (step_view s x Hx) as [Hview | (He & v0 & Hv0 & Hview)];
          unfold safety_view in Hview; injection Hview as He' _ Hc.
        -- rewrite He', Hc. exact H.
        -- rewrite Hv in Hv0. injection Hv0 as <-.
           destruct (emergency_shutoff_usable (valve_config config) v Huse)
             as (v' & Hes & _).
           rewrite Hes in He'. right. rewrite He', Hc.
           destruct H as [[_ H0] | [H1 _]]; [| congruence]. now rewrite H0.
      * pose proof (step_view_loop_ended s x Hx Ha) as Hview.
        unfold safety_view in Hview. injection Hview as He' _ Hc.
        rewrite He', Hc. exact H.
Qed.

Lemma flag_counts_run (steps : list Step) :
  forall s : State,
    (loop_alive s = true ->
     exists v, valve s = Some v /\ ValveController.usable v = true) ->
    (emergency_shutdown s = false /\ shutoff_calls s = 0%nat) \/
    (emergency_shutdown s = true /\ shutoff_calls s = 1%nat) ->
    (emergency_shutdown (run config s steps) = false /\
     shutoff_calls (run config s steps) = 0%nat) \/
    (emergency_shutdown (run config s steps) = true /\
     shutoff_calls (run config s steps) = 1%nat).
Proof.
  induction steps as [| x rest IH]; intros s Hu H; [exact H |].
  rewrite run_cons.
  destruct (flag_counts_step s x Hu H) as [Hu' H']. now apply IH.
Qed.

(** With the flag set, the steps other than [Stop] leave the flag, the
    valve object and the number of shutoff calls as they are. *)
Lemma latched_run (steps : list Step) :
  forall s : State,
    emergency_shutdown s = true ->
    no_Stop steps ->
    safety_view (run config s steps) = safety_view s.
Proof.
  induction steps as [| x rest IH]; intros s He Hns; [reflexivity |].
  inversion Hns as [| ? ? Hx Hrest]; subst.
  rewrite run_cons.
  destruct (step_view s x Hx) as [Hv | (Hf & _)]; [| congruence].
  rewrite IH; [exact Hv | | exact Hrest].
  unfold safety_view in Hv. injection Hv as He' _ _. congruence.
Qed.

(** The flag is never cleared. *)
Lemma flag_sticky (steps : list Step) :
  forall s : State,
    emergency_shutdown s = true ->
    emergency_shutdown (run config s steps) = true.
Proof.
  induction steps as [| x rest IH]; intros s He; [exact He |].
  rewrite run_cons. apply IH.
  destruct (is_Stop x) eqn:Hx.
  - destruct x; try discriminate. cbn [step].
    pose proof (stop_view s) as Hv. unfold safety_view in Hv.
    injection Hv as He' _ _. congruence.
  - destruct (step_view s x Hx) as [Hv | (Hf & _)]; [| congruence].
    unfold safety_view in Hv. injection Hv as He' _ _. congruence.
Qed.

(** The valve of a started process, as long as [stop] is not called: it
    is the object [__init__] built, open, until the flag is set; from
    then on it is closed and usable, with the line last driven to
    closed. *)
Lemma valve_state_step (gpio : bool) (s : State) (x : Step) :
  is_Stop x = false ->
  (exists v,
     valve s = Some v /\ ValveController.GPIO v = gpio /\
     (emergency_shutdown s = false -> ValveController.valve_open v = true) /\
     (emergency_shutdown s = true ->
      ValveController.valve_open v = false /\
      ValveController.usable v = true /\
      (gpio = true ->
       ValveController.last_driven (valve_config config) (ValveController.pin_ops v)
         = Some false))) ->
  exists v,
    valve (step config s x) = Some v /\ ValveController.GPIO v = gpio /\
    (emergency_shutdown (step config s x) = false ->
     ValveController.valve_open v = true) /\
    (emergency_shutdown (step config s x) = true ->
     ValveController.valve_open v = false /\
     ValveController.usable v = true /\
     (gpio = true ->
      ValveController.last_driven (valve_config config) (ValveController.pin_ops v)
        = Some false)).
Proof.
  intros Hx (v & Hv & Hg & Hopen & Hclosed).
  destruct (step_view s x Hx) as [Hview | (Hf & v0 & Hv0 & Hview)];
    unfold safety_view in Hview; injection Hview as He Hvalve _.
  - exists v. rewrite Hvalve, He. auto.
  - rewrite Hv in Hv0. injection Hv0 as <-.
    pose proof (emergency_shutoff_cases (valve_config config) v) as Hc.
    destruct (ValveController.emergency_shutoff (valve_config config) v)
      as [v' | v']; cbn in He, Hvalve; exists v'; rewrite He;
      (split; [exact Hvalve |]).
    + destruct Hc as (Hu & Hc & Hg' & Hr' & Hl).
      split; [congruence |]. split; [discriminate |].
      intros _. split; [exact Hc |]. split.
      * unfold ValveController.usable in Hu |- *. now rewrite Hg', Hr'.
      * intros Hgpio. apply Hl. congruence.
    + destruct Hc as (_ & Ho & Hg' & _).
      split; [congruence |]. split; [| discriminate].
      intros _. rewrite Ho. now apply Hopen.
Qed.

Lemma valve_state_run (gpio : bool) (steps : list Step) :
  forall s : State,
    no_Stop steps ->
    (exists v,
       valve s = Some v /\ ValveController.GPIO v = gpio /\
       (emergency_shutdown s = false -> ValveController.valve_open v = true) /\
       (emergency_shutdown s = true ->
        ValveController.valve_open v = false /\
        ValveController.usable v = true /\
        (gpio = true ->
         ValveController.last_driven (valve_config config) (ValveController.pin_ops v)
           = Some false))) ->
    exists v,
      valve (run config s steps) = Some v /\ ValveController.GPIO v = gpio /\
      (emergency_shutdown (run config s steps) = false ->
       ValveController.valve_open v = true) /\
      (emergency_shutdown (run config s steps) = true ->
       ValveController.valve_open v = false /\
       ValveController.usable v = true /\
       (gpio = true ->
        ValveController.last_driven (valve_config config) (ValveController.pin_ops v)
          = Some false)).
Proof.
  induction steps as [| x rest IH]; intros s Hns H; [exact H |].
  inversion Hns as [| ? ? Hx Hrest]; subst.
  rewrite run_cons. apply IH; [exact Hrest |]. now apply valve_state_step.
Qed.

(** After a failed setup of the pin every shutoff call raises: over any
    step, the shutdown included, the flag stays clear and the valve
    object stays unusable, recorded open, its line never driven. *)
Lemma failed_setup_step (s : State) (x : Step) :
  emergency_shutdown s = false ->
  (exists v,
     valve s = Some v /\ ValveController.usable v = false /\
     ValveController.valve_open v = true /\
     ValveController.last_driven (valve_config config) (ValveController.pin_ops v)
       = None) ->
  emergency_shutdown (step config s x) = false /\
  exists v,
    valve (step config s x) = Some v /\ ValveController.usable v = false /\
    ValveController.valve_open v = true /\
    ValveController.last_driven (valve_config config) (ValveController.pin_ops v)
      = None.
Proof.
  intros He (v & Hv & Hu & Ho & Hl). destruct (is_Stop x) eqn:Hx.
  - destruct x; try discriminate. cbn [step].
    pose proof (stop_view s) as Hview. unfold safety_view in Hview.
    injection Hview as He' Hvalve _. rewrite Hv in Hvalve. cbn in Hvalve.
    destruct (cleanup_unusable (valve_config config) v Hu Ho) as (Hu' & Ho' & Hl').
    split; [congruence |]. eexists. split; [exact Hvalve |].
    repeat split; congruence.
  - destruct (step_view s x Hx) as [Hview | (_ & v0 & Hv0 & Hview)];
      unfold safety_view in Hview; injection Hview as He' Hvalve _.
    + split; [congruence |]. exists v. rewrite Hvalve. auto.
    + rewrite Hv in Hv0. injection Hv0 as <-.
      destruct (emergency_shutoff_unusable (valve_config config) v Hu)
        as (v' & Hes & Ho' & Hu' & _ & Hp).
      rewrite Hes in He', Hvalve. cbn in He', Hvalve.
      split; [exact He' |]. exists v'. split; [exact Hvalve |].
      repeat split; congruence.
Qed.

Lemma failed_setup_run (steps : list Step) :
  forall s : State,
    emergency_shutdown s = false ->
    (exists v,
       valve s = Some v /\ ValveController.usable v = false /\
       ValveController.valve_open v = true /\
       ValveController.last_driven (valve_config config) (ValveController.pin_ops v)
         = None) ->
    emergency_shutdown (run config s steps) = false /\
    exists v,
      valve (run config s steps) = Some v /\ ValveController.usable v = false /\
      ValveController.valve_open v = true /\
      ValveController.last_driven (valve_config config) (ValveController.pin_ops v)
        = None.
Proof.
  induction steps as [| x rest IH]; intros s He Hv; [auto |].
  rewrite run_cons. destruct (failed_setup_step s x He Hv) as [He' Hv'].
  now apply IH.
Qed.

(** The process [start] hands over. *)
Lemma start_state (p : Platform) (g : random.State) (s0 : State) :
  start config p (__init__ g) = (s0, true) ->
  emergency_shutdown s0 = false /\ trace s0 = [] /\
  running s0 = true /\ loop_alive s0 = true /\
  valve s0 = Some (ValveController.__init__ (valve_config config)
                     (has_GPIO p) (gpio_setup_ok p)) /\
  gas_sensor s0 = GasSensor.__init__ (gas_sensor_config config).
Proof.
  unfold start, initialize.
  destruct (GasSensor.__init__ (gas_sensor_config config)) as [gs |];
    [| cbn; discriminate].
  destruct (obd_connects p); cbn; intros H; injection H as <-;
    repeat split.
Qed.

(** The valve object [start] hands over, as the invariants above need
    it. *)
Lemma start_valve (p : Platform) (g : random.State) (s0 : State) :
  start config p (__init__ g) = (s0, true) ->
  exists v,
    valve s0 = Some v /\ ValveController.GPIO v = has_GPIO p /\
    ValveController.valve_open v = true /\
    ValveController.usable v = negb (has_GPIO p) || gpio_setup_ok p /\
    ValveController.last_driven (valve_config config) (ValveController.pin_ops v)
      = (if has_GPIO p && gpio_setup_ok p then Some true else None).
Proof.
  intros Hstart. apply start_state in Hstart as (_ & _ & _ & _ & Hv & _).
  destruct (valve_init_state (valve_config config) (has_GPIO p) (gpio_setup_ok p))
    as (Hg & Ho & Hr & Hl).
  eexists. split; [exact Hv |]. split; [exact Hg |]. split; [exact Ho |].
  split; [| exact Hl].
  unfold ValveController.usable. rewrite Hg, Hr.
  destruct (has_GPIO p), (gpio_setup_ok p); reflexivity.
Qed.

Lemma skipn_app_exact (A : Type) (l t : list A) :
  skipn (length l) (l ++ t) = t.
Proof. induction l as [| a l IH]; simpl; [reflexivity | exact IH]. Qed.



Lemma run_ai_inference_trace (s : State) :
  emergency_shutdown (_run_ai_inference config s) = emergency_shutdown s /\
  exists l, trace (_run_ai_inference config s) = trace s ++ l /\
            forallb (fun e => is_Inference e || is_StatusReport e) l = true.
Proof.
  unfold _run_ai_inference.
  destruct (obd s) as [o |];
    [| split; [reflexivity | exists []; now rewrite app_nil_r]].
  destruct (ai_engine s) as [a |];
    [| split; [reflexivity | exists []; now rewrite app_nil_r]].
  destruct (_ && _);
    [| split; [reflexivity | exists []; now rewrite app_nil_r]].
  destruct (AIInferenceEngine.run_inference _ _ _ _) as [[a' g'] result].
  cbn. split; [reflexivity |]. now exists [Inference result].
Qed.

Lemma filter_excluded (A : Type) (p q : A -> bool) (l : list A) :
  forallb p l = true ->
  (forall e, p e = true -> q e = false) ->
  List.filter q l = [].
Proof.
  intros Hall Hex. induction l as [| e l IH]; [reflexivity |].
  simpl in Hall |- *. apply andb_true_iff in Hall as [He Hl].
  now rewrite (Hex e He), IH.
Qed.

(** The events of the body of the loop: those of the gas check, when it
    is due, then inferences and status reports only. *)
Lemma loop_body_trace (s : State) (t : Q) :
  exists tail,
    trace (loop_body config s t)
      = trace (if Qle_bool gas_check_interval (t - last_gas_check s)
               then _check_gas_safety config s else s) ++ tail /\
    forallb (fun e => is_Inference e || is_StatusReport e) tail = true.
Proof.
  unfold loop_body.
  set (s1 := if Qle_bool gas_check_interval (t - last_gas_check s)
             then set_last (_check_gas_safety config s) t
                    (last_ai_check (_check_gas_safety config s))
                    (last_display (_check_gas_safety config s))
             else s).
  set (s2 := if Qle_bool ai_check_interval (t - last_ai_check s1)
             then set_last (_run_ai_inference config s1)
                    (last_gas_check (_run_ai_inference config s1)) t
                    (last_display (_run_ai_inference config s1))
             else s1).
  set (s3 := if Qle_bool display_interval (t - last_display s2)
             then set_last (_display_status s2)
                    (last_gas_check (_display_status s2))
                    (last_ai_check (_display_status s2)) t
             else s2).
  assert (H3 : exists l, trace s3 = trace s2 ++ l /\
                 forallb (fun e => is_Inference e || is_StatusReport e) l = true).
  { subst s3. destruct (Qle_bool display_interval _).
    - cbn. now eexists [_].
    - exists []. now rewrite app_nil_r. }
  assert (H2 : exists l, trace s2 = trace s1 ++ l /\
                 forallb (fun e => is_Inference e || is_StatusReport e) l = true).
  { subst s2. destruct (Qle_bool ai_check_interval _).
    - destruct (run_ai_inference_trace s1) as (_ & l & Hl & Hf).
      exists l. split; [exact Hl | exact Hf].
    - exists []. now rewrite app_nil_r. }
  assert (H1 : trace s1
               = trace (if Qle_bool gas_check_interval (t - last_gas_check s)
                        then _check_gas_safety config s else s)).
  { subst s1. now destruct (Qle_bool gas_check_interval _). }
  destruct H3 as (l3 & Hl3 & Hf3), H2 as (l2 & Hl2 & Hf2).
  exists (l2 ++ l3). rewrite Hl3, Hl2, H1, <- app_assoc.
  split; [reflexivity |]. now rewrite forallb_app, Hf2, Hf3.
Qed.

(** A gas check on a valve that cannot be driven, with [auto_shutoff] on
    and the flag clear: a shutoff call for every CRITICAL reading. *)
Lemma check_gas_safety_trace_unusable (s : State) (v : ValveController.State) :
  emergency_shutdown s = false -> valve s = Some v ->
  ValveController.usable v = false ->
  ValveController.auto_shutoff (valve_config config) = true ->
  exists l,
    trace (_check_gas_safety config s) = trace s ++ l /\
    length (List.filter is_EmergencyShutoff l)
      = length (List.filter is_critical_check l).
Proof.
  intros He Hv Hu Hauto. unfold _check_gas_safety.
  destruct (gas_sensor s) as [g |]; [| exists []; now rewrite app_nil_r].
  destruct (GasSensor.get_reading g) as [[raw filtered] st].
  rewrite Hauto, andb_true_r.
  destruct st; cbn [GasSensor.Status_eqb];
    [now exists [GasCheck GasSensor.SAFE]
    | now exists [GasCheck GasSensor.WARNING] |].
  cbn [add_event emergency_shutdown valve]. rewrite He, Hv. cbn [negb].
  destruct (emergency_shutoff_unusable (valve_config config) v Hu)
    as (v' & Hes & _).
  rewrite Hes. exists [GasCheck GasSensor.CRITICAL; EmergencyShutoff].
  cbn. now rewrite <- app_assoc.
Qed.

(** After a failed setup of the pin, with [auto_shutoff] on, the shutoff
    is called again at every gas check that reads CRITICAL. *)
Lemma failed_setup_counts_step (s : State) (x : Step) :
  ValveController.auto_shutoff (valve_config config) = true ->
  emergency_shutdown s = false ->
  (exists v, valve s = Some v /\ ValveController.usable v = false) ->
  shutoff_calls s = critical_checks s ->
  shutoff_calls (step config s x) = critical_checks (step config s x).
Proof.
  intros Hauto He (v & Hv & Hu) Hc.
  assert (Htr : exists l,
            trace (step config s x) = trace s ++ l /\
            length (List.filter is_EmergencyShutoff l)
              = length (List.filter is_critical_check l)).
  { destruct x as [t raw | t data | t |]; cbn [step].
    - exists []. rewrite app_nil_r. split; [| reflexivity].
      destruct (gas_sensor s); [| reflexivity]. now destruct (gas_thread s).
    - exists []. rewrite app_nil_r. split; [| reflexivity].
      destruct (obd s); [| reflexivity]. now destruct (obd_thread s).
    - unfold main_loop_turn.
      destruct (loop_alive s); cbn [negb]; [| exists []; now rewrite app_nil_r].
      destruct (_ && _); [| now exists [LoopEnded]].
      destruct (loop_body_trace s t) as (tail & Ht & Hf).
      assert (E1 : List.filter is_EmergencyShutoff tail = [])
        by (apply (filter_excluded _ _ _ _ Hf); now intros []).
      assert (E2 : List.filter is_critical_check tail = [])
        by (apply (filter_excluded _ _ _ _ Hf); now intros []).
      destruct (Qle_bool gas_check_interval _).
      + destruct (check_gas_safety_trace_unusable s v He Hv Hu Hauto)
          as (l & Hl & Hlen).
        exists (l ++ tail). rewrite Ht, Hl, <- app_assoc.
        split; [reflexivity |].
        now rewrite !List.filter_app, !length_app, Hlen, E1, E2.
      + exists tail. split; [exact Ht |]. now rewrite E1, E2.
    - unfold stop. cbn [set_flags loop_alive].
      destruct (loop_alive s); cbn [set_threads add_event set_flags valve];
        destruct (valve s); cbn;
        (now exists [LoopEnded]) || (exists []; now rewrite app_nil_r). }
  destruct Htr as (l & Hl & Hlen). unfold shutoff_calls, critical_checks in *.
  rewrite Hl, !List.filter_app, !length_app. lia.
Qed.

Lemma failed_setup_counts_run (steps : list Step) :
  forall s : State,
    ValveController.auto_shutoff (valve_config config) = true ->
    emergency_shutdown s = false ->
    (exists v,
       valve s = Some v /\ ValveController.usable v = false /\
       ValveController.valve_open v = true /\
       ValveController.last_driven (valve_config config) (ValveController.pin_ops v)
         = None) ->
    shutoff_calls s = critical_checks s ->
    shutoff_calls (run config s steps) = critical_checks (run config s steps).
Proof.
  induction steps as [| x rest IH]; intros s Hauto He Hv Hc; [exact Hc |].
  rewrite run_cons. destruct (failed_setup_step s x He Hv) as [He' Hv'].
  apply IH; try assumption.
  apply failed_setup_counts_step; try assumption.
  destruct Hv as (v & Hv & Hu & _). eauto.
Qed.


(** Only a pass of the gas thread changes the sensor object. *)
Lemma step_keeps_gas_sensor (s : State) (x : Step) :
  is_GasSample x = false ->
  gas_sensor (step config s x) = gas_sensor s.
Proof.
  intros Hx. destruct x as [t raw | t data | t |]; [discriminate | | |];
    cbn [step].
  - destruct (obd s); [| reflexivity]. destruct (obd_thread s); reflexivity.
  - unfold main_loop_turn, loop_body, _check_gas_safety, _run_ai_inference,
      _display_status.
    repeat case_match; cbn; congruence.
  - unfold stop. repeat case_match; cbn; congruence.
Qed.

Lemma run_keeps_gas_sensor (steps : list Step) :
  forall s : State,
    Forall (fun x => is_GasSample x = false) steps ->
    gas_sensor (run config s steps) = gas_sensor s.
Proof.
  induction steps as [| x rest IH]; intros s H; [reflexivity |].
  inversion H as [| ? ? Hx Hrest]; subst.
  rewrite run_cons, IH by exact Hrest. now apply step_keeps_gas_sensor.
Qed.

End SystemFacts.

(** * Main results *)

(** ** Gas monitor *)

(** C1.  In a run of the read loop from the fresh sensor, a pass answers
    CRITICAL only at the end of a contiguous run of passes whose filtered
    values are all at or above [critical_min], the first of which was made
    at least [confirmation_time] before (by the clock the loop reads).
    With a positive confirmation time that run has at least two passes:
    no single reading gives CRITICAL. *)
Theorem critical_only_after_confirmed_run
    (config : GasSensor.Config) (s0 : GasSensor.State)
    (samples : list (Q * Z)) (i : nat) (si : GasSensor.State) :
  GasSensor.__init__ config = Some s0 ->
  GasSensor._read_loop config s0 samples !! i = Some si ->
  GasSensor.status si = GasSensor.CRITICAL ->
  exists (j : nat) (tj ti : Q) (rj ri : Z),
    (j <= i)%nat /\
    samples !! j = Some (tj, rj) /\ samples !! i = Some (ti, ri) /\
    GasSensor.confirmation_time config <= ti - tj /\
    (forall (k : nat) (sk : GasSensor.State),
       (j <= k <= i)%nat ->
       GasSensor._read_loop config s0 samples !! k = Some sk ->
       GasSensor.critical_min config <= GasSensor.filtered_value sk) /\
    (0 < GasSensor.confirmation_time config -> (j < i)%nat).
Proof.
  intros Hinit Hi Hcrit.
  apply gas_init_fresh in Hinit as (Hnone & _).
  destruct (critical_needs_run config s0 samples i si Hnone Hi Hcrit)
    as (j & tj & ti & rj & ri & Hji & Hj & Hti & Hconf & Hrun).
  exists j, tj, ti, rj, ri. repeat split; try assumption.
  intros Hpos. destruct (Nat.eq_dec j i) as [-> | Hne]; [| lia].
  rewrite Hj in Hti. injection Hti as -> _. lra.
Qed.

Lemma critical_only_after_confirmed_run_witness :
  let samples := [(0, 450%Z); (1, 450%Z); (2, 450%Z)] in
  exists (j : nat) (tj ti : Q) (rj ri : Z),
    (j <= 2)%nat /\
    samples !! j = Some (tj, rj) /\ samples !! 2%nat = Some (ti, ri) /\
    GasSensor.confirmation_time CONFIG_gas_sensor <= ti - tj /\
    (forall (k : nat) (sk : GasSensor.State),
       (j <= k <= 2)%nat ->
       GasSensor._read_loop CONFIG_gas_sensor gas_sensor_fresh samples !! k = Some sk ->
       GasSensor.critical_min CONFIG_gas_sensor <= GasSensor.filtered_value sk) /\
    (0 < GasSensor.confirmation_time CONFIG_gas_sensor -> (j < 2)%nat).
Proof.
  intros samples.
  apply (critical_only_after_confirmed_run CONFIG_gas_sensor gas_sensor_fresh
           samples 2
           (GasSensor.after CONFIG_gas_sensor gas_sensor_fresh samples)).
  - reflexivity.
  - vm_compute. reflexivity.
  - vm_compute. reflexivity.
Defined.




(** C9.  The sensor object answers [(0, 0, 'SAFE')] to [get_reading] as
    long as the read loop has processed no sample; in a started process
    whose gas thread has made no pass, that is the reading the control
    loop and the display obtain, whatever else has happened. *)
Theorem reading_before_first_sample
    (config : VehicleMonitorSystem.Config) (p : VehicleMonitorSystem.Platform)
    (g : random.State) (s0 : VehicleMonitorSystem.State)
    (gs : GasSensor.State) (steps : list VehicleMonitorSystem.Step) :
  GasSensor.__init__ (VehicleMonitorSystem.gas_sensor_config config) = Some gs ->
  VehicleMonitorSystem.start config p (VehicleMonitorSystem.__init__ g) = (s0, true) ->
  Forall (fun x => VehicleMonitorSystem.is_GasSample x = false) steps ->
  GasSensor.get_reading
    (GasSensor.after (VehicleMonitorSystem.gas_sensor_config config) gs [])
    = (0%Z, 0, GasSensor.SAFE) /\
  option_map GasSensor.get_reading
    (VehicleMonitorSystem.gas_sensor (VehicleMonitorSystem.run config s0 steps))
    = Some (0%Z, 0, GasSensor.SAFE).
Proof.
  intros Hinit Hstart Hsteps.
  apply start_state in Hstart as (_ & _ & _ & _ & _ & Hgs).
  rewrite (run_keeps_gas_sensor config steps s0 Hsteps), Hgs, Hinit.
  apply gas_init_fresh in Hinit as (_ & _ & _ & Hr).
  split; [exact Hr | simpl; now rewrite Hr].
Qed.

Lemma reading_before_first_sample_witness :
  option_map GasSensor.get_reading
    (VehicleMonitorSystem.gas_sensor
       (VehicleMonitorSystem.run CONFIG started_system
          [VehicleMonitorSystem.ObdUpdate 1002 midrange_snapshot;
           VehicleMonitorSystem.Tick 1003;
           VehicleMonitorSystem.Tick 1006]))
  = Some (0%Z, 0, GasSensor.SAFE).
Proof.
  apply (reading_before_first_sample CONFIG full_platform constant_generator
           started_system gas_sensor_fresh).
  - reflexivity.
  - reflexivity.
  - repeat constructor.
Defined.

(** ** Valve and control loop *)

(** C4, as amended.  In a started process the flag is set only after a
    call of [emergency_shutoff] that returned.  Once the flag is set it
    stays set, exactly one call has been made and no later step makes
    another; a gas check made with the flag set leaves the flag, the valve
    and the count alone; the valve object stays the closed one the
    shutoff left until [stop] is called, whose [cleanup] re-opens it
    exactly when the GPIO module is present.  On a machine where the pin
    of the valve works, or the GPIO module is absent, at most one call is
    made in a run.  On a machine where the module is present and the setup
    of the pin failed, every call raises: the flag is never set, the valve
    stays open with its line never driven, and with [auto_shutoff] on the
    call is made again at every gas check that reads CRITICAL. *)
Theorem emergency_shutoff_at_most_once
    (config : VehicleMonitorSystem.Config) (p : VehicleMonitorSystem.Platform)
    (g : random.State) (s0 : VehicleMonitorSystem.State)
    (steps1 steps2 : list VehicleMonitorSystem.Step) :
  VehicleMonitorSystem.start config p (VehicleMonitorSystem.__init__ g) = (s0, true) ->
  let s1 := VehicleMonitorSystem.run config s0 steps1 in
  let s2 := VehicleMonitorSystem.run config s1 steps2 in
  let vc := VehicleMonitorSystem.valve_config config in
  let works := negb (VehicleMonitorSystem.has_GPIO p)
               || VehicleMonitorSystem.gpio_setup_ok p in
  (VehicleMonitorSystem.emergency_shutdown s1 = true ->
   works = true /\
   VehicleMonitorSystem.emergency_shutdown s2 = true /\
   VehicleMonitorSystem.shutoff_calls s1 = 1%nat /\
   VehicleMonitorSystem.shutoff_calls s2 = 1%nat /\
   VehicleMonitorSystem.safety_view (VehicleMonitorSystem._check_gas_safety config s2)
     = VehicleMonitorSystem.safety_view s2 /\
   (VehicleMonitorSystem.no_Stop (steps1 ++ steps2) ->
    exists v,
      VehicleMonitorSystem.valve s1 = Some v /\
      VehicleMonitorSystem.valve s2 = Some v /\
      ValveController.is_open v = false /\
      VehicleMonitorSystem.valve (VehicleMonitorSystem.stop config s2)
        = Some (ValveController.cleanup vc v) /\
      ValveController.is_open (ValveController.cleanup vc v)
        = VehicleMonitorSystem.has_GPIO p)) /\
  (works = true -> (VehicleMonitorSystem.shutoff_calls s2 <= 1)%nat) /\
  (works = false ->
   VehicleMonitorSystem.emergency_shutdown s2 = false /\
   (ValveController.auto_shutoff vc = true ->
    VehicleMonitorSystem.shutoff_calls s2 = VehicleMonitorSystem.critical_checks s2) /\
   exists v,
     VehicleMonitorSystem.valve s2 = Some v /\
     ValveController.is_open v = true /\
     ValveController.last_driven vc (ValveController.pin_ops v) = None).
Proof.
  intros Hstart s1 s2 vc works. subst vc works.
  pose proof (start_valve config p g s0 Hstart) as (v0 & Hv0 & Hg0 & Ho0 & Hu0 & Hl0).
  apply start_state in Hstart as (He0 & Ht0 & _).
  assert (Hc0 : VehicleMonitorSystem.shutoff_calls s0 = 0%nat)
    by (unfold VehicleMonitorSystem.shutoff_calls; now rewrite Ht0).
  assert (E2 : s2 = VehicleMonitorSystem.run config s0 (steps1 ++ steps2))
    by (subst s2 s1; now rewrite run_app).
  destruct (negb (VehicleMonitorSystem.has_GPIO p)
            || VehicleMonitorSystem.gpio_setup_ok p) eqn:Hw.
  - assert (Hinit : VehicleMonitorSystem.loop_alive s0 = true ->
                    exists v, VehicleMonitorSystem.valve s0 = Some v /\
                              ValveController.usable v = true) by eauto.
    pose proof (flag_counts_run config steps1 s0 Hinit (or_introl (conj He0 Hc0)))
      as H1.
    pose proof (flag_counts_run config (steps1 ++ steps2) s0 Hinit
                  (or_introl (conj He0 Hc0))) as H2.
    fold s1 in H1. rewrite <- E2 in H2.
    split; [| split; [intros _; destruct H2 as [[_ ->] | [_ ->]]; lia | discriminate]].
    intros He1. split; [reflexivity |].
    pose proof (flag_sticky config steps2 s1 He1) as He2. fold s2 in He2.
    split; [exact He2 |].
    split; [destruct H1 as [[H _] | [_ H]]; [congruence | exact H] |].
    split; [destruct H2 as [[H _] | [_ H]]; [congruence | exact H] |].
    split; [now apply check_gas_safety_guarded |].
    intros Hns. apply Forall_app in Hns as [Hns1 Hns2].
    destruct (valve_state_run config (VehicleMonitorSystem.has_GPIO p) steps1 s0 Hns1)
      as (v & Hv & Hg & _ & Hclosed).
    { exists v0. split; [exact Hv0 |]. split; [exact Hg0 |].
      split; [intros _; exact Ho0 | congruence]. }
    fold s1 in Hv, Hclosed. destruct (Hclosed He1) as (Hc & Hu & _).
    pose proof (latched_run config steps2 s1 He1 Hns2) as Hview.
    fold s2 in Hview. unfold VehicleMonitorSystem.safety_view in Hview.
    injection Hview as _ Hvalve _.
    exists v. split; [exact Hv |]. split; [congruence |]. split; [exact Hc |].
    split.
    { pose proof (stop_view config s2) as Hstop.
      unfold VehicleMonitorSystem.safety_view in Hstop.
      injection Hstop as _ Hstop _. rewrite Hstop, Hvalve, Hv. reflexivity. }
    destruct (cleanup_reopens (VehicleMonitorSystem.valve_config config) v Hc)
      as [Hwith Hwithout].
    unfold ValveController.usable in Hu. rewrite Hg in Hu.
    destruct (VehicleMonitorSystem.has_GPIO p) eqn:Hgp.
    + destruct Hwith as (Ho & _); [exact Hg | exact Hu | exact Ho].
    + rewrite (Hwithout Hg). exact Hc.
  - assert (Hinit : exists v,
              VehicleMonitorSystem.valve s0 = Some v /\
              ValveController.usable v = false /\
              ValveController.valve_open v = true /\
              ValveController.last_driven (VehicleMonitorSystem.valve_config config)
                (ValveController.pin_ops v) = None).
    { exists v0. repeat split; try assumption. rewrite Hl0.
      destruct (VehicleMonitorSystem.has_GPIO p),
        (VehicleMonitorSystem.gpio_setup_ok p); (discriminate || reflexivity). }
    destruct (failed_setup_run config steps1 s0 He0 Hinit) as [He1 _].
    destruct (failed_setup_run config (steps1 ++ steps2) s0 He0 Hinit)
      as (He2 & v & Hv & _ & Ho & Hl).
    fold s1 in He1. rewrite <- E2 in He2, Hv.
    split; [intros He; congruence |]. split; [discriminate |].
    intros _. split; [exact He2 |]. split.
    + intros Hauto. rewrite E2.
      apply failed_setup_counts_run; try assumption.
      unfold VehicleMonitorSystem.critical_checks. now rewrite Ht0.
    + exists v. auto.
Qed.

Lemma emergency_shutoff_at_most_once_witness :
  (let s1 := VehicleMonitorSystem.run CONFIG started_system leak_schedule in
   let s2 := VehicleMonitorSystem.run CONFIG s1
               [VehicleMonitorSystem.Tick 1006;
                VehicleMonitorSystem.GasSample 1007 450;
                VehicleMonitorSystem.Tick 1010] in
   VehicleMonitorSystem.emergency_shutdown s1 = true /\
   VehicleMonitorSystem.shutoff_calls s2 = 1%nat /\
   exists v,
     VehicleMonitorSystem.valve s1 = Some v /\
     VehicleMonitorSystem.valve s2 = Some v /\
     ValveController.is_open v = false /\
     ValveController.is_open (ValveController.cleanup CONFIG_valve v) = true) /\
  (let s2 := VehicleMonitorSystem.run CONFIG started_with_failed_gpio_setup
               (leak_schedule ++ [VehicleMonitorSystem.Tick 1004]) in
   VehicleMonitorSystem.emergency_shutdown s2 = false /\
   VehicleMonitorSystem.shutoff_calls s2 = VehicleMonitorSystem.critical_checks s2 /\
   VehicleMonitorSystem.critical_checks s2 = 2%nat /\
   exists v,
     VehicleMonitorSystem.valve s2 = Some v /\ ValveController.is_open v = true).
Proof.
  split.
  - intros s1 s2.
    assert (He : VehicleMonitorSystem.emergency_shutdown s1 = true)
      by (vm_compute; reflexivity).
    split; [exact He |].
    destruct (emergency_shutoff_at_most_once CONFIG full_platform constant_generator
                started_system leak_schedule
                [VehicleMonitorSystem.Tick 1006;
                 VehicleMonitorSystem.GasSample 1007 450;
                 VehicleMonitorSystem.Tick 1010] eq_refl) as [H _].
    destruct (H He) as (_ & _ & _ & Hc & _ & Hv).
    split; [exact Hc |].
    destruct Hv as (v & Hv1 & Hv2 & Hclosed & _ & Hopen); [repeat constructor |].
    exists v. auto.
  - intros s2.
    destruct (emergency_shutoff_at_most_once CONFIG platform_with_failed_gpio_setup
                constant_generator started_with_failed_gpio_setup []
                (leak_schedule ++ [VehicleMonitorSystem.Tick 1004]) eq_refl)
      as (_ & _ & H).
    destruct (H eq_refl) as (He & Hc & v & Hv & Ho & _).
    split; [exact He |]. split; [exact (Hc eq_refl) |].
    split; [vm_compute; reflexivity |]. exists v. auto.
Defined.

(** C4 as the specification words it fails twice.  On the machine where
    everything works, the flag is set and the valve closed after the leak,
    and [stop] then re-opens the valve: it does not stay closed for the
    rest of the run.  On the machine where the setup of the pin failed,
    the shutoff call of the first gas check raises, the flag stays clear,
    and the gas check one second later calls the shutoff a second time. *)
Lemma shutoff_once_counterexample :
  ~ VehicleMonitorSystem.shutoff_once_and_closed CONFIG started_system /\
  ~ VehicleMonitorSystem.shutoff_once_and_closed CONFIG
      started_with_failed_gpio_setup.
Proof.
  split; intros H.
  - destruct (H leak_schedule [VehicleMonitorSystem.Stop]) as [_ Hclosed].
    destruct Hclosed as (_ & v & Hv & Hopen); [vm_compute; reflexivity |].
    vm_compute in Hv. injection Hv as <-. vm_compute in Hopen. discriminate.
  - destruct (H [] (leak_schedule ++ [VehicleMonitorSystem.Tick 1004]))
      as [Hle _].
    vm_compute in Hle. lia.
Qed.

(** The same two runs, evaluated: the flag, the number of shutoff calls
    and the recorded position of the valve at the end. *)
Example shutoff_runs_evaluated :
  (let s := VehicleMonitorSystem.run CONFIG started_system
              (leak_schedule ++ [VehicleMonitorSystem.Stop]) in
   (VehicleMonitorSystem.emergency_shutdown s,
    VehicleMonitorSystem.shutoff_calls s,
    option_map ValveController.is_open (VehicleMonitorSystem.valve s)))
  = (true, 1%nat, Some true) /\
  (let s := VehicleMonitorSystem.run CONFIG started_with_failed_gpio_setup
              (leak_schedule ++ [VehicleMonitorSystem.Tick 1004]) in
   (VehicleMonitorSystem.emergency_shutdown s,
    VehicleMonitorSystem.shutoff_calls s,
    option_map ValveController.is_open (VehicleMonitorSystem.valve s),
    option_map ValveController.pin_ops (VehicleMonitorSystem.valve s)))
  = (false, 2%nat, Some true, Some []).
Proof. split; vm_compute; reflexivity. Qed.




(** The history of pin 17 over the leak and the shutdown: set up, driven
    HIGH (open), LOW twice by the shutoff, HIGH again by [cleanup], then
    released. *)
Example pin_history_over_shutdown :
  option_map ValveController.pin_ops
    (VehicleMonitorSystem.valve
       (VehicleMonitorSystem.run CONFIG started_system
          (leak_schedule ++ [VehicleMonitorSystem.Stop])))
  = Some [ValveController.Setup 17; ValveController.Output 17 true;
          ValveController.Output 17 false; ValveController.Output 17 false;
          ValveController.Output 17 true; ValveController.Cleanup 17].
Proof. vm_compute. reflexivity. Qed.




(** In the same run the inference of the turn follows the setting of the
    flag. *)
Example inference_follows_the_flag :
  ~ VehicleMonitorSystem.quiet_after_emergency
      (VehicleMonitorSystem.trace
         (VehicleMonitorSystem.run CONFIG started_system leak_schedule)).
Proof.
  intros H.
  set (tr := VehicleMonitorSystem.trace
               (VehicleMonitorSystem.run CONFIG started_system leak_schedule)) in H.
  specialize (H (take 2 tr) (drop 3 tr)).
  assert (Hfalse : forallb
                     (fun e => negb (VehicleMonitorSystem.is_GasCheck e
                                     || VehicleMonitorSystem.is_Inference e))
                     (drop 3 tr) = false)
    by (vm_compute; reflexivity).
  rewrite H in Hfalse; [discriminate |].
  vm_compute. reflexivity.
Qed.

(** ** Anomaly scorer *)

(** C7.  For a channel configured with the range [[lo, hi]]: when
    [lo < hi] the value is clamped into the range (a value inside it is
    kept) and the clamped value [c] is mapped to [(c - lo) / (hi - lo)],
    which lies in [[0, 1]], is 0 for every value at or under [lo] and 1 for
    every value at or above [hi]; the image of [lo + x * (hi - lo)] is [x]
    for [x] in [[0, 1]]; when [lo = hi] the result is the literal zero.
    Equalities of results are equalities of rationals. *)
Theorem normalize_value_clamps
    (config : AIInferenceEngine.Config) (param_name : string) (lo hi value : Q) :
  AIInferenceEngine.norm_ranges config !! param_name = Some [lo; hi] ->
  (lo < hi ->
   (exists (c r : Q),
      AIInferenceEngine.normalize_value config value param_name = Some r /\
      r == (c - lo) / (hi - lo) /\
      lo <= c /\ c <= hi /\
      (lo <= value /\ value <= hi -> c == value) /\
      (value <= lo -> c == lo /\ r == 0) /\
      (hi <= value -> c == hi /\ r == 1) /\
      0 <= r /\ r <= 1) /\
   (forall x : Q, 0 <= x /\ x <= 1 ->
      exists r : Q,
        AIInferenceEngine.normalize_value config (lo + x * (hi - lo)) param_name
          = Some r /\ r == x)) /\
  (lo == hi ->
   AIInferenceEngine.normalize_value config value param_name = Some 0).
Proof.
  intros Hlk.
  assert (Hrange : default [0; 100] (AIInferenceEngine.norm_ranges config !! param_name)
                   = [lo; hi]) by now rewrite Hlk.
  split.
  - intros Hlt. split.
    + now apply normalize_proper.
    + intros x [Hx0 Hx1].
      destruct (normalize_proper config (lo + x * (hi - lo)) param_name lo hi Hrange Hlt)
        as (c & r & Hn & Hr & _ & _ & Hin & _).
      exists r. split; [exact Hn |].
      assert (Hp0 : 0 <= x * (hi - lo)) by (apply Qmult_le_0_compat; lra).
      assert (Hp1 : x * (hi - lo) <= 1 * (hi - lo))
        by (apply Qmult_le_compat_r; lra).
      rewrite Hr, Hin by (split; lra).
      field. lra.
  - intros Heq. apply (normalize_degenerate config value param_name lo hi Hrange).
    lra.
Qed.

Lemma normalize_value_clamps_witness :
  exists r : Q,
    AIInferenceEngine.normalize_value CONFIG_ai 7000 "rpm" = Some r /\ r == 1.
Proof.
  destruct (normalize_value_clamps CONFIG_ai "rpm" 0 6000 7000 eq_refl)
    as [Hproper _].
  destruct Hproper as [(c & r & Hn & _ & _ & _ & _ & _ & Hhi & _) _];
    [reflexivity |].
  exists r. split; [exact Hn |]. apply Hhi. discriminate.
Defined.

(** C10.  For a name that [norm_ranges] does not hold, [normalize_value]
    returns a number: the one computed with the range [[0, 100]], the same
    as for a channel configured with that range. *)
Theorem normalize_value_default_range
    (config : AIInferenceEngine.Config) (param_name : string) (value : Q) :
  AIInferenceEngine.norm_ranges config !! param_name = None ->
  AIInferenceEngine.normalize_value config value param_name
    = Some ((py_max 0 (py_min 100 value) - 0) / (100 - 0)) /\
  (forall (config' : AIInferenceEngine.Config) (param_name' : string),
     AIInferenceEngine.norm_ranges config' !! param_name' = Some [0; 100] ->
     AIInferenceEngine.normalize_value config value param_name
       = AIInferenceEngine.normalize_value config' value param_name').
Proof.
  intros Hnone.
  assert (Hdef : AIInferenceEngine.normalize_value config value param_name
                 = Some ((py_max 0 (py_min 100 value) - 0) / (100 - 0))).
  { unfold AIInferenceEngine.normalize_value. rewrite Hnone. reflexivity. }
  split; [exact Hdef |].
  intros config' param_name' Hsome. rewrite Hdef.
  unfold AIInferenceEngine.normalize_value. rewrite Hsome. reflexivity.
Qed.

Lemma normalize_value_default_range_witness :
  AIInferenceEngine.normalize_value CONFIG_ai 250 "fuel_level"
    = Some ((py_max 0 (py_min 100 250) - 0) / (100 - 0)).
Proof.
  apply (normalize_value_default_range CONFIG_ai "fuel_level" 250). reflexivity.
Defined.

(** C6.  The score [run_inference] returns lies in [[0, 1]], and the pair
    it returns is fixed by the dictionary and the state of the random
    generator: two calls with the same dictionary and generator state
    return the same pair and leave the same generator state, whatever the
    engine has stored before. *)
Theorem run_inference_bounded_and_reproducible
    (config : AIInferenceEngine.Config) (s1 s2 : AIInferenceEngine.State)
    (g : random.State) (obd_data : gmap string PyVal) :
  let r1 := AIInferenceEngine.run_inference config s1 g obd_data in
  let r2 := AIInferenceEngine.run_inference config s2 g obd_data in
  0 <= fst (snd r1) /\ fst (snd r1) <= 1 /\
  snd r1 = snd r2 /\ snd (fst r1) = snd (fst r2).
Proof.
  intros r1 r2. subst r1 r2.
  rewrite !run_inference_result.
  unfold AIInferenceEngine.run_inference.
  destruct (AIInferenceEngine.preprocess config obd_data) as [features |].
  - destruct (random.uniform _ _ g) as [noise g'] eqn:Hu. cbn [fst snd].
    destruct (noisy_score_unit features noise) as [H0 H1].
    repeat split; try assumption.
    destruct (Qle_bool (AIInferenceEngine.critical_min config) _); [reflexivity |].
    destruct (Qle_bool (AIInferenceEngine.warning_min config) _); reflexivity.
  - cbn [fst snd]. repeat split; lra.
Qed.

(** The scenario of the specification: the mid-range snapshot scores
    within the noise band and is NORMAL. *)
Example midrange_is_normal :
  let r := snd (AIInferenceEngine.run_inference CONFIG_ai AIInferenceEngine.__init__
                  constant_generator midrange_snapshot) in
  fst r <= 5 # 100 /\ snd r = AIInferenceEngine.NORMAL.
Proof. vm_compute. split; [discriminate | reflexivity]. Qed.

(** C8.  The status the engine exposes leaves the three values NORMAL,
    WARNING and CRITICAL: a fresh engine answers [(0.0, 'UNKNOWN')] to
    [get_latest_result], and a call of [run_inference] whose preprocessing
    raises returns [(0.0, 'ERROR')] and leaves the stored result as it
    was. *)
Theorem ai_status_outside_enum
    (config : AIInferenceEngine.Config) (s : AIInferenceEngine.State)
    (g : random.State) (obd_data : gmap string PyVal) :
  AIInferenceEngine.preprocess config obd_data = None ->
  let r := AIInferenceEngine.run_inference config s g obd_data in
  AIInferenceEngine.get_latest_result AIInferenceEngine.__init__
    = (0, AIInferenceEngine.UNKNOWN) /\
  snd r = (0, AIInferenceEngine.ERROR) /\
  AIInferenceEngine.get_latest_result (fst (fst r))
    = AIInferenceEngine.get_latest_result s /\
  AIInferenceEngine.inference_count (fst (fst r))
    = AIInferenceEngine.inference_count s /\
  ~ In AIInferenceEngine.UNKNOWN
       [AIInferenceEngine.NORMAL; AIInferenceEngine.WARNING; AIInferenceEngine.CRITICAL] /\
  ~ In AIInferenceEngine.ERROR
       [AIInferenceEngine.NORMAL; AIInferenceEngine.WARNING; AIInferenceEngine.CRITICAL].
Proof.
  intros Hfail r. subst r. rewrite (run_inference_error config s g obd_data Hfail).
  cbn [fst snd]. repeat split; try reflexivity.
  - simpl. intros [H | [H | [H | []]]]; discriminate.
  - simpl. intros [H | [H | [H | []]]]; discriminate.
Qed.

Lemma ai_status_outside_enum_witness :
  snd (AIInferenceEngine.run_inference CONFIG_ai AIInferenceEngine.__init__
         constant_generator broken_snapshot)
  = (0, AIInferenceEngine.ERROR).
Proof.
  apply (ai_status_outside_enum CONFIG_ai AIInferenceEngine.__init__
           constant_generator broken_snapshot).
  vm_compute. reflexivity.
Defined.

(** * Further properties *)

(** ** Gas sensor: converter, window, filter *)

(** X1.  [_read_adc] answers a ten-bit value: whatever the first two bytes
    of the SPI answer are, a third byte in [0, 255] gives a result in
    [0, 1023]; a channel outside [0, 7] gives 0 without reading the
    answer. *)
Theorem read_adc_range (config : GasSensor.Config) (r0 r1 r2 : Z) :
  (0 <= r2 <= 255)%Z ->
  (0 <= GasSensor._read_adc config (r0, r1, r2) <= 1023)%Z /\
  ((GasSensor.channel config < 0 \/ 7 < GasSensor.channel config)%Z ->
   GasSensor._read_adc config (r0, r1, r2) = 0%Z).
Proof.
  intros Hr2. unfold GasSensor._read_adc.
  assert (Hland : (0 <= Z.land r1 3 <= 3)%Z).
  { assert (E : Z.land r1 3 = (r1 mod 4)%Z)
      by (change 3%Z with (Z.ones 2); now rewrite Z.land_ones by lia).
    rewrite E. pose proof (Z.mod_pos_bound r1 4). lia. }
  rewrite Z.shiftl_mul_pow2 by lia. change (2 ^ 8)%Z with 256%Z.
  destruct (GasSensor.channel config <? 0)%Z eqn:H0;
    destruct (7 <? GasSensor.channel config)%Z eqn:H7; cbn [orb];
    split; try lia; intros Hout;
    apply Z.ltb_ge in H0; apply Z.ltb_ge in H7; lia.
Qed.

Lemma read_adc_range_witness :
  (0 <= GasSensor._read_adc CONFIG_gas_sensor (0, 254, 17) <= 1023)%Z.
Proof.
  apply (read_adc_range CONFIG_gas_sensor 0 254 17). lia.
Defined.

Lemma tail_drop (A : Type) (l : list A) (k : nat) :
  tl (drop k l) = drop (S k) l.
Proof.
  revert k. induction l as [| a l IH]; intros k; [now destruct k |].
  destruct k as [| k]; [reflexivity | apply IH].
Qed.

(** Appending to the last [n] items of a list gives the last [n] items of
    the longer list. *)
Lemma deque_append_drop (n : nat) (l : list Z) (x : Z) :
  GasSensor.deque_append n (drop (length l - n) l) x
    = drop (length (l ++ [x]) - n) (l ++ [x]).
Proof.
  rewrite length_app. simpl length.
  unfold GasSensor.deque_append. destruct n as [| n].
  - rewrite Nat.sub_0_r, drop_all.
    rewrite drop_ge; [reflexivity | rewrite length_app; simpl; lia].
  - rewrite length_drop.
    destruct (Nat.ltb_spec (length l - (length l - S n)) (S n)) as [Hlt | Hge].
    + replace (length l - S n)%nat with 0%nat by lia.
      replace (length l + 1 - S n)%nat with 0%nat by lia. reflexivity.
    + rewrite tail_drop.
      replace (length l + 1 - S n)%nat with (S (length l - S n)) by lia.
      rewrite drop_app_le by lia. reflexivity.
Qed.

Lemma after_maxlen (config : GasSensor.Config) (samples : list (Q * Z)) :
  forall s : GasSensor.State,
    GasSensor.readings_maxlen (GasSensor.after config s samples)
      = GasSensor.readings_maxlen s.
Proof.
  induction samples as [| [t raw] rest IH]; intros s; [reflexivity |].
  rewrite after_cons, IH.
  now destruct (read_iteration_spec config s t raw) as (_ & _ & _ & H & _).
Qed.

(** X2.  The window is a bounded queue of the most recent samples: after
    any samples the fresh sensor holds exactly the last [window_size] raw
    values, in order (all of them while fewer have arrived, none for a
    window of size zero). *)
Theorem window_holds_last_samples
    (config : GasSensor.Config) (s0 : GasSensor.State) (samples : list (Q * Z)) :
  GasSensor.__init__ config = Some s0 ->
  GasSensor.readings (GasSensor.after config s0 samples)
    = drop (length samples - Z.to_nat (GasSensor.window_size config))
           (map snd samples).
Proof.
  intros Hinit. apply gas_init_fresh in Hinit as (_ & Hempty & Hmax & _).
  induction samples as [| [t raw] rest IH] using rev_ind.
  - simpl. exact Hempty.
  - rewrite after_snoc.
    destruct (read_iteration_spec config (GasSensor.after config s0 rest) t raw)
      as (_ & Hr & _).
    cbv zeta in Hr. rewrite Hr, after_maxlen, Hmax, IH, map_app.
    cbn [map snd]. rewrite <- (length_map snd rest), <- (length_map snd (rest ++ [(t, raw)])).
    rewrite map_app. cbn [map snd]. apply deque_append_drop.
Qed.

Lemma window_holds_last_samples_witness :
  GasSensor.readings
    (GasSensor.after CONFIG_gas_sensor gas_sensor_fresh
       (map (fun n => (inject_Z (Z.of_nat n), Z.of_nat n)) (seq 0 12)))
  = map Z.of_nat (seq 2 10).
Proof.
  rewrite (window_holds_last_samples CONFIG_gas_sensor gas_sensor_fresh).
  - reflexivity.
  - reflexivity.
Defined.

Lemma sum_between (lo hi : Z) (d : list Z) :
  Forall (fun x => (lo <= x <= hi)%Z) d ->
  (lo * Z.of_nat (length d) <= py_sum d <= hi * Z.of_nat (length d))%Z.
Proof.
  induction 1 as [| x d Hx _ IH]; [simpl; lia |].
  cbn [py_sum fold_right length]. fold (py_sum d). nia.
Qed.

(** The mean of values of an interval lies in the interval. *)
Lemma moving_average_between (lo hi : Z) (d : list Z) (raw : Z) :
  Forall (fun x => (lo <= x <= hi)%Z) d ->
  (lo <= raw <= hi)%Z ->
  inject_Z lo <= GasSensor.moving_average d raw /\
  GasSensor.moving_average d raw <= inject_Z hi.
Proof.
  intros Hd Hraw. destruct d as [| x d].
  - simpl. rewrite <- !Zle_Qle. lia.
  - pose proof (sum_between lo hi (x :: d) Hd) as [Hs1 Hs2].
    unfold GasSensor.moving_average.
    assert (Hpos : 0 < inject_Z (Z.of_nat (length (x :: d)))).
    { change 0 with (inject_Z 0). rewrite <- Zlt_Qlt. simpl length. lia. }
    split.
    + apply Qle_shift_div_l; [exact Hpos |].
      rewrite <- inject_Z_mult, <- Zle_Qle. exact Hs1.
    + apply Qle_shift_div_r; [exact Hpos |].
      rewrite <- inject_Z_mult, <- Zle_Qle. exact Hs2.
Qed.

Lemma deque_append_between (lo hi : Z) (m : nat) (d : list Z) (x : Z) :
  Forall (fun y => (lo <= y <= hi)%Z) d -> (lo <= x <= hi)%Z ->
  Forall (fun y => (lo <= y <= hi)%Z) (GasSensor.deque_append m d x).
Proof.
  intros Hd Hx. unfold GasSensor.deque_append. destruct m as [| m]; [exact Hd |].
  destruct (length d <? S m)%nat.
  - apply Forall_app. split; [exact Hd | constructor; [exact Hx | constructor]].
  - apply Forall_app. split; [| constructor; [exact Hx | constructor]].
    destruct d; [constructor | now inversion Hd].
Qed.

Lemma filtered_between_run (config : GasSensor.Config) (lo hi : Z)
    (samples : list (Q * Z)) :
  forall s : GasSensor.State,
    Forall (fun y => (lo <= y <= hi)%Z) (GasSensor.readings s) ->
    Forall (fun p => (lo <= snd p <= hi)%Z) samples ->
    Forall (fun st => inject_Z lo <= GasSensor.filtered_value st /\
                      GasSensor.filtered_value st <= inject_Z hi)
           (GasSensor._read_loop config s samples).
Proof.
  induction samples as [| [t raw] rest IH]; intros s Hs Hall; [constructor |].
  inversion Hall as [| ? ? Hraw Hrest]; subst. simpl in Hraw.
  destruct (read_iteration_spec config s t raw) as (Hf & Hr & _).
  cbv zeta in Hf, Hr.
  pose proof (deque_append_between lo hi (GasSensor.readings_maxlen s) _ raw Hs Hraw)
    as Hd.
  simpl GasSensor._read_loop. constructor.
  - rewrite Hf. now apply moving_average_between.
  - apply IH; [rewrite Hr; exact Hd | exact Hrest].
Qed.

Lemma filtered_between_lookup
    (config : GasSensor.Config) (s0 : GasSensor.State) (lo hi : Z)
    (samples : list (Q * Z)) (i : nat) (si : GasSensor.State) :
  GasSensor.__init__ config = Some s0 ->
  Forall (fun p => (lo <= snd p <= hi)%Z) samples ->
  GasSensor._read_loop config s0 samples !! i = Some si ->
  inject_Z lo <= GasSensor.filtered_value si /\
  GasSensor.filtered_value si <= inject_Z hi.
Proof.
  intros Hinit Hall Hi.
  apply gas_init_fresh in Hinit as (_ & Hempty & _).
  pose proof (filtered_between_run config lo hi samples s0) as H.
  rewrite Hempty in H. specialize (H ltac:(constructor) Hall).
  rewrite List.Forall_forall in H. apply H.
  apply list_elem_of_In. eapply list_elem_of_lookup_2. exact Hi.
Qed.

(** X3.  The moving average stays within the range of the samples: when
    every raw sample lies in [[lo, hi]], so does every filtered value the
    sensor publishes. *)
Theorem filtered_value_between
    (config : GasSensor.Config) (s0 : GasSensor.State) (lo hi : Z)
    (samples : list (Q * Z)) (i : nat) (si : GasSensor.State) :
  GasSensor.__init__ config = Some s0 ->
  Forall (fun p => (lo <= snd p <= hi)%Z) samples ->
  GasSensor._read_loop config s0 samples !! i = Some si ->
  inject_Z lo <= GasSensor.filtered_value si /\
  GasSensor.filtered_value si <= inject_Z hi.
Proof.
  intros Hinit Hall Hi.
  apply gas_init_fresh in Hinit as (_ & Hempty & _).
  pose proof (filtered_between_run config lo hi samples s0) as H.
  rewrite Hempty in H. specialize (H ltac:(constructor) Hall).
  rewrite List.Forall_forall in H. apply H.
  apply list_elem_of_In. eapply list_elem_of_lookup_2. exact Hi.
Qed.

Lemma filtered_value_between_witness :
  let samples := [(0, 100%Z); (1, 900%Z); (2, 500%Z)] in
  inject_Z 100 <= GasSensor.filtered_value
                    (GasSensor.after CONFIG_gas_sensor gas_sensor_fresh samples) /\
  GasSensor.filtered_value
    (GasSensor.after CONFIG_gas_sensor gas_sensor_fresh samples) <= inject_Z 900.
Proof.
  intros samples.
  apply (filtered_value_between CONFIG_gas_sensor gas_sensor_fresh 100 900 samples 2).
  - reflexivity.
  - repeat constructor; simpl; lia.
  - vm_compute. reflexivity.
Defined.

(** X4.  With samples the converter can answer (0 to 1023), the voltage
    [get_voltage] reports after any pass lies in [[0, 3.3]]. *)
Theorem voltage_range
    (config : GasSensor.Config) (s0 : GasSensor.State)
    (samples : list (Q * Z)) (i : nat) (si : GasSensor.State) :
  GasSensor.__init__ config = Some s0 ->
  Forall (fun p => adc_value (snd p)) samples ->
  GasSensor._read_loop config s0 samples !! i = Some si ->
  0 <= GasSensor.get_voltage si /\ GasSensor.get_voltage si <= 33 # 10.
Proof.
  intros Hinit Hall Hi.
  destruct (filtered_between_lookup config s0 0 1023 samples i si Hinit Hall Hi)
    as [H0 H1].
  change (inject_Z 0) with 0 in H0. change (inject_Z 1023) with 1023 in H1.
  unfold GasSensor.get_voltage.
  set (f := GasSensor.filtered_value si) in *.
  assert (E : f / 1024 * (33 # 10) == f * (33 # 10240)) by (field).
  rewrite E. split; lra.
Qed.

Lemma voltage_range_witness :
  let samples := [(0, 1023%Z); (1, 1023%Z)] in
  0 <= GasSensor.get_voltage
         (GasSensor.after CONFIG_gas_sensor gas_sensor_fresh samples) /\
  GasSensor.get_voltage
    (GasSensor.after CONFIG_gas_sensor gas_sensor_fresh samples) <= 33 # 10.
Proof.
  intros samples.
  apply (voltage_range CONFIG_gas_sensor gas_sensor_fresh samples 1).
  - reflexivity.
  - repeat constructor; simpl; lia.
  - vm_compute. reflexivity.
Defined.

(** ** Gas sensor: status and log *)

(** The status and the log entries of one pass, read off
    [_determine_status]. *)
Lemma pass_outcome (config : GasSensor.Config) (s : GasSensor.State)
    (t : Q) (raw : Z) :
  let f := GasSensor.moving_average
             (GasSensor.deque_append (GasSensor.readings_maxlen s)
                (GasSensor.readings s) raw) raw in
  let start := match GasSensor.critical_start_time s with
               | Some t0 => t0 | None => t end in
  let s' := GasSensor.read_iteration config s t raw in
  GasSensor.status s' =
    (if Qle_bool (GasSensor.critical_min config) f then
       if Qle_bool (GasSensor.confirmation_time config) (t - start)
       then GasSensor.CRITICAL else GasSensor.WARNING
     else if Qle_bool (GasSensor.warning_min config) f
     then GasSensor.WARNING else GasSensor.SAFE) /\
  confirmations (GasSensor.log s') =
    (confirmations (GasSensor.log s) +
     (if GasSensor.Status_eqb (GasSensor.status s') GasSensor.CRITICAL
         && negb (GasSensor.Status_eqb (GasSensor.status s) GasSensor.CRITICAL)
      then 1 else 0))%nat.
Proof.
  intros f start s'. subst s' start f.
  destruct s as [cv fv st0 start0 rd ml lg].
  unfold GasSensor.read_iteration, GasSensor._determine_status, confirmations.
  cbn [GasSensor.set_readings GasSensor.critical_start_time GasSensor.status
       GasSensor.readings GasSensor.readings_maxlen GasSensor.log
       GasSensor.current_value GasSensor.filtered_value].
  set (f := GasSensor.moving_average (GasSensor.deque_append ml rd raw) raw).
  destruct (Qle_bool (GasSensor.critical_min config) f).
  - destruct start0 as [t0 |];
      cbn [GasSensor.set_start GasSensor.add_log GasSensor.critical_start_time
           GasSensor.status GasSensor.log];
      destruct (Qle_bool (GasSensor.confirmation_time config) _);
      destruct st0; cbn; rewrite ?List.filter_app, ?length_app; cbn;
      split; (reflexivity || lia).
  - destruct (Qle_bool (GasSensor.warning_min config) f);
      destruct st0; cbn; rewrite ?List.filter_app, ?length_app; cbn;
      split; (reflexivity || lia).
Qed.

Lemma read_loop_lookup_after (config : GasSensor.Config) (samples : list (Q * Z)) :
  forall (s : GasSensor.State) (i : nat),
    (i < length samples)%nat ->
    GasSensor._read_loop config s samples !! i
      = Some (GasSensor.after config s (take (S i) samples)).
Proof.
  induction samples as [| [t raw] rest IH]; intros s i Hi; [simpl in Hi; lia |].
  destruct i as [| i]; [reflexivity |].
  simpl in Hi. simpl GasSensor._read_loop. rewrite lookup_cons.
  rewrite IH by lia. reflexivity.
Qed.

(** A state of a run is the result of a pass. *)
Lemma run_state_is_pass (config : GasSensor.Config) (s : GasSensor.State)
    (samples : list (Q * Z)) (i : nat) (si : GasSensor.State) :
  GasSensor._read_loop config s samples !! i = Some si ->
  exists (t : Q) (raw : Z),
    samples !! i = Some (t, raw) /\
    si = GasSensor.read_iteration config
           (GasSensor.after config s (take i samples)) t raw.
Proof.
  intros Hi. apply read_loop_lookup in Hi as [-> Hlt].
  destruct (lookup_lt_is_Some_2 samples i Hlt) as [[t raw] Hx].
  exists t, raw. split; [exact Hx |].
  now rewrite (take_S_lookup _ _ _ Hx), after_snoc.
Qed.

(** While the filtered value stays at or above [critical_min], the start
    of the episode is kept. *)
Lemma episode_start_kept (config : GasSensor.Config) (s0 : GasSensor.State)
    (samples : list (Q * Z)) (j : nat) (tj : Q) (rj : Z) :
  samples !! j = Some (tj, rj) ->
  GasSensor.critical_start_time (GasSensor.after config s0 (take j samples)) = None ->
  forall d : nat,
    (j + d < length samples)%nat ->
    (forall k : nat, (j <= k <= j + d)%nat ->
       GasSensor.critical_min config <=
         GasSensor.filtered_value (GasSensor.after config s0 (take (S k) samples))) ->
    GasSensor.critical_start_time
      (GasSensor.after config s0 (take (S (j + d)) samples)) = Some tj.
Proof.
  intros Hj Hnone d. induction d as [| d IH]; intros Hlen Hrun.
  - rewrite Nat.add_0_r in *.
    specialize (Hrun j ltac:(lia)).
    rewrite (take_S_lookup _ _ _ Hj), after_snoc in Hrun |- *.
    destruct (read_iteration_spec config (GasSensor.after config s0 (take j samples)) tj rj)
      as (Hf & _ & _ & _ & Hcase).
    cbv zeta in Hf, Hcase. rewrite Hf in Hrun.
    apply Qle_bool_iff in Hrun. rewrite Hrun, Hnone in Hcase. now destruct Hcase.
  - destruct (lookup_lt_is_Some_2 samples (j + S d) Hlen) as [[t raw] Hx].
    specialize (IH ltac:(lia) ltac:(intros k Hk; apply Hrun; lia)).
    specialize (Hrun (j + S d)%nat ltac:(lia)).
    rewrite (take_S_lookup _ _ _ Hx), after_snoc in Hrun |- *.
    replace (j + S d)%nat with (S (j + d)) in * by lia.
    destruct (read_iteration_spec config
                (GasSensor.after config s0 (take (S (j + d)) samples)) t raw)
      as (Hf & _ & _ & _ & Hcase).
    cbv zeta in Hf, Hcase. rewrite Hf in Hrun.
    apply Qle_bool_iff in Hrun. rewrite Hrun, IH in Hcase. now destruct Hcase.
Qed.

(** X5.  A sustained leak is confirmed, and exactly on time.  Let the
    passes [j] to [i] of a run from the fresh sensor all have a filtered
    value at or above [critical_min], pass [j] being the first of the run
    or following a pass below [critical_min].  Then pass [i] answers
    CRITICAL if its clock reading is at least [confirmation_time] after
    that of pass [j], and WARNING otherwise. *)
Theorem sustained_leak_is_confirmed
    (config : GasSensor.Config) (s0 : GasSensor.State)
    (samples : list (Q * Z)) (j i : nat) (tj ti : Q) (rj ri : Z)
    (si : GasSensor.State) :
  GasSensor.__init__ config = Some s0 ->
  (j <= i)%nat ->
  samples !! j = Some (tj, rj) ->
  samples !! i = Some (ti, ri) ->
  GasSensor._read_loop config s0 samples !! i = Some si ->
  (forall (k : nat) (sk : GasSensor.State),
     (j <= k <= i)%nat ->
     GasSensor._read_loop config s0 samples !! k = Some sk ->
     GasSensor.critical_min config <= GasSensor.filtered_value sk) ->
  (j = 0%nat \/
   exists (j' : nat) (sp : GasSensor.State),
     j = S j' /\ GasSensor._read_loop config s0 samples !! j' = Some sp /\
     GasSensor.filtered_value sp < GasSensor.critical_min config) ->
  GasSensor.status si =
    if Qle_bool (GasSensor.confirmation_time config) (ti - tj)
    then GasSensor.CRITICAL else GasSensor.WARNING.
Proof.
  intros Hinit Hji Hj Hi Hsi Hrun Hbefore.
  apply gas_init_fresh in Hinit as (Hfresh & _).
  assert (Hlen : (i < length samples)%nat) by (eapply lookup_lt_Some; exact Hi).
  assert (Hrun' : forall k : nat, (j <= k <= i)%nat ->
            GasSensor.critical_min config <=
              GasSensor.filtered_value (GasSensor.after config s0 (take (S k) samples))).
  { intros k Hk. apply (Hrun k); [exact Hk |].
    apply read_loop_lookup_after. lia. }
  assert (Hnone : GasSensor.critical_start_time
                    (GasSensor.after config s0 (take j samples)) = None).
  { destruct Hbefore as [-> | (j' & sp & -> & Hsp & Hlow)]; [exact Hfresh |].
    destruct (run_state_is_pass config s0 samples j' sp Hsp) as (t & raw & Hx & ->).
    rewrite (take_S_lookup _ _ _ Hx), after_snoc.
    destruct (read_iteration_spec config
                (GasSensor.after config s0 (take j' samples)) t raw)
      as (Hf & _ & _ & _ & Hcase).
    cbv zeta in Hf, Hcase. rewrite Hf in Hlow.
    destruct (Qle_bool (GasSensor.critical_min config) _) eqn:Hc in Hcase.
    - apply Qle_bool_iff in Hc. lra.
    - now destruct Hcase. }
  destruct (run_state_is_pass config s0 samples i si Hsi) as (t & raw & Hx & ->).
  rewrite Hi in Hx. injection Hx as <- <-.
  pose proof (Hrun' i ltac:(lia)) as Hfi.
  rewrite (take_S_lookup _ _ _ Hi), after_snoc in Hfi.
  destruct (read_iteration_spec config (GasSensor.after config s0 (take i samples)) ti ri)
    as (Hf & _ & _ & _ & Hcase).
  cbv zeta in Hf, Hcase. rewrite Hf in Hfi.
  apply Qle_bool_iff in Hfi. rewrite Hfi in Hcase. destruct Hcase as [_ Hstatus].
  rewrite Hstatus.
  destruct (Nat.eq_dec i j) as [-> | Hne].
  - rewrite Hj in Hi. injection Hi as <- <-. now rewrite Hnone.
  - destruct i as [| i']; [lia |].
    assert (Hd : exists d, i' = (j + d)%nat) by (exists (i' - j)%nat; lia).
    destruct Hd as [d ->].
    rewrite (episode_start_kept config s0 samples j tj rj Hj Hnone d);
      [reflexivity | lia |].
    intros k Hk. apply Hrun'. lia.
Qed.

Lemma sustained_leak_is_confirmed_witness :
  let samples := [(0, 100%Z); (1, 900%Z); (2, 900%Z); (3, 900%Z)] in
  GasSensor.status (GasSensor.after CONFIG_gas_sensor gas_sensor_fresh samples)
  = GasSensor.CRITICAL.
Proof.
  intros samples.
  apply (sustained_leak_is_confirmed CONFIG_gas_sensor gas_sensor_fresh samples
           1 3 1 3 900 900).
  - reflexivity.
  - lia.
  - reflexivity.
  - reflexivity.
  - vm_compute. reflexivity.
  - intros k sk Hk Hsk.
    assert (Hcases : k = 1%nat \/ k = 2%nat \/ k = 3%nat) by lia.
    destruct Hcases as [-> | [-> | ->]]; vm_compute in Hsk;
      injection Hsk as <-; vm_compute; discriminate.
  - right. eexists 0%nat, _. split; [reflexivity |].
    split; [vm_compute; reflexivity | vm_compute; reflexivity].
Defined.

Lemma Qle_bool_false_lt (a b : Q) : Qle_bool a b = false -> b < a.
Proof.
  intros H. apply Qlt_bool_iff. unfold Qlt_bool. now rewrite H.
Qed.

(** X6.  The published status agrees with the published filtered value:
    after every pass the status is SAFE exactly when the filtered value is
    below both thresholds, and CRITICAL only when it is at or above
    [critical_min]. *)
Theorem status_agrees_with_filtered_value
    (config : GasSensor.Config) (s : GasSensor.State)
    (samples : list (Q * Z)) (i : nat) (si : GasSensor.State) :
  GasSensor._read_loop config s samples !! i = Some si ->
  (GasSensor.status si = GasSensor.SAFE <->
   GasSensor.filtered_value si < GasSensor.critical_min config /\
   GasSensor.filtered_value si < GasSensor.warning_min config) /\
  (GasSensor.status si = GasSensor.CRITICAL ->
   GasSensor.critical_min config <= GasSensor.filtered_value si).
Proof.
  intros Hi.
  destruct (run_state_is_pass config s samples i si Hi) as (t & raw & _ & ->).
  set (p := GasSensor.after config s (take i samples)).
  destruct (read_iteration_spec config p t raw) as (Hf & _).
  destruct (pass_outcome config p t raw) as (Hst & _).
  cbv zeta in Hf, Hst. rewrite Hf, Hst.
  destruct (Qle_bool (GasSensor.critical_min config) _) eqn:Hc.
  - apply Qle_bool_iff in Hc.
    destruct (Qle_bool (GasSensor.confirmation_time config) _);
      (split; [split; [discriminate | intros [H _]; lra] | intros _; exact Hc]).
  - apply Qle_bool_false_lt in Hc.
    destruct (Qle_bool (GasSensor.warning_min config) _) eqn:Hw.
    + apply Qle_bool_iff in Hw.
      split; [split; [discriminate | intros [_ H]; lra] | discriminate].
    + apply Qle_bool_false_lt in Hw.
      split; [split; [intros _; split; assumption | reflexivity] | discriminate].
Qed.

Lemma status_agrees_with_filtered_value_witness :
  let samples := [(0, 100%Z); (1, 120%Z)] in
  GasSensor.filtered_value (GasSensor.after CONFIG_gas_sensor gas_sensor_fresh samples)
    < GasSensor.critical_min CONFIG_gas_sensor /\
  GasSensor.filtered_value (GasSensor.after CONFIG_gas_sensor gas_sensor_fresh samples)
    < GasSensor.warning_min CONFIG_gas_sensor.
Proof.
  intros samples.
  destruct (status_agrees_with_filtered_value CONFIG_gas_sensor gas_sensor_fresh
              samples 1 (GasSensor.after CONFIG_gas_sensor gas_sensor_fresh samples))
    as [[H _] _]; [vm_compute; reflexivity |].
  apply H. vm_compute. reflexivity.
Defined.

Lemma confirmations_run (config : GasSensor.Config) (samples : list (Q * Z)) :
  forall s : GasSensor.State,
    confirmations (GasSensor.log (GasSensor.after config s samples))
    = (confirmations (GasSensor.log s)
       + critical_entries (GasSensor.status s)
           (map GasSensor.status (GasSensor._read_loop config s samples)))%nat.
Proof.
  induction samples as [| [t raw] rest IH]; intros s; [simpl; lia |].
  rewrite after_cons, IH. simpl GasSensor._read_loop. cbn [map critical_entries].
  destruct (pass_outcome config s t raw) as (_ & Hlog). cbv zeta in Hlog.
  rewrite Hlog. lia.
Qed.

(** X7.  A confirmed leak is logged once per entry into CRITICAL, not on
    every pass while the status is held: after any run from the fresh
    sensor the number of "CRITICAL GAS LEAK CONFIRMED" entries in the log
    equals the number of passes at which the status became CRITICAL. *)
Theorem leak_confirmation_logged_once_per_entry
    (config : GasSensor.Config) (s0 : GasSensor.State) (samples : list (Q * Z)) :
  GasSensor.__init__ config = Some s0 ->
  confirmations (GasSensor.log (GasSensor.after config s0 samples))
  = critical_entries GasSensor.SAFE
      (map GasSensor.status (GasSensor._read_loop config s0 samples)).
Proof.
  intros Hinit. rewrite confirmations_run.
  unfold GasSensor.__init__ in Hinit.
  destruct (GasSensor.window_size config <? 0)%Z; [discriminate |].
  injection Hinit as <-. reflexivity.
Qed.

Lemma leak_confirmation_logged_once_per_entry_witness :
  confirmations
    (GasSensor.log
       (GasSensor.after CONFIG_gas_sensor gas_sensor_fresh
          [(0, 900%Z); (2, 900%Z); (3, 900%Z); (4, 0%Z); (5, 0%Z); (6, 0%Z);
           (7, 0%Z); (8, 900%Z); (10, 900%Z); (11, 900%Z)]))
  = 2%nat.
Proof.
  rewrite (leak_confirmation_logged_once_per_entry CONFIG_gas_sensor gas_sensor_fresh).
  - vm_compute. reflexivity.
  - reflexivity.
Defined.

(** ** Valve controller *)

(** A command on a usable controller returns, leaves it usable, and
    records the position the command asks for; without the module the
    history of the pin stays as it was. *)
Lemma valve_apply_usable (config : ValveController.Config)
    (s : ValveController.State) (c : ValveCommand) :
  ValveController.usable s = true ->
  exists s',
    valve_apply config s c = ValveController.Returned s' /\
    ValveController.usable s' = true /\
    ValveController.GPIO s' = ValveController.GPIO s /\
    ValveController.valve_open s'
      = (match c with CmdOpen => true | _ => false end) /\
    (ValveController.GPIO s = false ->
     ValveController.pin_ops s' = ValveController.pin_ops s).
Proof.
  intros Hu. destruct s as [vo gp rd ops lg].
  unfold ValveController.usable in Hu. cbn in Hu.
  destruct c as [| reason |]; cbn [valve_apply];
    unfold ValveController.open_valve, ValveController.close_valve,
      ValveController.emergency_shutoff, ValveController._set_gpio_state,
      ValveController.gpio_output, ValveController.usable;
    destruct vo, gp, rd; try discriminate; cbn;
    eexists; (split; [reflexivity |]); cbn; repeat split;
    (discriminate || (intros _; reflexivity)).
Qed.

(** Each command on a controller whose pin is set up keeps the line and
    the recorded state in step. *)
Lemma valve_apply_keeps_line (config : ValveController.Config)
    (s : ValveController.State) (c : ValveCommand) :
  ValveController.GPIO s = true ->
  ValveController.pin_ready s = true ->
  ValveController.last_driven config (ValveController.pin_ops s)
    = Some (ValveController.valve_open s) ->
  let s' := ValveController.state_of (valve_apply config s c) in
  ValveController.GPIO s' = true /\
  ValveController.pin_ready s' = true /\
  ValveController.last_driven config (ValveController.pin_ops s')
    = Some (ValveController.valve_open s').
Proof.
  intros Hg Hr Hl s'. subst s'.
  assert (Hu : ValveController.usable s = true)
    by (unfold ValveController.usable; now rewrite Hr, orb_true_r).
  destruct c as [| reason |]; cbn [valve_apply].
  - pose proof (open_valve_cases config s) as H.
    destruct (ValveController.open_valve config s) as [s1 | s1];
      cbn [ValveController.state_of].
    + destruct H as (_ & Ho & Hg' & Hr' & Hsame & Hd).
      split; [congruence |]. split; [congruence |]. rewrite Ho.
      destruct (ValveController.valve_open s) eqn:Hopen.
      * rewrite (Hsame eq_refl). exact Hl.
      * now apply Hd.
    + destruct H as (_ & Hu' & _). congruence.
  - pose proof (close_valve_cases config s reason) as H.
    destruct (ValveController.close_valve config s reason) as [s1 | s1];
      cbn [ValveController.state_of].
    + destruct H as (_ & Ho & Hg' & Hr' & Hsame & Hd).
      split; [congruence |]. split; [congruence |]. rewrite Ho.
      destruct (ValveController.valve_open s) eqn:Hopen.
      * now apply Hd.
      * rewrite (Hsame eq_refl). exact Hl.
    + destruct H as (_ & Hu' & _). congruence.
  - pose proof (emergency_shutoff_cases config s) as H.
    destruct (ValveController.emergency_shutoff config s) as [s1 | s1];
      cbn [ValveController.state_of].
    + destruct H as (_ & Ho & Hg' & Hr' & Hd).
      split; [congruence |]. split; [congruence |]. rewrite Ho. now apply Hd.
    + destruct H as (Hu' & _). congruence.
Qed.

(** Each command on a controller whose setup failed leaves the valve
    recorded open and the pin untouched. *)
Lemma valve_apply_after_failed_setup (config : ValveController.Config)
    (s : ValveController.State) (c : ValveCommand) :
  ValveController.GPIO s = true ->
  ValveController.pin_ready s = false ->
  ValveController.valve_open s = true ->
  let s' := ValveController.state_of (valve_apply config s c) in
  ValveController.GPIO s' = true /\
  ValveController.pin_ready s' = false /\
  ValveController.valve_open s' = true /\
  ValveController.pin_ops s' = ValveController.pin_ops s /\
  ValveController.is_returned (valve_apply config s c)
    = (match c with CmdOpen => true | _ => false end).
Proof.
  intros Hg Hr Ho. destruct s as [vo gp rd ops lg].
  cbn in Hg, Hr, Ho. subst vo gp rd.
  destruct c as [| reason |]; cbn; repeat split.
Qed.

(** X8.  The line and the recorded state of the valve never disagree.
    After any sequence of [open_valve], [close_valve] and
    [emergency_shutoff] calls on a new controller with the GPIO module
    present: when the setup of the pin returned, the position the pin was
    last driven to is the recorded one; when the setup raised, the valve is
    still recorded open and the pin was never touched. *)
Theorem valve_line_matches_state
    (config : ValveController.Config) (setup_ok : bool)
    (cs : list ValveCommand) :
  let s := valve_run config (ValveController.__init__ config true setup_ok) cs in
  if setup_ok
  then ValveController.last_driven config (ValveController.pin_ops s)
         = Some (ValveController.is_open s)
  else ValveController.is_open s = true /\ ValveController.pin_ops s = [].
Proof.
  intros s. subst s. unfold ValveController.is_open.
  destruct (valve_init_state config true setup_ok) as (Hg & Ho & Hr & Hl).
  destruct setup_ok; cbn [andb] in Hr, Hl.
  - assert (H : forall (l : list ValveCommand) (s : ValveController.State),
              ValveController.GPIO s = true ->
              ValveController.pin_ready s = true ->
              ValveController.last_driven config (ValveController.pin_ops s)
                = Some (ValveController.valve_open s) ->
              ValveController.last_driven config
                (ValveController.pin_ops (valve_run config s l))
                = Some (ValveController.valve_open (valve_run config s l))).
    { induction l as [| c l IH]; intros s Hg' Hr' Hl'; [exact Hl' |].
      destruct (valve_apply_keeps_line config s c Hg' Hr' Hl') as (G & R & L).
      apply (IH _ G R L). }
    apply H; [exact Hg | exact Hr |]. now rewrite Hl, Ho.
  - assert (H : forall (l : list ValveCommand) (s : ValveController.State),
              ValveController.GPIO s = true ->
              ValveController.pin_ready s = false ->
              ValveController.valve_open s = true ->
              ValveController.valve_open (valve_run config s l) = true /\
              ValveController.pin_ops (valve_run config s l)
                = ValveController.pin_ops s).
    { induction l as [| c l IH]; intros s Hg' Hr' Ho'; [auto |].
      destruct (valve_apply_after_failed_setup config s c Hg' Hr' Ho')
        as (G & R & O & P & _).
      destruct (IH _ G R O) as [O' P']. split; [exact O' |].
      cbn [valve_run fold_left] in P' |- *. unfold valve_run in P'.
      now rewrite P'. }
    destruct (H cs _ Hg Hr Ho) as [O P]. split; [exact O |].
    rewrite P. reflexivity.
Qed.

(** X9.  Closing and opening are idempotent and report each change of
    state once.  A call that returns leaves a state on which the same call
    changes nothing, records the position asked for, and adds one Logger
    entry and (with the GPIO module) one pin operation when the position
    changed and none otherwise.  A call raises exactly when it has to
    drive a pin that is not set up; then nothing is changed, nothing is
    reported, and the same call raises again. *)
Theorem valve_transitions_reported_once
    (config : ValveController.Config) (s : ValveController.State)
    (reason reason' : string) :
  match ValveController.close_valve config s reason with
  | ValveController.Returned s' =>
      ValveController.close_valve config s' reason' = ValveController.Returned s' /\
      ValveController.is_open s' = false /\
      length (ValveController.log s')
        = (length (ValveController.log s)
           + (if ValveController.is_open s then 1 else 0))%nat /\
      length (ValveController.pin_ops s')
        = (length (ValveController.pin_ops s)
           + (if ValveController.is_open s && ValveController.GPIO s
              then 1 else 0))%nat
  | ValveController.Raised s' =>
      s' = s /\
      ValveController.close_valve config s reason' = ValveController.Raised s
  end /\
  match ValveController.open_valve config s with
  | ValveController.Returned s' =>
      ValveController.open_valve config s' = ValveController.Returned s' /\
      ValveController.is_open s' = true /\
      length (ValveController.log s')
        = (length (ValveController.log s)
           + (if ValveController.is_open s then 0 else 1))%nat /\
      length (ValveController.pin_ops s')
        = (length (ValveController.pin_ops s)
           + (if negb (ValveController.is_open s) && ValveController.GPIO s
              then 1 else 0))%nat
  | ValveController.Raised s' =>
      s' = s /\
      ValveController.open_valve config s = ValveController.Raised s
  end /\
  ValveController.is_returned (ValveController.close_valve config s reason)
    = negb (ValveController.is_open s) || ValveController.usable s /\
  ValveController.is_returned (ValveController.open_valve config s)
    = ValveController.is_open s || ValveController.usable s.
Proof.
  unfold ValveController.close_valve, ValveController.open_valve,
    ValveController.is_open, ValveController._set_gpio_state,
    ValveController.gpio_output, ValveController.usable.
  destruct s as [vo gp rd ops lg].
  cbn [ValveController.valve_open ValveController.GPIO ValveController.pin_ready].
  destruct vo, gp, rd; cbn; rewrite ?length_app; cbn;
    repeat split; (reflexivity || lia).
Qed.

(** X10.  Without the GPIO module the controller is a record of the
    logical state only: after any sequence of calls on a new controller no
    pin operation has been made, the recorded position is the one a
    controller with the module and a working pin would record, and
    [cleanup] does nothing. *)
Theorem valve_without_gpio_is_logical
    (config : ValveController.Config) (setup_ok : bool)
    (cs : list ValveCommand) :
  let s := valve_run config (ValveController.__init__ config false setup_ok) cs in
  ValveController.pin_ops s = [] /\
  ValveController.is_open s
    = ValveController.is_open
        (valve_run config (ValveController.__init__ config true true) cs) /\
  ValveController.cleanup config s = s.
Proof.
  intros s. subst s. unfold ValveController.is_open.
  assert (H : forall (l : list ValveCommand) (s1 s2 : ValveController.State),
            ValveController.GPIO s1 = false ->
            ValveController.usable s2 = true ->
            ValveController.valve_open s1 = ValveController.valve_open s2 ->
            ValveController.GPIO (valve_run config s1 l) = false /\
            ValveController.pin_ops (valve_run config s1 l) = ValveController.pin_ops s1 /\
            ValveController.valve_open (valve_run config s1 l)
              = ValveController.valve_open (valve_run config s2 l)).
  { induction l as [| c l IH]; intros s1 s2 Hg Hu Ho; [auto |].
    assert (Hu1 : ValveController.usable s1 = true)
      by (unfold ValveController.usable; now rewrite Hg).
    destruct (valve_apply_usable config s1 c Hu1) as (s1' & E1 & _ & G1 & O1 & P1).
    destruct (valve_apply_usable config s2 c Hu) as (s2' & E2 & U2 & _ & O2 & _).
    destruct (IH s1' s2') as (H1 & H2 & H3); [congruence | exact U2 | congruence |].
    unfold valve_run in *. cbn [fold_left]. rewrite E1, E2.
    cbn [ValveController.state_of].
    split; [exact H1 |]. split; [| exact H3]. rewrite H2. now apply P1. }
  destruct (valve_init_state config false setup_ok) as (Hg1 & Ho1 & _).
  destruct (valve_init_state config true true) as (Hg2 & Ho2 & Hr2 & _).
  destruct (H cs (ValveController.__init__ config false setup_ok)
              (ValveController.__init__ config true true)) as (Hg & Hp & Ho).
  - exact Hg1.
  - unfold ValveController.usable. now rewrite Hr2, orb_true_r.
  - congruence.
  - split; [rewrite Hp; now destruct setup_ok |]. split; [exact Ho |].
    unfold ValveController.cleanup. now rewrite Hg.
Qed.

(** ** Anomaly scorer: features, score, stored result *)

Lemma clamp_monotone (lo hi v1 v2 : Q) :
  v1 <= v2 ->
  py_max lo (py_min hi v1) <= py_max lo (py_min hi v2).
Proof.
  intros Hv.
  destruct (py_min_cases hi v1) as [[A1 ->] | [A1 ->]];
    destruct (py_min_cases hi v2) as [[A2 ->] | [A2 ->]];
    match goal with
    | |- py_max lo ?a <= py_max lo ?b =>
        destruct (py_max_cases lo a) as [[B1 E1] | [B1 E1]];
        destruct (py_max_cases lo b) as [[B2 E2] | [B2 E2]]
    end; rewrite ?E1, ?E2; lra.
Qed.

(** X11.  [normalize_value] is monotone: for any channel, a larger value
    never normalises to a smaller number. *)
Theorem normalize_value_monotone
    (config : AIInferenceEngine.Config) (param_name : string) (v1 v2 r1 r2 : Q) :
  v1 <= v2 ->
  AIInferenceEngine.normalize_value config v1 param_name = Some r1 ->
  AIInferenceEngine.normalize_value config v2 param_name = Some r2 ->
  r1 <= r2.
Proof.
  intros Hv. unfold AIInferenceEngine.normalize_value.
  destruct (default [0; 100] (AIInferenceEngine.norm_ranges config !! param_name))
    as [| lo [| hi [| ? ?]]]; try discriminate.
  destruct (Qlt_bool lo hi) eqn:Hlt; intros H1 H2;
    injection H1 as <-; injection H2 as <-; [| lra].
  apply Qlt_bool_iff in Hlt.
  unfold Qdiv. apply Qmult_le_compat_r.
  - pose proof (clamp_monotone lo hi v1 v2 Hv). lra.
  - apply Qinv_le_0_compat. lra.
Qed.

Lemma normalize_value_monotone_witness :
  exists r1 r2 : Q,
    AIInferenceEngine.normalize_value CONFIG_ai 1500 "rpm" = Some r1 /\
    AIInferenceEngine.normalize_value CONFIG_ai 4500 "rpm" = Some r2 /\
    r1 <= r2.
Proof.
  destruct (AIInferenceEngine.normalize_value CONFIG_ai 1500 "rpm") as [r1 |] eqn:H1;
    [| vm_compute in H1; discriminate].
  destruct (AIInferenceEngine.normalize_value CONFIG_ai 4500 "rpm") as [r2 |] eqn:H2;
    [| vm_compute in H2; discriminate].
  exists r1, r2. split; [reflexivity |]. split; [reflexivity |].
  apply (normalize_value_monotone CONFIG_ai "rpm" 1500 4500 r1 r2);
    [discriminate | exact H1 | exact H2].
Defined.

Lemma normalize_value_unit (config : AIInferenceEngine.Config)
    (value : Q) (param_name : string) (r : Q) :
  AIInferenceEngine.normalize_value config value param_name = Some r ->
  0 <= r /\ r <= 1.
Proof.
  intros H.
  destruct (default [0; 100] (AIInferenceEngine.norm_ranges config !! param_name))
    as [| lo [| hi [| ? ?]]] eqn:Hrange;
    try (unfold AIInferenceEngine.normalize_value in H; rewrite Hrange in H;
         discriminate).
  destruct (Qlt_le_dec lo hi) as [Hlt | Hge].
  - destruct (normalize_proper config value param_name lo hi Hrange Hlt)
      as (c & r' & Hn & _ & _ & _ & _ & _ & _ & H0 & H1).
    rewrite H in Hn. injection Hn as ->. split; assumption.
  - rewrite (normalize_degenerate config value param_name lo hi Hrange Hge) in H.
    injection H as <-. split; lra.
Qed.

Lemma preprocess_list_shape (config : AIInferenceEngine.Config)
    (obd_data : gmap string PyVal) (params : list string) :
  forall features : list Q,
    AIInferenceEngine.preprocess_list config obd_data params = Some features ->
    length features = length params /\
    Forall (fun f => 0 <= f /\ f <= 1) features.
Proof.
  induction params as [| p rest IH]; intros features H; simpl in H.
  - injection H as <-. split; [reflexivity | constructor].
  - destruct (AIInferenceEngine.preprocess_param config obd_data p) as [n |] eqn:Hp;
      [| discriminate].
    destruct (AIInferenceEngine.preprocess_list config obd_data rest) as [fs |];
      [| discriminate].
    injection H as <-. destruct (IH fs eq_refl) as [Hlen Hall].
    split; [simpl; now rewrite Hlen |].
    constructor; [| exact Hall].
    unfold AIInferenceEngine.preprocess_param in Hp.
    destruct (py_float _) as [v |]; [| discriminate].
    now apply normalize_value_unit in Hp.
Qed.

(** X12.  When [preprocess] succeeds it yields six features, one per
    channel of [feature_order], each in [[0, 1]], whatever the dictionary
    holds (values out of range, missing channels, [None]). *)
Theorem preprocess_features_shape
    (config : AIInferenceEngine.Config) (obd_data : gmap string PyVal)
    (features : list Q) :
  AIInferenceEngine.preprocess config obd_data = Some features ->
  length features = 6%nat /\
  Forall (fun f => 0 <= f /\ f <= 1) features.
Proof.
  intros H. now apply preprocess_list_shape in H.
Qed.

Lemma preprocess_features_shape_witness :
  exists features : list Q,
    AIInferenceEngine.preprocess CONFIG_ai
      (<["rpm"%string := PyFloat 9000]> (<["speed"%string := PyNone]> ∅))
      = Some features /\
    length features = 6%nat /\ Forall (fun f => 0 <= f /\ f <= 1) features.
Proof.
  destruct (AIInferenceEngine.preprocess CONFIG_ai
              (<["rpm"%string := PyFloat 9000]> (<["speed"%string := PyNone]> ∅)))
    as [features |] eqn:Hpre; [| vm_compute in Hpre; discriminate].
  exists features. split; [reflexivity |].
  exact (preprocess_features_shape CONFIG_ai _ features Hpre).
Defined.

Lemma preprocess_param_fails (config : AIInferenceEngine.Config)
    (obd_data : gmap string PyVal) (p : string) :
  (exists lo hi,
     default [0; 100] (AIInferenceEngine.norm_ranges config !! p) = [lo; hi]) ->
  (AIInferenceEngine.preprocess_param config obd_data p = None <->
   obd_data !! p = Some PyOther).
Proof.
  intros (lo & hi & Hrange). unfold AIInferenceEngine.preprocess_param.
  destruct (obd_data !! p) as [[q | |] |]; cbn;
    rewrite ?(normalize_value_range config _ p lo hi Hrange);
    try (destruct (Qlt_bool lo hi); split; discriminate).
  split; reflexivity.
Qed.

Lemma preprocess_list_fails (config : AIInferenceEngine.Config)
    (obd_data : gmap string PyVal) (params : list string) :
  Forall (fun p => exists lo hi,
            default [0; 100] (AIInferenceEngine.norm_ranges config !! p) = [lo; hi])
         params ->
  (AIInferenceEngine.preprocess_list config obd_data params = None <->
   exists p, In p params /\ obd_data !! p = Some PyOther).
Proof.
  induction 1 as [| p rest Hp _ IH]; simpl.
  - split; [discriminate | intros (p & [] & _)].
  - pose proof (preprocess_param_fails config obd_data p Hp) as Hparam.
    destruct (AIInferenceEngine.preprocess_param config obd_data p) as [n |].
    + destruct (AIInferenceEngine.preprocess_list config obd_data rest) as [fs |].
      * split; [discriminate |].
        intros (q & [<- | Hin] & Hq).
        -- apply Hparam in Hq. discriminate.
        -- assert (Hex : exists p0, In p0 rest /\ obd_data !! p0 = Some PyOther)
             by (exists q; auto).
           apply IH in Hex. discriminate.
      * split; [| reflexivity]. intros _.
        destruct (proj1 IH eq_refl) as (q & Hin & Hq). exists q. auto.
    + split; [| reflexivity]. intros _. exists p. split; [now left |].
      now apply Hparam.
Qed.

(** X13.  With ranges of two items for the six channels (or none, the
    default being used), [preprocess] fails exactly when one of the six
    channels holds a value [float()] rejects; out-of-range numbers,
    missing channels and [None] never make it fail. *)
Theorem preprocess_fails_only_on_bad_value
    (config : AIInferenceEngine.Config) (obd_data : gmap string PyVal) :
  Forall (fun p => exists lo hi,
            default [0; 100] (AIInferenceEngine.norm_ranges config !! p) = [lo; hi])
         AIInferenceEngine.feature_order ->
  (AIInferenceEngine.preprocess config obd_data = None <->
   exists p, In p AIInferenceEngine.feature_order /\ obd_data !! p = Some PyOther).
Proof.
  intros H. now apply preprocess_list_fails.
Qed.

Lemma preprocess_fails_only_on_bad_value_witness :
  AIInferenceEngine.preprocess CONFIG_ai broken_snapshot = None <->
  exists p, In p AIInferenceEngine.feature_order /\ broken_snapshot !! p = Some PyOther.
Proof.
  apply (preprocess_fails_only_on_bad_value CONFIG_ai broken_snapshot).
  repeat constructor; eexists _, _; vm_compute; reflexivity.
Defined.

Lemma run_inference_success
    (config : AIInferenceEngine.Config) (s : AIInferenceEngine.State)
    (g : random.State) (obd_data : gmap string PyVal) (features : list Q) :
  AIInferenceEngine.preprocess config obd_data = Some features ->
  let r := AIInferenceEngine.run_inference config s g obd_data in
  let score :=
    AIInferenceEngine.noisy_score features
      (- (5 # 100) + ((5 # 100) - - (5 # 100)) * random.draws g (random.position g)) in
  snd r = (score, classify config score) /\
  AIInferenceEngine.get_latest_result (fst (fst r)) = snd r /\
  AIInferenceEngine.inference_count (fst (fst r))
    = S (AIInferenceEngine.inference_count s) /\
  random.position (snd (fst r)) = S (random.position g) /\
  random.draws (snd (fst r)) = random.draws g.
Proof.
  intros Hpre r score. subst r score.
  unfold AIInferenceEngine.run_inference, classify. rewrite Hpre.
  unfold random.uniform, random.random. cbn [fst snd].
  destruct (Qle_bool (AIInferenceEngine.critical_min config) _);
    [| destruct (Qle_bool (AIInferenceEngine.warning_min config) _)];
    cbn; repeat split.
Qed.

(** X14.  A successful inference stores what it returns: the returned pair
    is the noisy score of the features with the status the thresholds give
    it, [get_latest_result] answers that pair afterwards, the inference
    count grows by one and one value is drawn from the generator. *)
Theorem inference_stores_its_result
    (config : AIInferenceEngine.Config) (s : AIInferenceEngine.State)
    (g : random.State) (obd_data : gmap string PyVal) (features : list Q) :
  AIInferenceEngine.preprocess config obd_data = Some features ->
  let r := AIInferenceEngine.run_inference config s g obd_data in
  let score :=
    AIInferenceEngine.noisy_score features
      (- (5 # 100) + ((5 # 100) - - (5 # 100)) * random.draws g (random.position g)) in
  snd r = (score, classify config score) /\
  AIInferenceEngine.get_latest_result (fst (fst r)) = snd r /\
  AIInferenceEngine.inference_count (fst (fst r))
    = S (AIInferenceEngine.inference_count s) /\
  random.position (snd (fst r)) = S (random.position g) /\
  random.draws (snd (fst r)) = random.draws g.
Proof.
  intros Hpre r score. subst r score.
  unfold AIInferenceEngine.run_inference, classify. rewrite Hpre.
  unfold random.uniform, random.random. cbn [fst snd].
  destruct (Qle_bool (AIInferenceEngine.critical_min config) _);
    [| destruct (Qle_bool (AIInferenceEngine.warning_min config) _)];
    cbn; repeat split.
Qed.

Lemma inference_stores_its_result_witness :
  let r := AIInferenceEngine.run_inference CONFIG_ai AIInferenceEngine.__init__
             constant_generator midrange_snapshot in
  AIInferenceEngine.get_latest_result (fst (fst r)) = snd r /\
  AIInferenceEngine.inference_count (fst (fst r)) = 1%nat.
Proof.
  intros r.
  destruct (AIInferenceEngine.preprocess CONFIG_ai midrange_snapshot)
    as [features |] eqn:Hpre; [| vm_compute in Hpre; discriminate].
  destruct (inference_stores_its_result CONFIG_ai AIInferenceEngine.__init__
              constant_generator midrange_snapshot features Hpre)
    as (_ & Hget & Hcount & _).
  split; [exact Hget | exact Hcount].
Defined.

Lemma Qsum_nonneg (l : list Q) :
  Forall (fun x => 0 <= x) l -> 0 <= AIInferenceEngine.Qsum l.
Proof.
  induction 1 as [| x l Hx _ IH]; [apply Qle_refl |].
  change (AIInferenceEngine.Qsum (x :: l)) with (x + AIInferenceEngine.Qsum l).
  lra.
Qed.

Lemma raw_score_unit (features : list Q) :
  0 <= raw_score features /\ raw_score features <= 1.
Proof.
  unfold raw_score.
  set (devs := map (fun f => Qabs (f - (1 # 2))) features).
  assert (Hm : 0 <= AIInferenceEngine.mean devs).
  { unfold AIInferenceEngine.mean. destruct devs as [| d ds] eqn:E; [lra |].
    apply Qle_shift_div_l.
    - change 0 with (inject_Z 0). rewrite <- Zlt_Qlt. simpl length. lia.
    - assert (Hs : 0 <= AIInferenceEngine.Qsum (d :: ds)).
      { apply Qsum_nonneg. rewrite <- E. subst devs.
        apply Forall_map. apply Forall_forall. intros f _. apply Qabs_nonneg. }
      lra. }
  destruct (py_min_cases (AIInferenceEngine.mean devs * 2) 1) as [[H ->] | [H ->]];
    split; lra.
Qed.

(** The noisy score stays within the noise of the raw score. *)
Lemma noisy_score_band (features : list Q) (noise bound : Q) :
  - bound <= noise -> noise <= bound ->
  raw_score features - bound <= AIInferenceEngine.noisy_score features noise /\
  AIInferenceEngine.noisy_score features noise <= raw_score features + bound.
Proof.
  intros Hn1 Hn2.
  change (AIInferenceEngine.noisy_score features noise)
    with (py_max 0 (py_min 1 (raw_score features + noise))).
  destruct (raw_score_unit features) as [H0 H1].
  set (x := raw_score features) in *.
  destruct (clamp_spec 0 1 (x + noise)) as (C0 & C1 & Cin & Clo & Chi); [lra |].
  set (c := py_max 0 (py_min 1 (x + noise))) in *.
  destruct (Qlt_le_dec (x + noise) 0) as [Hneg | Hpos].
  - rewrite (Clo ltac:(lra)). split; lra.
  - destruct (Qlt_le_dec 1 (x + noise)) as [Hbig | Hsmall].
    + rewrite (Chi ltac:(lra)). split; lra.
    + rewrite (Cin ltac:(split; lra)). split; lra.
Qed.

Lemma run_inference_band
    (config : AIInferenceEngine.Config) (s : AIInferenceEngine.State)
    (g : random.State) (obd_data : gmap string PyVal) (features : list Q) :
  AIInferenceEngine.preprocess config obd_data = Some features ->
  0 <= random.draws g (random.position g) ->
  random.draws g (random.position g) <= 1 ->
  let score := fst (snd (AIInferenceEngine.run_inference config s g obd_data)) in
  raw_score features - (5 # 100) <= score /\
  score <= raw_score features + (5 # 100) /\
  0 <= raw_score features /\ raw_score features <= 1.
Proof.
  intros Hpre Hu0 Hu1 score. subst score.
  destruct (run_inference_success config s g obd_data features Hpre)
    as (Hr & _).
  cbv zeta in Hr. rewrite Hr. cbn [fst].
  set (u := random.draws g (random.position g)) in *.
  destruct (noisy_score_band features
              (- (5 # 100) + ((5 # 100) - - (5 # 100)) * u) (5 # 100))
    as [Hb1 Hb2]; [lra | lra |].
  destruct (raw_score_unit features) as [H0 H1].
  repeat split; assumption.
Qed.

(** X15.  The noise moves the score by at most 0.05: when the generator's
    [random()] answers a value of [[0, 1]], the score [run_inference]
    returns is within 0.05 of [min(2 * avg_deviation, 1)], which itself
    lies in [[0, 1]]. *)
Theorem score_within_noise_band
    (config : AIInferenceEngine.Config) (s : AIInferenceEngine.State)
    (g : random.State) (obd_data : gmap string PyVal) (features : list Q) :
  AIInferenceEngine.preprocess config obd_data = Some features ->
  0 <= random.draws g (random.position g) ->
  random.draws g (random.position g) <= 1 ->
  let score := fst (snd (AIInferenceEngine.run_inference config s g obd_data)) in
  raw_score features - (5 # 100) <= score /\
  score <= raw_score features + (5 # 100) /\
  0 <= raw_score features /\ raw_score features <= 1.
Proof.
  intros Hpre Hu0 Hu1 score. subst score.
  destruct (run_inference_success config s g obd_data features Hpre)
    as (Hr & _).
  cbv zeta in Hr. rewrite Hr. cbn [fst].
  set (u := random.draws g (random.position g)) in *.
  destruct (noisy_score_band features
              (- (5 # 100) + ((5 # 100) - - (5 # 100)) * u) (5 # 100))
    as [Hb1 Hb2]; [lra | lra |].
  destruct (raw_score_unit features) as [H0 H1].
  repeat split; assumption.
Qed.

Lemma score_within_noise_band_witness :
  exists features : list Q,
    AIInferenceEngine.preprocess CONFIG_ai midrange_snapshot = Some features /\
    fst (snd (AIInferenceEngine.run_inference CONFIG_ai AIInferenceEngine.__init__
                constant_generator midrange_snapshot))
      <= raw_score features + (5 # 100).
Proof.
  destruct (AIInferenceEngine.preprocess CONFIG_ai midrange_snapshot)
    as [features |] eqn:Hpre; [| vm_compute in Hpre; discriminate].
  exists features. split; [reflexivity |].
  destruct (score_within_noise_band CONFIG_ai AIInferenceEngine.__init__
              constant_generator midrange_snapshot features Hpre)
    as (_ & H & _); [discriminate | discriminate | exact H].
Defined.

Lemma preprocess_list_absent (config : AIInferenceEngine.Config)
    (obd_data : gmap string PyVal) (params : list string) :
  Forall (fun p => obd_data !! p = None \/ obd_data !! p = Some PyNone) params ->
  AIInferenceEngine.preprocess_list config obd_data params
    = AIInferenceEngine.preprocess_list config ∅ params.
Proof.
  induction 1 as [| p rest Hp _ IH]; [reflexivity |].
  cbn [AIInferenceEngine.preprocess_list]. rewrite IH.
  replace (AIInferenceEngine.preprocess_param config obd_data p)
    with (AIInferenceEngine.preprocess_param config ∅ p); [reflexivity |].
  unfold AIInferenceEngine.preprocess_param. rewrite lookup_empty.
  destruct Hp as [-> | ->]; reflexivity.
Qed.

(** X16.  Missing telemetry reads as the largest anomaly.  In the
    configuration of the source, a dictionary in which each of the six
    channels is absent or [None] gives six features of 0, a raw score of
    1, and, for any answer of [random()] in [[0, 1]], a returned score of
    at least 0.95 with the status CRITICAL. *)
Theorem missing_telemetry_scores_critical
    (s : AIInferenceEngine.State) (g : random.State)
    (obd_data : gmap string PyVal) :
  Forall (fun p => obd_data !! p = None \/ obd_data !! p = Some PyNone)
         AIInferenceEngine.feature_order ->
  0 <= random.draws g (random.position g) ->
  random.draws g (random.position g) <= 1 ->
  let r := snd (AIInferenceEngine.run_inference CONFIG_ai s g obd_data) in
  95 # 100 <= fst r /\ snd r = AIInferenceEngine.CRITICAL.
Proof.
  intros Habsent Hu0 Hu1 r. subst r.
  destruct (AIInferenceEngine.preprocess CONFIG_ai ∅) as [features |] eqn:Hempty;
    [| vm_compute in Hempty; discriminate].
  assert (Hpre : AIInferenceEngine.preprocess CONFIG_ai obd_data = Some features).
  { unfold AIInferenceEngine.preprocess in *.
    now rewrite (preprocess_list_absent CONFIG_ai obd_data _ Habsent). }
  assert (Hraw : raw_score features == 1).
  { vm_compute in Hempty. injection Hempty as <-. vm_compute. reflexivity. }
  destruct (run_inference_band CONFIG_ai s g obd_data features Hpre Hu0 Hu1)
    as (Hlow & _).
  destruct (run_inference_success CONFIG_ai s g obd_data features Hpre)
    as (Hr & _).
  cbv zeta in Hlow, Hr. rewrite Hr in Hlow |- *. cbn [fst snd] in Hlow |- *.
  rewrite Hraw in Hlow.
  split; [lra |].
  unfold classify.
  replace (Qle_bool (AIInferenceEngine.critical_min CONFIG_ai) _) with true;
    [reflexivity |].
  symmetry. apply Qle_bool_iff. change (AIInferenceEngine.critical_min CONFIG_ai)
    with (7 # 10). lra.
Qed.

Lemma missing_telemetry_scores_critical_witness :
  let r := snd (AIInferenceEngine.run_inference CONFIG_ai AIInferenceEngine.__init__
                  constant_generator
                  (<["timestamp"%string := PyFloat 1000]> ∅)) in
  95 # 100 <= fst r /\ snd r = AIInferenceEngine.CRITICAL.
Proof.
  apply (missing_telemetry_scores_critical AIInferenceEngine.__init__
           constant_generator (<["timestamp"%string := PyFloat 1000]> ∅)).
  - repeat constructor.
  - discriminate.
  - discriminate.
Defined.

(** ** OBD interface *)

Lemma collect_no_value (responses : string -> QueryResult) (names : list string) :
  forall data : gmap string PyVal,
    Forall (fun p => forall v, responses p <> QueryValue v) names ->
    collect responses names data = data.
Proof.
  induction names as [| n rest IH]; intros data H; [reflexivity |].
  inversion H as [| ? ? Hn Hrest]; subst.
  change (collect responses (n :: rest) data)
    with (collect responses rest
            (match responses n with
             | QueryValue v => <[n := v]> data
             | QueryNull | QueryRaises => data
             end)).
  destruct (responses n) as [| | v] eqn:E; [now apply IH | now apply IH |].
  exfalso. now apply (Hn v).
Qed.

Lemma collect_lookup (responses : string -> QueryResult) (names : list string) :
  forall (data : gmap string PyVal) (p : string),
    collect responses names data !! p =
      if bool_decide (p ∈ names) then
        match responses p with
        | QueryValue v => Some v
        | QueryNull | QueryRaises => data !! p
        end
      else data !! p.
Proof.
  induction names as [| n rest IH]; intros data p; [reflexivity |].
  change (collect responses (n :: rest) data)
    with (collect responses rest
            (match responses n with
             | QueryValue v => <[n := v]> data
             | QueryNull | QueryRaises => data
             end)).
  rewrite IH.
  destruct (decide (p = n)) as [-> | Hne].
  - rewrite (bool_decide_eq_true_2 (n ∈ n :: rest)) by apply list_elem_of_here.
    destruct (responses n) as [| | v] eqn:E.
    + now destruct (bool_decide (n ∈ rest)).
    + now destruct (bool_decide (n ∈ rest)).
    + rewrite lookup_insert_eq. now destruct (bool_decide (n ∈ rest)).
  - assert (Hiff : bool_decide (p ∈ n :: rest) = bool_decide (p ∈ rest)).
    { apply bool_decide_ext. rewrite elem_of_cons.
      split; [intros [E | H1]; [congruence | exact H1] | auto]. }
    rewrite Hiff.
    destruct (responses n) as [| | v]; [reflexivity | reflexivity |].
    now rewrite lookup_insert_ne by congruence.
Qed.

(** X17.  One pass of the OBD thread.  While not connected, or when no
    query answers a value, the stored snapshot is left as it was, time
    stamp included.  Otherwise the snapshot is replaced as a whole: it
    carries the new time stamp, and each channel holds the value just
    read or is absent when its query was null or raised, whatever the old
    snapshot held. *)
Theorem obd_pass_replaces_snapshot
    (s : OBDInterface.State) (t : Q) (responses : string -> QueryResult) :
  let s' := obd_read_pass s t responses in
  (OBDInterface.connected s = false -> s' = s) /\
  (Forall (fun p => forall v, responses p <> QueryValue v) pids -> s' = s) /\
  (OBDInterface.connected s = true ->
   Exists (fun p => exists v, responses p = QueryValue v) pids ->
   OBDInterface.get_latest_data s' !! "timestamp"%string = Some (PyFloat t) /\
   forall p, In p pids ->
     OBDInterface.get_latest_data s' !! p =
       match responses p with
       | QueryValue v => Some v
       | QueryNull | QueryRaises => None
       end).
Proof.
  intros s'. subst s'. unfold obd_read_pass, OBDInterface.publish.
  split; [intros ->; reflexivity |]. split.
  - intros Hnone. rewrite (collect_no_value responses pids ∅ Hnone).
    destruct (negb (OBDInterface.connected s)); [reflexivity |].
    now rewrite decide_True by reflexivity.
  - intros -> Hsome. cbn [negb].
    assert (Hne : collect responses pids ∅ <> ∅).
    { apply List.Exists_exists in Hsome as (p & Hin & v & Hv).
      intros Hempty.
      pose proof (collect_lookup responses pids ∅ p) as Hl.
      rewrite Hempty, lookup_empty, Hv in Hl.
      rewrite bool_decide_eq_true_2 in Hl by now apply list_elem_of_In.
      discriminate. }
    rewrite decide_False by exact Hne.
    cbn [OBDInterface.get_latest_data OBDInterface.latest_data].
    split; [apply lookup_insert_eq |].
    intros p Hin.
    assert (Hts : "timestamp"%string <> p).
    { intros <-. cbn in Hin.
      repeat (destruct Hin as [Hin | Hin]; [discriminate |]). exact Hin. }
    rewrite lookup_insert_ne by exact Hts.
    rewrite collect_lookup, lookup_empty.
    rewrite bool_decide_eq_true_2 by now apply list_elem_of_In.
    now destruct (responses p).
Qed.

Lemma obd_pass_replaces_snapshot_witness :
  let old := {| OBDInterface.connected := true;
                OBDInterface.latest_data := midrange_snapshot |} in
  let responses := fun name : string =>
                     if String.eqb name "rpm" then QueryValue (PyFloat 2500)
                     else if String.eqb name "speed" then QueryRaises
                     else QueryNull in
  let s' := obd_read_pass old 2000 responses in
  OBDInterface.get_latest_data s' !! "timestamp"%string = Some (PyFloat 2000) /\
  OBDInterface.get_latest_data s' !! "rpm"%string = Some (PyFloat 2500) /\
  OBDInterface.get_latest_data s' !! "speed"%string = None.
Proof.
  intros old responses s'.
  destruct (obd_pass_replaces_snapshot old 2000 responses) as (_ & _ & H).
  destruct H as [Hts Hp]; [reflexivity | apply Exists_cons_hd; now eexists |].
  split; [exact Hts |]. split.
  - apply (Hp "rpm"%string). cbn. auto.
  - apply (Hp "speed"%string). cbn. auto.
Defined.

(** ** Control loop: schedule, reaction, shutdown *)

Section LoopFacts.

Import VehicleMonitorSystem.

Variable config : Config.

(** What a gas check leaves alone. *)
Lemma check_gas_safety_frame (s : State) :
  obd (_check_gas_safety config s) = obd s /\
  ai_engine (_check_gas_safety config s) = ai_engine s /\
  rng (_check_gas_safety config s) = rng s /\
  gas_sensor (_check_gas_safety config s) = gas_sensor s /\
  gas_thread (_check_gas_safety config s) = gas_thread s /\
  obd_thread (_check_gas_safety config s) = obd_thread s /\
  last_gas_check (_check_gas_safety config s) = last_gas_check s /\
  last_ai_check (_check_gas_safety config s) = last_ai_check s /\
  last_display (_check_gas_safety config s) = last_display s.
Proof.
  unfold _check_gas_safety. repeat case_match; cbn; repeat split; congruence.
Qed.

(** The events of a gas check: gas events only, a [GasCheck] among them
    exactly when there is a sensor object. *)
Lemma check_gas_safety_events (s : State) :
  exists G,
    trace (_check_gas_safety config s) = trace s ++ G /\
    forallb is_gas_event G = true /\
    existsb is_GasCheck G = has_sensor s.
Proof.
  unfold _check_gas_safety, has_sensor.
  destruct (gas_sensor s) as [g |]; [| exists []; now rewrite app_nil_r].
  destruct (GasSensor.get_reading g) as [[raw filtered] st].
  destruct (_ && _); [| now exists [GasCheck st]].
  cbn [add_event emergency_shutdown valve negb].
  destruct (emergency_shutdown s); cbn [negb]; [now exists [GasCheck st] |].
  destruct (valve s) as [v |]; [| now exists [GasCheck st]].
  destruct (ValveController.emergency_shutoff (valve_config config) v)
    as [v' | v'].
  - exists [GasCheck st; EmergencyShutoff; EmergencySet].
    cbn. now rewrite <- !app_assoc.
  - exists [GasCheck st; EmergencyShutoff].
    cbn. now rewrite <- !app_assoc.
Qed.

(** What an inference leaves alone, and its events. *)
Lemma run_ai_inference_frame (s : State) :
  gas_sensor (_run_ai_inference config s) = gas_sensor s /\
  last_gas_check (_run_ai_inference config s) = last_gas_check s /\
  last_ai_check (_run_ai_inference config s) = last_ai_check s /\
  last_display (_run_ai_inference config s) = last_display s /\
  exists A,
    trace (_run_ai_inference config s) = trace s ++ A /\
    forallb is_Inference A = true /\ (length A <= 1)%nat.
Proof.
  unfold _run_ai_inference.
  destruct (obd s) as [o |];
    [| repeat split; exists []; rewrite app_nil_r; repeat split; simpl; lia].
  destruct (ai_engine s) as [a |];
    [| repeat split; exists []; rewrite app_nil_r; repeat split; simpl; lia].
  destruct (_ && _);
    [| repeat split; exists []; rewrite app_nil_r; repeat split; simpl; lia].
  destruct (AIInferenceEngine.run_inference _ _ _ _) as [[a' g'] result].
  cbn. repeat split. exists [Inference result]. repeat split. simpl. lia.
Qed.

(** The body of the loop: which sub-tasks run, in which order, and the
    times it records. *)
Lemma loop_body_schedule (s : State) (t : Q) :
  let due_gas := Qle_bool gas_check_interval (t - last_gas_check s) in
  let due_ai := Qle_bool ai_check_interval (t - last_ai_check s) in
  let due_display := Qle_bool display_interval (t - last_display s) in
  let s' := loop_body config s t in
  last_gas_check s' = (if due_gas then t else last_gas_check s) /\
  last_ai_check s' = (if due_ai then t else last_ai_check s) /\
  last_display s' = (if due_display then t else last_display s) /\
  exists G A D,
    trace s' = trace s ++ G ++ A ++ D /\
    forallb is_gas_event G = true /\
    forallb is_Inference A = true /\
    forallb is_StatusReport D = true /\
    existsb is_GasCheck G = due_gas && has_sensor s /\
    (length A <= 1)%nat /\ (due_ai = false -> A = []) /\
    length D = (if due_display then 1 else 0)%nat.
Proof.
  intros due_gas due_ai due_display s'. subst s'. unfold loop_body.
  fold due_gas.
  set (s1 := if due_gas
             then set_last (_check_gas_safety config s) t
                    (last_ai_check (_check_gas_safety config s))
                    (last_display (_check_gas_safety config s))
             else s).
  assert (H1 : last_gas_check s1 = (if due_gas then t else last_gas_check s) /\
               last_ai_check s1 = last_ai_check s /\
               last_display s1 = last_display s /\
               exists G, trace s1 = trace s ++ G /\
                 forallb is_gas_event G = true /\
                 existsb is_GasCheck G
                   = due_gas && has_sensor s).
  { subst s1. destruct due_gas.
    - destruct (check_gas_safety_frame s) as (_ & _ & _ & _ & _ & _ & _ & Ha & Hd).
      destruct (check_gas_safety_events s) as (G & HG & HG1 & HG2).
      cbn. repeat split; try assumption. now exists G.
    - repeat split. exists []. now rewrite app_nil_r. }
  destruct H1 as (Hg1 & Ha1 & Hd1 & G & HG & HG1 & HG2).
  assert (Eai : Qle_bool ai_check_interval (t - last_ai_check s1) = due_ai)
    by (unfold due_ai; now rewrite Ha1).
  rewrite Eai.
  set (s2 := if due_ai
             then set_last (_run_ai_inference config s1)
                    (last_gas_check (_run_ai_inference config s1)) t
                    (last_display (_run_ai_inference config s1))
             else s1).
  assert (H2 : last_gas_check s2 = last_gas_check s1 /\
               last_ai_check s2 = (if due_ai then t else last_ai_check s1) /\
               last_display s2 = last_display s1 /\
               exists A, trace s2 = trace s1 ++ A /\
                 forallb is_Inference A = true /\ (length A <= 1)%nat /\
                 (due_ai = false -> A = [])).
  { subst s2. destruct due_ai.
    - destruct (run_ai_inference_frame s1) as (_ & Hg & _ & Hd & A & HA & HA1 & HA2).
      cbn. repeat split; try assumption. exists A. repeat split; auto. discriminate.
    - repeat split. exists []. rewrite app_nil_r. repeat split; auto. }
  destruct H2 as (Hg2 & Ha2 & Hd2 & A & HA & HA1 & HA2 & HA3).
  assert (Edisp : Qle_bool display_interval (t - last_display s2) = due_display)
    by (unfold due_display; now rewrite Hd2, Hd1).
  rewrite Edisp.
  destruct due_display eqn:Hdue.
  - cbn. split; [rewrite Hg2; exact Hg1 |].
    split; [rewrite Ha2, Ha1; reflexivity |]. split; [reflexivity |].
    eexists G, A, [_]. rewrite HA, HG, <- !app_assoc.
    repeat split; auto.
  - split; [rewrite Hg2; exact Hg1 |].
    split; [rewrite Ha2, Ha1; reflexivity |]. split; [congruence |].
    exists G, A, []. rewrite HA, HG, app_nil_r, <- !app_assoc.
    repeat split; auto.
Qed.

Lemma existsb_excluded (A : Type) (p q : A -> bool) (l : list A) :
  forallb p l = true ->
  (forall e, p e = true -> q e = false) ->
  existsb q l = false.
Proof.
  intros Hall Hex. induction l as [| e l IH]; [reflexivity |].
  simpl in Hall |- *. apply andb_true_iff in Hall as [He Hl].
  now rewrite (Hex e He), IH.
Qed.

Lemma existsb_all (A : Type) (p : A -> bool) (l : list A) :
  forallb p l = true ->
  existsb p l = negb (Nat.eqb (length l) 0).
Proof.
  intros Hall. destruct l as [| e l]; [reflexivity |].
  simpl in Hall |- *. apply andb_true_iff in Hall as [He _]. now rewrite He.
Qed.

End LoopFacts.


(** X19.  Each sub-task runs exactly when its interval has elapsed and
    records the time.  In a turn at time [t] of a running loop with the
    flag clear: a status report is made if and only if
    [t - last_display >= 2.0], a gas check (given a sensor object) if and
    only if [t - last_gas_check >= 0.1], no inference is made unless
    [t - last_ai_check >= 0.5]; each of the three recorded times becomes
    [t] when its interval had elapsed and is kept otherwise. *)
Theorem subtasks_run_when_due
    (config : VehicleMonitorSystem.Config) (s : VehicleMonitorSystem.State) (t : Q) :
  VehicleMonitorSystem.loop_alive s = true ->
  VehicleMonitorSystem.running s = true ->
  VehicleMonitorSystem.emergency_shutdown s = false ->
  let due_gas := Qle_bool VehicleMonitorSystem.gas_check_interval
                   (t - VehicleMonitorSystem.last_gas_check s) in
  let due_ai := Qle_bool VehicleMonitorSystem.ai_check_interval
                  (t - VehicleMonitorSystem.last_ai_check s) in
  let due_display := Qle_bool VehicleMonitorSystem.display_interval
                       (t - VehicleMonitorSystem.last_display s) in
  let ev := VehicleMonitorSystem.turn_events config s t in
  let s' := VehicleMonitorSystem.main_loop_turn config s t in
  existsb VehicleMonitorSystem.is_StatusReport ev = due_display /\
  existsb VehicleMonitorSystem.is_GasCheck ev
    = due_gas && has_sensor s /\
  (due_ai = false -> existsb VehicleMonitorSystem.is_Inference ev = false) /\
  VehicleMonitorSystem.last_gas_check s'
    = (if due_gas then t else VehicleMonitorSystem.last_gas_check s) /\
  VehicleMonitorSystem.last_ai_check s'
    = (if due_ai then t else VehicleMonitorSystem.last_ai_check s) /\
  VehicleMonitorSystem.last_display s'
    = (if due_display then t else VehicleMonitorSystem.last_display s).
Proof.
  intros Halive Hrun Hclear due_gas due_ai due_display ev s'. subst ev s'.
  unfold VehicleMonitorSystem.turn_events, VehicleMonitorSystem.main_loop_turn.
  rewrite Halive, Hrun, Hclear. cbn [negb andb].
  destruct (loop_body_schedule config s t)
    as (Hlg & Hla & Hld & G & A & D & Ht & HG & HA & HD & HG1 & HA1 & HA2 & HD1).
  fold due_gas in Hlg, HG1. fold due_ai in Hla, HA2. fold due_display in Hld, HD1.
  rewrite Ht, skipn_app_exact, !existsb_app.
  assert (EG_S : existsb VehicleMonitorSystem.is_StatusReport G = false)
    by (apply (existsb_excluded _ _ _ _ HG); now intros []).
  assert (EA_S : existsb VehicleMonitorSystem.is_StatusReport A = false)
    by (apply (existsb_excluded _ _ _ _ HA); now intros []).
  assert (EA_G : existsb VehicleMonitorSystem.is_GasCheck A = false)
    by (apply (existsb_excluded _ _ _ _ HA); now intros []).
  assert (ED_G : existsb VehicleMonitorSystem.is_GasCheck D = false)
    by (apply (existsb_excluded _ _ _ _ HD); now intros []).
  assert (EG_I : existsb VehicleMonitorSystem.is_Inference G = false)
    by (apply (existsb_excluded _ _ _ _ HG); now intros []).
  assert (ED_I : existsb VehicleMonitorSystem.is_Inference D = false)
    by (apply (existsb_excluded _ _ _ _ HD); now intros []).
  rewrite EG_S, EA_S, EA_G, ED_G, EG_I, ED_I, HG1.
  rewrite (existsb_all _ _ _ HD), HD1.
  repeat split; try assumption.
  - now destruct due_display.
  - now rewrite !orb_false_r.
  - intros Hnot. now rewrite (HA2 Hnot).
Qed.

Lemma subtasks_run_when_due_witness :
  let s := VehicleMonitorSystem.run CONFIG started_system
             [VehicleMonitorSystem.Tick 1000] in
  existsb VehicleMonitorSystem.is_StatusReport
    (VehicleMonitorSystem.turn_events CONFIG s (1001 + (1 # 2))) = false /\
  existsb VehicleMonitorSystem.is_GasCheck
    (VehicleMonitorSystem.turn_events CONFIG s (1001 + (1 # 2))) = true.
Proof.
  intros s.
  destruct (subtasks_run_when_due CONFIG s (1001 + (1 # 2)))
    as (Hd & Hg & _); [reflexivity | reflexivity | reflexivity |].
  split; [exact Hd | exact Hg].
Defined.

Section ReactionFacts.

Import VehicleMonitorSystem.

Variable config : Config.

(** After the gas check the rest of the body leaves the flag, the valve
    and the count of shutoff calls alone. *)
Lemma loop_body_view_after_gas (s : State) (t : Q) :
  safety_view (loop_body config s t)
    = safety_view (if Qle_bool gas_check_interval (t - last_gas_check s)
                   then _check_gas_safety config s else s).
Proof.
  unfold loop_body.
  set (s1 := if Qle_bool gas_check_interval (t - last_gas_check s)
             then set_last (_check_gas_safety config s) t
                    (last_ai_check (_check_gas_safety config s))
                    (last_display (_check_gas_safety config s))
             else s).
  set (s2 := if Qle_bool ai_check_interval (t - last_ai_check s1)
             then set_last (_run_ai_inference config s1)
                    (last_gas_check (_run_ai_inference config s1)) t
                    (last_display (_run_ai_inference config s1))
             else s1).
  assert (H3 : safety_view (if Qle_bool display_interval (t - last_display s2)
                            then set_last (_display_status s2)
                                   (last_gas_check (_display_status s2))
                                   (last_ai_check (_display_status s2)) t
                            else s2) = safety_view s2).
  { destruct (Qle_bool display_interval _); [| reflexivity].
    now destruct (display_status_view s2) as (Hv & _). }
  assert (H2 : safety_view s2 = safety_view s1).
  { subst s2. destruct (Qle_bool ai_check_interval _); [| reflexivity].
    now destruct (run_ai_inference_view config s1) as (Hv & _). }
  rewrite H3, H2. subst s1.
  now destruct (Qle_bool gas_check_interval _).
Qed.

(** A gas check that finds CRITICAL, with [auto_shutoff] on, the flag
    clear and a valve object, calls the shutoff; the flag is set when the
    call returns. *)
Lemma check_gas_safety_triggers (s : State) (g : GasSensor.State)
    (v : ValveController.State) :
  gas_sensor s = Some g ->
  GasSensor.status g = GasSensor.CRITICAL ->
  ValveController.auto_shutoff (valve_config config) = true ->
  emergency_shutdown s = false ->
  valve s = Some v ->
  safety_view (_check_gas_safety config s)
    = (ValveController.is_returned
         (ValveController.emergency_shutoff (valve_config config) v),
       Some (ValveController.state_of
               (ValveController.emergency_shutoff (valve_config config) v)),
       S (shutoff_calls s)).
Proof.
  intros Hg Hst Hauto He Hv.
  unfold _check_gas_safety, safety_view, GasSensor.get_reading.
  rewrite Hg, Hst, Hauto.
  cbn [GasSensor.Status_eqb andb add_event emergency_shutdown valve].
  rewrite He, Hv. cbn [negb].
  destruct (ValveController.emergency_shutoff (valve_config config) v)
    as [v' | v'];
    unfold shutoff_calls;
    cbn [add_event set_flags set_valve trace emergency_shutdown valve
         ValveController.is_returned ValveController.state_of];
    rewrite ?He, !List.filter_app, !length_app; simpl; f_equal; lia.
Qed.

(** A gas check with [auto_shutoff] off, or that does not find CRITICAL,
    leaves the flag, the valve and the count alone. *)
Lemma check_gas_safety_idle (s : State) :
  ValveController.auto_shutoff (valve_config config) = false \/
  (exists g, gas_sensor s = Some g /\ GasSensor.status g <> GasSensor.CRITICAL) ->
  safety_view (_check_gas_safety config s) = safety_view s.
Proof.
  intros H. unfold _check_gas_safety, safety_view, GasSensor.get_reading.
  destruct (gas_sensor s) as [g |]; [| reflexivity].
  assert (Hcond : GasSensor.Status_eqb (GasSensor.status g) GasSensor.CRITICAL
                  && ValveController.auto_shutoff (valve_config config) = false).
  { destruct H as [-> | (g' & Hg' & Hne)]; [apply andb_false_r |].
    injection Hg' as <-. destruct (GasSensor.status g); try reflexivity.
    now contradiction Hne. }
  rewrite Hcond, shutoff_calls_add_event. cbn. now rewrite Nat.add_0_r.
Qed.

Lemma step_idle (s : State) (x : Step) :
  ValveController.auto_shutoff (valve_config config) = false \/
  (exists g, gas_sensor s = Some g /\ GasSensor.status g <> GasSensor.CRITICAL) ->
  emergency_shutdown (step config s x) = emergency_shutdown s /\
  shutoff_calls (step config s x) = shutoff_calls s.
Proof.
  intros H. destruct (is_Stop x) eqn:Hx.
  - destruct x; try discriminate. cbn [step].
    pose proof (stop_view config s) as Hv. unfold safety_view in Hv.
    injection Hv as He _ Hc. auto.
  - assert (Hview : safety_view (step config s x) = safety_view s).
    { destruct x as [t raw | t data | t |]; [| | | discriminate]; cbn [step].
      - destruct (gas_sensor s); [| reflexivity]. now destruct (gas_thread s).
      - destruct (obd s); [| reflexivity]. now destruct (obd_thread s).
      - unfold main_loop_turn. destruct (loop_alive s); cbn [negb]; [| reflexivity].
        destruct (_ && _).
        + rewrite loop_body_view_after_gas.
          destruct (Qle_bool gas_check_interval _); [| reflexivity].
          now apply check_gas_safety_idle.
        + unfold safety_view. rewrite shutoff_calls_add_event. cbn.
          now rewrite Nat.add_0_r. }
    unfold safety_view in Hview. injection Hview as He _ Hc. auto.
Qed.

(** What [start] hands over, threads and components. *)
Lemma start_components (p : Platform) (g : random.State) (s0 : State) :
  start config p (__init__ g) = (s0, true) ->
  gas_thread s0 = has_spidev p /\ obd_thread s0 = obd_connects p /\
  (exists gs, GasSensor.__init__ (gas_sensor_config config) = Some gs /\
              gas_sensor s0 = Some gs) /\
  (exists o, obd s0 = Some o /\ OBDInterface.latest_data o = ∅) /\
  ai_engine s0 = Some AIInferenceEngine.__init__.
Proof.
  unfold start, initialize.
  destruct (GasSensor.__init__ (gas_sensor_config config)) as [gs |];
    [| cbn; discriminate].
  destruct (obd_connects p); cbn; intros H; injection H as <-; cbn;
    repeat split; eauto.
Qed.

Lemma step_keeps_gas_thread_off (s : State) (x : Step) :
  gas_thread s = false -> gas_thread (step config s x) = false.
Proof.
  intros H. destruct x as [t raw | t data | t |]; cbn [step].
  - destruct (gas_sensor s); [| exact H]. now rewrite H.
  - destruct (obd s); [| exact H]. destruct (obd_thread s); exact H.
  - unfold main_loop_turn, loop_body, _check_gas_safety, _run_ai_inference,
      _display_status.
    repeat case_match; cbn; congruence.
  - now destruct (stop_flags config s) as (_ & Hg & _).
Qed.

Lemma step_without_gas_thread (s : State) (x : Step) :
  gas_thread s = false -> gas_sensor (step config s x) = gas_sensor s.
Proof.
  intros H. destruct (is_GasSample x) eqn:Hx.
  - destruct x; try discriminate. cbn [step].
    destruct (gas_sensor s) eqn:E; [rewrite H |]; congruence.
  - now apply step_keeps_gas_sensor.
Qed.

(** Without data from the adapter a turn of the loop makes no inference
    and leaves the engine as it was. *)
Lemma step_without_obd (s : State) (x : Step) :
  obd_thread s = false ->
  (exists o, obd s = Some o /\ OBDInterface.latest_data o = ∅) ->
  obd_thread (step config s x) = false /\
  obd (step config s x) = obd s /\
  ai_engine (step config s x) = ai_engine s /\
  exists l, trace (step config s x) = trace s ++ l /\
            existsb is_Inference l = false.
Proof.
  intros Ht (o & Ho & Hdata).
  assert (Hai : forall s', obd s' = obd s -> _run_ai_inference config s' = s').
  { intros s' E. unfold _run_ai_inference, OBDInterface.get_latest_data.
    rewrite E, Ho, Hdata. destruct (ai_engine s'); [| reflexivity].
    now rewrite bool_decide_eq_true_2 by reflexivity. }
  destruct x as [t raw | t data | t |]; cbn [step].
  - destruct (gas_sensor s); [| repeat split; auto; exists []; now rewrite app_nil_r].
    destruct (gas_thread s); cbn; repeat split; auto;
      exists []; now rewrite app_nil_r.
  - rewrite Ho, Ht. repeat split; auto. exists []. now rewrite app_nil_r.
  - unfold main_loop_turn. destruct (loop_alive s); cbn [negb];
      [| repeat split; auto; exists []; now rewrite app_nil_r].
    destruct (_ && _);
      [| cbn; repeat split; auto; now exists [LoopEnded]].
    unfold loop_body.
    set (s1 := if Qle_bool gas_check_interval (t - last_gas_check s)
               then set_last (_check_gas_safety config s) t
                      (last_ai_check (_check_gas_safety config s))
                      (last_display (_check_gas_safety config s))
               else s).
    assert (H1 : obd_thread s1 = obd_thread s /\ obd s1 = obd s /\
                 ai_engine s1 = ai_engine s /\
                 exists G, trace s1 = trace s ++ G /\ forallb is_gas_event G = true).
    { subst s1. destruct (Qle_bool gas_check_interval _).
      - destruct (check_gas_safety_frame config s)
          as (Hobd & Hae & _ & _ & _ & Hot & _).
        destruct (check_gas_safety_events config s) as (G & HG & HG1 & _).
        cbn. repeat split; auto. now exists G.
      - repeat split. exists []. now rewrite app_nil_r. }
    destruct H1 as (Hot1 & Hobd1 & Hae1 & G & HG & HG1).
    rewrite (Hai s1 Hobd1).
    assert (EG : existsb is_Inference G = false)
      by (apply (existsb_excluded _ _ _ _ HG1); now intros []).
    destruct (Qle_bool ai_check_interval _);
      destruct (Qle_bool display_interval _); cbn;
      (split; [congruence |]); (split; [congruence |]); (split; [congruence |]).
    + eexists (G ++ [_]). rewrite HG, <- app_assoc. split; [reflexivity |].
      rewrite existsb_app, EG. reflexivity.
    + exists G. auto.
    + eexists (G ++ [_]). rewrite HG, <- app_assoc. split; [reflexivity |].
      rewrite existsb_app, EG. reflexivity.
    + exists G. auto.
  - destruct (stop_flags config s) as (_ & _ & Hot & _).
    split; [exact Hot |].
    unfold stop. cbn [set_flags loop_alive].
    destruct (loop_alive s); cbn [set_threads add_event set_flags valve];
      destruct (valve s); cbn; repeat split; auto;
      (now exists [LoopEnded]) || (exists []; now rewrite app_nil_r).
Qed.

End ReactionFacts.

(** X20.  A confirmed leak is acted on within the turn.  When the loop is
    running with the flag clear, the gas check is due, the sensor's
    published status is CRITICAL, [auto_shutoff] is on and there is a valve
    object, the turn calls [emergency_shutoff] once.  When the valve object
    is usable (no GPIO module, or a pin that is set up) the call returns,
    the valve is left closed, with the line of a present module driven to
    closed, and the flag is set.  When the pin is not set up (the setup in
    the constructor failed) the call raises inside the gas check, which
    catches it: the flag stays clear and the valve is recorded as before,
    its pin untouched. *)
Theorem critical_reading_shuts_the_valve
    (config : VehicleMonitorSystem.Config) (s : VehicleMonitorSystem.State)
    (t : Q) (g : GasSensor.State) (v : ValveController.State) :
  VehicleMonitorSystem.loop_alive s = true ->
  VehicleMonitorSystem.running s = true ->
  VehicleMonitorSystem.emergency_shutdown s = false ->
  VehicleMonitorSystem.gas_check_interval <= t - VehicleMonitorSystem.last_gas_check s ->
  VehicleMonitorSystem.gas_sensor s = Some g ->
  GasSensor.status g = GasSensor.CRITICAL ->
  ValveController.auto_shutoff (VehicleMonitorSystem.valve_config config) = true ->
  VehicleMonitorSystem.valve s = Some v ->
  let s' := VehicleMonitorSystem.main_loop_turn config s t in
  let vc := VehicleMonitorSystem.valve_config config in
  VehicleMonitorSystem.shutoff_calls s' = S (VehicleMonitorSystem.shutoff_calls s) /\
  exists v',
    VehicleMonitorSystem.valve s' = Some v' /\
    if ValveController.usable v
    then
      ValveController.emergency_shutoff vc v = ValveController.Returned v' /\
      VehicleMonitorSystem.emergency_shutdown s' = true /\
      ValveController.is_open v' = false /\
      (ValveController.GPIO v = true ->
       ValveController.last_driven vc (ValveController.pin_ops v') = Some false)
    else
      ValveController.emergency_shutoff vc v = ValveController.Raised v' /\
      VehicleMonitorSystem.emergency_shutdown s' = false /\
      ValveController.is_open v' = ValveController.is_open v /\
      ValveController.pin_ops v' = ValveController.pin_ops v.
Proof.
  intros Halive Hrun Hclear Hdue Hg Hst Hauto Hv s' vc. subst s' vc.
  unfold VehicleMonitorSystem.main_loop_turn.
  rewrite Halive, Hrun, Hclear. cbn [negb andb].
  pose proof (loop_body_view_after_gas config s t) as Hview.
  apply Qle_bool_iff in Hdue. rewrite Hdue in Hview.
  rewrite (check_gas_safety_triggers config s g v Hg Hst Hauto Hclear Hv) in Hview.
  unfold VehicleMonitorSystem.safety_view in Hview.
  injection Hview as He Hvalve Hc.
  split; [exact Hc |].
  destruct (ValveController.usable v) eqn:Hu.
  - destruct (emergency_shutoff_usable (VehicleMonitorSystem.valve_config config) v Hu)
      as (v' & Hes & Hclosed & _ & _ & Hl).
    rewrite Hes in He, Hvalve. exists v'. auto.
  - destruct (emergency_shutoff_unusable (VehicleMonitorSystem.valve_config config) v Hu)
      as (v' & Hes & Ho & _ & _ & Hp).
    rewrite Hes in He, Hvalve. exists v'. auto.
Qed.

Lemma critical_reading_shuts_the_valve_witness :
  let s := VehicleMonitorSystem.run CONFIG started_system (take 4 leak_schedule) in
  let s' := VehicleMonitorSystem.main_loop_turn CONFIG s 1003 in
  VehicleMonitorSystem.emergency_shutdown s' = true /\
  VehicleMonitorSystem.shutoff_calls s' = 1%nat /\
  option_map ValveController.is_open (VehicleMonitorSystem.valve s') = Some false.
Proof.
  intros s s'.
  destruct (VehicleMonitorSystem.gas_sensor s) as [g |] eqn:Hg;
    [| vm_compute in Hg; discriminate].
  destruct (VehicleMonitorSystem.valve s) as [v |] eqn:Hv;
    [| vm_compute in Hv; discriminate].
  assert (Hu : ValveController.usable v = true)
    by (vm_compute in Hv; injection Hv as <-; reflexivity).
  destruct (critical_reading_shuts_the_valve CONFIG s 1003 g v)
    as (Hc & v' & Hv' & H); try reflexivity.
  - discriminate.
  - exact Hg.
  - vm_compute in Hg. injection Hg as <-. reflexivity.
  - exact Hv.
  - rewrite Hu in H. destruct H as (_ & He & Hclosed & _).
    split; [exact He |]. split; [exact Hc |].
    subst s'. rewrite Hv'. cbn [option_map]. now rewrite Hclosed.
Defined.

(** The same turn on the machine where the setup of the pin failed: the
    shutoff is called, the flag stays clear and the valve stays open. *)
Example critical_reading_after_failed_setup :
  let s := VehicleMonitorSystem.run CONFIG started_with_failed_gpio_setup
             (take 4 leak_schedule) in
  let s' := VehicleMonitorSystem.main_loop_turn CONFIG s 1003 in
  (VehicleMonitorSystem.emergency_shutdown s',
   VehicleMonitorSystem.shutoff_calls s',
   option_map ValveController.is_open (VehicleMonitorSystem.valve s'))
  = (false, 1%nat, Some true).
Proof. vm_compute. reflexivity. Qed.

(** X21.  With [auto_shutoff] off the system never touches the valve on
    its own: over any schedule the flag stays clear and
    [emergency_shutoff] is never called, whatever the sensor reports; and
    until [stop] is called the valve stays open. *)
Theorem no_shutoff_when_disabled
    (config : VehicleMonitorSystem.Config) (p : VehicleMonitorSystem.Platform)
    (g : random.State) (s0 : VehicleMonitorSystem.State)
    (steps : list VehicleMonitorSystem.Step) :
  VehicleMonitorSystem.start config p (VehicleMonitorSystem.__init__ g) = (s0, true) ->
  ValveController.auto_shutoff (VehicleMonitorSystem.valve_config config) = false ->
  let s := VehicleMonitorSystem.run config s0 steps in
  VehicleMonitorSystem.emergency_shutdown s = false /\
  VehicleMonitorSystem.shutoff_calls s = 0%nat /\
  (VehicleMonitorSystem.no_Stop steps ->
   exists v, VehicleMonitorSystem.valve s = Some v /\ ValveController.is_open v = true).
Proof.
  intros Hstart Hauto s. subst s.
  pose proof (start_state config p g s0 Hstart) as (He0 & Ht0 & _ & _ & Hv0 & _).
  assert (Hc0 : VehicleMonitorSystem.shutoff_calls s0 = 0%nat)
    by (unfold VehicleMonitorSystem.shutoff_calls; now rewrite Ht0).
  assert (Hrun : forall (l : list VehicleMonitorSystem.Step) (s : VehicleMonitorSystem.State),
            VehicleMonitorSystem.emergency_shutdown (VehicleMonitorSystem.run config s l)
              = VehicleMonitorSystem.emergency_shutdown s /\
            VehicleMonitorSystem.shutoff_calls (VehicleMonitorSystem.run config s l)
              = VehicleMonitorSystem.shutoff_calls s).
  { induction l as [| x l IH]; intros s; [auto |].
    rewrite run_cons. destruct (IH (VehicleMonitorSystem.step config s x)) as [E C].
    destruct (step_idle config s x (or_introl Hauto)) as [E' C'].
    split; congruence. }
  destruct (Hrun steps s0) as [E C].
  split; [congruence |]. split; [congruence |].
  intros Hns.
  destruct (valve_state_run config (VehicleMonitorSystem.has_GPIO p) steps s0 Hns)
    as (v & Hv & _ & Hopen & _).
  { destruct (start_valve config p g s0 Hstart) as (v0 & Hv0' & Hg0 & Ho0 & _).
    exists v0. split; [exact Hv0' |]. split; [exact Hg0 |].
    split; [intros _; exact Ho0 | congruence]. }
  exists v. split; [exact Hv |]. apply Hopen. congruence.
Qed.

Lemma no_shutoff_when_disabled_witness :
  let s := VehicleMonitorSystem.run CONFIG_no_auto_shutoff
             (fst (VehicleMonitorSystem.start CONFIG_no_auto_shutoff full_platform
                     (VehicleMonitorSystem.__init__ constant_generator)))
             (leak_schedule ++ [VehicleMonitorSystem.Tick 1006]) in
  VehicleMonitorSystem.emergency_shutdown s = false /\
  VehicleMonitorSystem.shutoff_calls s = 0%nat.
Proof.
  intros s.
  destruct (no_shutoff_when_disabled CONFIG_no_auto_shutoff full_platform
              constant_generator
              (fst (VehicleMonitorSystem.start CONFIG_no_auto_shutoff full_platform
                      (VehicleMonitorSystem.__init__ constant_generator)))
              (leak_schedule ++ [VehicleMonitorSystem.Tick 1006]))
    as (He & Hc & _); [reflexivity | reflexivity |].
  split; [exact He | exact Hc].
Defined.

(** X22.  A sensor that could not be started is never noticed.  On a
    machine without [spidev] the gas thread does not run: over any
    schedule the sensor object keeps answering [(0, 0, 'SAFE')], the flag
    stays clear and [emergency_shutoff] is never called. *)
Theorem unstarted_sensor_reads_safe_forever
    (config : VehicleMonitorSystem.Config) (p : VehicleMonitorSystem.Platform)
    (g : random.State) (s0 : VehicleMonitorSystem.State)
    (steps : list VehicleMonitorSystem.Step) :
  VehicleMonitorSystem.start config p (VehicleMonitorSystem.__init__ g) = (s0, true) ->
  VehicleMonitorSystem.has_spidev p = false ->
  let s := VehicleMonitorSystem.run config s0 steps in
  option_map GasSensor.get_reading (VehicleMonitorSystem.gas_sensor s)
    = Some (0%Z, 0, GasSensor.SAFE) /\
  VehicleMonitorSystem.emergency_shutdown s = false /\
  VehicleMonitorSystem.shutoff_calls s = 0%nat.
Proof.
  intros Hstart Hspi s. subst s.
  pose proof (start_state config p g s0 Hstart) as (He0 & Ht0 & _).
  pose proof (start_components config p g s0 Hstart)
    as (Hgt & _ & (gs & Hinit & Hgs) & _).
  apply gas_init_fresh in Hinit as (_ & _ & _ & Hread).
  assert (Hc0 : VehicleMonitorSystem.shutoff_calls s0 = 0%nat)
    by (unfold VehicleMonitorSystem.shutoff_calls; now rewrite Ht0).
  rewrite Hspi in Hgt.
  assert (Hrun : forall (l : list VehicleMonitorSystem.Step) (s : VehicleMonitorSystem.State),
            VehicleMonitorSystem.gas_thread s = false ->
            VehicleMonitorSystem.gas_sensor s = Some gs ->
            VehicleMonitorSystem.gas_sensor (VehicleMonitorSystem.run config s l) = Some gs /\
            VehicleMonitorSystem.emergency_shutdown (VehicleMonitorSystem.run config s l)
              = VehicleMonitorSystem.emergency_shutdown s /\
            VehicleMonitorSystem.shutoff_calls (VehicleMonitorSystem.run config s l)
              = VehicleMonitorSystem.shutoff_calls s).
  { induction l as [| x l IH]; intros s Hoff Hsensor; [auto |].
    rewrite run_cons.
    destruct (IH (VehicleMonitorSystem.step config s x)) as (S1 & E & C).
    - now apply step_keeps_gas_thread_off.
    - now rewrite step_without_gas_thread.
    - destruct (step_idle config s x) as [E' C'].
      + right. exists gs. split; [exact Hsensor |].
        unfold GasSensor.get_reading in Hread. injection Hread as _ _ Hst.
        rewrite Hst. discriminate.
      + repeat split; congruence. }
  destruct (Hrun steps s0 Hgt Hgs) as (S1 & E & C).
  rewrite S1. cbn [option_map]. rewrite Hread.
  repeat split; congruence.
Qed.

Lemma unstarted_sensor_reads_safe_forever_witness :
  let s := VehicleMonitorSystem.run CONFIG
             (fst (VehicleMonitorSystem.start CONFIG platform_without_spidev
                     (VehicleMonitorSystem.__init__ constant_generator)))
             leak_schedule in
  option_map GasSensor.get_reading (VehicleMonitorSystem.gas_sensor s)
    = Some (0%Z, 0, GasSensor.SAFE) /\
  VehicleMonitorSystem.emergency_shutdown s = false.
Proof.
  intros s.
  destruct (unstarted_sensor_reads_safe_forever CONFIG platform_without_spidev
              constant_generator
              (fst (VehicleMonitorSystem.start CONFIG platform_without_spidev
                      (VehicleMonitorSystem.__init__ constant_generator)))
              leak_schedule)
    as (Hr & He & _); [reflexivity | reflexivity |].
  split; [exact Hr | exact He].
Defined.

(** X23.  Without telemetry there is no inference.  When the OBD adapter
    does not connect, over any schedule no inference is ever run and
    [get_latest_result] keeps answering [(0.0, 'UNKNOWN')]. *)
Theorem no_inference_without_telemetry
    (config : VehicleMonitorSystem.Config) (p : VehicleMonitorSystem.Platform)
    (g : random.State) (s0 : VehicleMonitorSystem.State)
    (steps : list VehicleMonitorSystem.Step) :
  VehicleMonitorSystem.start config p (VehicleMonitorSystem.__init__ g) = (s0, true) ->
  VehicleMonitorSystem.obd_connects p = false ->
  let s := VehicleMonitorSystem.run config s0 steps in
  existsb VehicleMonitorSystem.is_Inference (VehicleMonitorSystem.trace s) = false /\
  option_map AIInferenceEngine.get_latest_result (VehicleMonitorSystem.ai_engine s)
    = Some (0, AIInferenceEngine.UNKNOWN).
Proof.
  intros Hstart Hobd s. subst s.
  pose proof (start_state config p g s0 Hstart) as (_ & Ht0 & _).
  pose proof (start_components config p g s0 Hstart)
    as (_ & Hot & _ & Ho & Hai).
  rewrite Hobd in Hot.
  assert (Hrun : forall (l : list VehicleMonitorSystem.Step) (s : VehicleMonitorSystem.State),
            VehicleMonitorSystem.obd_thread s = false ->
            (exists o, VehicleMonitorSystem.obd s = Some o /\
                       OBDInterface.latest_data o = ∅) ->
            VehicleMonitorSystem.ai_engine (VehicleMonitorSystem.run config s l)
              = VehicleMonitorSystem.ai_engine s /\
            existsb VehicleMonitorSystem.is_Inference
              (VehicleMonitorSystem.trace (VehicleMonitorSystem.run config s l))
              = existsb VehicleMonitorSystem.is_Inference (VehicleMonitorSystem.trace s)).
  { induction l as [| x l IH]; intros s Hoff Hempty; [auto |].
    rewrite run_cons.
    destruct (step_without_obd config s x Hoff Hempty)
      as (Hoff' & Hobd' & Hai' & l' & Hl' & Hnone).
    destruct (IH (VehicleMonitorSystem.step config s x) Hoff') as (A & T).
    { now rewrite Hobd'. }
    split; [congruence |].
    rewrite T, Hl', existsb_app, Hnone. apply orb_false_r. }
  destruct (Hrun steps s0 Hot Ho) as (A & T).
  rewrite T, Ht0, A, Hai. split; reflexivity.
Qed.

Lemma no_inference_without_telemetry_witness :
  let s := VehicleMonitorSystem.run CONFIG
             (fst (VehicleMonitorSystem.start CONFIG platform_without_obd
                     (VehicleMonitorSystem.__init__ constant_generator)))
             leak_schedule in
  existsb VehicleMonitorSystem.is_Inference (VehicleMonitorSystem.trace s) = false.
Proof.
  intros s.
  destruct (no_inference_without_telemetry CONFIG platform_without_obd
              constant_generator
              (fst (VehicleMonitorSystem.start CONFIG platform_without_obd
                      (VehicleMonitorSystem.__init__ constant_generator)))
              leak_schedule)
    as (H & _); [reflexivity | reflexivity | exact H].
Defined.

(** X24.  After [stop] nothing moves: the loop has ended and both
    producer threads are stopped, so any further pass of a producer and
    any further turn of the loop leaves the whole state, valve included,
    as [stop] left it. *)
Theorem nothing_runs_after_stop
    (config : VehicleMonitorSystem.Config) (s : VehicleMonitorSystem.State)
    (steps : list VehicleMonitorSystem.Step) :
  VehicleMonitorSystem.no_Stop steps ->
  VehicleMonitorSystem.run config (VehicleMonitorSystem.stop config s) steps
    = VehicleMonitorSystem.stop config s.
Proof.
  intros Hns.
  destruct (stop_flags config s) as (Ha & Hg & Ho & _).
  set (z := VehicleMonitorSystem.stop config s) in *.
  induction Hns as [| x rest Hx _ IH]; [reflexivity |].
  rewrite run_cons.
  replace (VehicleMonitorSystem.step config z x) with z; [exact IH |].
  destruct x as [t raw | t data | t |]; [| | | discriminate];
    cbn [VehicleMonitorSystem.step].
  - destruct (VehicleMonitorSystem.gas_sensor z); [| reflexivity]. now rewrite Hg.
  - destruct (VehicleMonitorSystem.obd z); [| reflexivity]. now rewrite Ho.
  - unfold VehicleMonitorSystem.main_loop_turn. now rewrite Ha.
Qed.

Lemma nothing_runs_after_stop_witness :
  VehicleMonitorSystem.run CONFIG
    (VehicleMonitorSystem.stop CONFIG started_system) leak_schedule
  = VehicleMonitorSystem.stop CONFIG started_system.
Proof.
  apply (nothing_runs_after_stop CONFIG started_system leak_schedule).
  repeat constructor.
Defined.
